(** * fastenv: the per-tool installation pipeline of [fastenv.py]

    A shallow embedding of the non-presentation part of [InstallerApp]:
    the downloader ([download_file]), the archive expander
    ([extract_file]), the layout normaliser ([fix_directory_structure],
    [move_contents]), the path registrar ([add_to_system_path]) and the
    orchestration around them ([scan_existing_files],
    [start_installation], [cancel_installation], [install_tool],
    [check_all_completed], [process_ui_updates]).

    Conventions of the model.
    - The file system below the chosen [save_dir] is a tree of [node]s; a
      path is the list of its components below [save_dir].  Symbolic links,
      [..] components and OS-level refusals (permissions, locked files) are
      outside the model, except where the source handles the refusal
      itself (the logged [rmtree] of the nested directory).
    - Python floats are read as exact rationals ([Q]).
    - The status bar and the buttons of the main window are no part of
      [World]; [cancel_installation] is modelled with them ([Controls]).
    - What the outside world answers (HTTP responses, the zip reader, the
      return code of PowerShell, the moment the user cancels) is an input
      of the model, never fixed by it. *)

From Stdlib Require Import Ascii String QArith Lia Lqa.
From stdpp Require Import gmap strings list fin_maps sorting.

Set Warnings "-register-all".
Open Scope string_scope.
Open Scope list_scope.

(** ** The file system below [save_dir] *)

Abbreviation path := (list string).

Inductive node :=
  | File (data : string)
  | Dir (entries : gmap string node).

Fixpoint fs_lookup (p : path) (n : node) : option node :=
  match p with
  | [] => Some n
  | c :: p' =>
      match n with
      | Dir m => m !! c ≫= fs_lookup p'
      | File _ => None
      end
  end.

(** [fs_alter f p n] rewrites the entry named by the last component of [p]
    inside its parent directory; nothing happens when the parent is
    missing or is a file, and the root itself is never replaced. *)
Fixpoint fs_alter (f : option node → option node) (p : path) (n : node) : node :=
  match p with
  | [] => n
  | c :: p' =>
      match n with
      | File d => File d
      | Dir m =>
          match p' with
          | [] => Dir (partial_alter f c m)
          | _ :: _ => Dir (alter (fs_alter f p') c m)
          end
      end
  end.

Definition fs_remove (p : path) (n : node) : node := fs_alter (λ _, None) p n.
Definition fs_put (p : path) (v : node) (n : node) : node := fs_alter (λ _, Some v) p n.

(** [Path.exists], [Path.is_dir], [Path.is_file]. *)
Definition fs_exists (p : path) (n : node) : bool :=
  match fs_lookup p n with Some _ => true | None => false end.
Definition fs_is_dir (p : path) (n : node) : bool :=
  match fs_lookup p n with Some (Dir _) => true | _ => false end.
Definition fs_is_file (p : path) (n : node) : bool :=
  match fs_lookup p n with Some (File _) => true | _ => false end.

(** [Path.iterdir]: the children of a directory, [None] when [p] is not a
    directory (the source then gets an [OSError]). *)
Definition fs_iterdir (p : path) (n : node) : option (list path) :=
  match fs_lookup p n with
  | Some (Dir m) => Some ((λ kv, p ++ [kv.1]) <$> map_to_list m)
  | _ => None
  end.

(** [os.makedirs(p, exist_ok=True)]: [None] when a file is in the way. *)
Fixpoint fs_makedirs (p : path) (n : node) : option node :=
  match n with
  | File _ => None
  | Dir m =>
      match p with
      | [] => Some n
      | c :: p' =>
          match fs_makedirs p' (default (Dir ∅) (m !! c)) with
          | Some child => Some (Dir (<[c := child]> m))
          | None => None
          end
      end
  end.

(** [p.parent] and [p.name]. *)
Definition parent (p : path) : path := removelast p.
Definition name (p : path) : string := List.last p "".

(** The components of a relative path text such as ["bin"] or [""], as
    [pathlib] splits it when it is joined to a directory: separators are
    [/] and [\], empty and [.] components vanish. *)
Definition is_sep (a : Ascii.ascii) : bool :=
  (Ascii.eqb a "/"%char || Ascii.eqb a "\"%char)%bool.

Fixpoint components_aux (s cur : string) : list string :=
  match s with
  | EmptyString => [cur]
  | String a s' =>
      if is_sep a then cur :: components_aux s' ""
      else components_aux s' (cur +:+ String a "")
  end.

Definition plain_component (c : string) : bool :=
  negb (String.eqb c "" || String.eqb c ".").

Definition components (s : string) : list string :=
  List.filter plain_component (components_aux s "").

(** [base / sub] of [pathlib]. *)
Definition join (base : path) (sub : string) : path := base ++ components sub.

(** ** Exceptions *)

(** The exceptions that travel through the pipeline.  The first group is
    raised by the libraries, the second by the source itself
    ([raise Exception(f"...: {e}")]), which wraps the cause in a message
    that names the stage. *)
Inductive Exn :=
  | ConnectionError            (* requests.ConnectionError, requests.Timeout *)
  | HTTPError                  (* raise_for_status *)
  | RequestError               (* any other requests failure, e.g. a broken chunked body *)
  | OSError                    (* FileNotFoundError, IsADirectoryError, shutil.Error, ... *)
  | BadZipFile
  | TypeError
  | NoContentLength            (* "cannot obtain the file size" *)
  | SetPathFailed (stderr : string)   (* "setting PATH failed: <stderr>" *)
  | DownloadRetriesExhausted (cause : Exn)   (* "download failed (after several attempts)" *)
  | DownloadHttpFailed (cause : Exn)         (* "download failed (HTTP error)" *)
  | DownloadFailed (cause : Exn)             (* "download failed" *)
  | ExtractFailed (cause : Exn)              (* "extraction failed" *)
  | EnvVarFailed (cause : Exn).              (* "setting the environment variable failed" *)

(** The error kinds of the specification. *)
Inductive ErrorKind := TransferError | ExtractError | LayoutError | RegistrationError.

Definition error_kind (e : Exn) : option ErrorKind :=
  match e with
  | DownloadRetriesExhausted _ | DownloadHttpFailed _ | DownloadFailed _ => Some TransferError
  | ExtractFailed _ => Some ExtractError
  | EnvVarFailed _ => Some RegistrationError
  | _ => None
  end.

(** ** The state of the application and of its surroundings *)

(** Status texts shown next to a tool. *)
Inductive Status :=
  | StExisting      (* "file already present" *)
  | StPreparing     (* "preparing..." *)
  | StVerifying     (* "verifying file..." *)
  | StDownloading   (* "downloading..." *)
  | StExtracting    (* "extracting..." *)
  | StFixing        (* "arranging the directory structure..." *)
  | StConfiguring   (* "configuring the environment variable..." *)
  | StDone          (* "done" *)
  | StFailed        (* "failed" *)
  | StCancelled.    (* "cancelled" *)

(** The closures put on [ui_update_queue]. *)
Inductive UiUpdate :=
  | SetStepBar (tool step : string) (p : Q)
  | SetProgressBar (tool : string) (p : Q)
  | SetStatus (tool : string) (s : Status).

(** Effects on the outside that the claims speak about. *)
Inductive Event :=
  | EvRequest (url : string)          (* requests.get *)
  | EvSleep (secs : nat)              (* time.sleep *)
  | EvLogInfo | EvLogWarning | EvLogError
  | EvShowInfo (title : string)       (* messagebox.showinfo *)
  | EvShowError (title : string).     (* messagebox.showerror *)

Record World := {
  save_dir : string;                   (* the text of the chosen directory *)
  fs : node;                           (* what lies below it *)
  existing_files : gmap string path;
  installation_completed : bool;
  (* the user's cancel: how many more reads of the flag by a worker still
     see it unset; [None] when the user never cancels *)
  cancel_in : option nat;
  threads : gmap string bool;          (* tool ↦ Thread.is_alive() *)
  ui_update_queue : list UiUpdate;
  progress_bars : gmap string Q;
  step_progress_bars : gmap (string * string) Q;
  status_labels : gmap string Status;
  user_path : string;                  (* the persistent user-scoped PATH *)
  trace : list Event
}.

Definition set_fs (f : node → node) (w : World) : World :=
  {| save_dir := save_dir w; fs := f (fs w); existing_files := existing_files w;
     installation_completed := installation_completed w; cancel_in := cancel_in w;
     threads := threads w; ui_update_queue := ui_update_queue w;
     progress_bars := progress_bars w; step_progress_bars := step_progress_bars w;
     status_labels := status_labels w; user_path := user_path w; trace := trace w |}.

Definition set_existing_files (e : gmap string path) (w : World) : World :=
  {| save_dir := save_dir w; fs := fs w; existing_files := e;
     installation_completed := installation_completed w; cancel_in := cancel_in w;
     threads := threads w; ui_update_queue := ui_update_queue w;
     progress_bars := progress_bars w; step_progress_bars := step_progress_bars w;
     status_labels := status_labels w; user_path := user_path w; trace := trace w |}.

Definition set_flag (b : bool) (c : option nat) (w : World) : World :=
  {| save_dir := save_dir w; fs := fs w; existing_files := existing_files w;
     installation_completed := b; cancel_in := c;
     threads := threads w; ui_update_queue := ui_update_queue w;
     progress_bars := progress_bars w; step_progress_bars := step_progress_bars w;
     status_labels := status_labels w; user_path := user_path w; trace := trace w |}.

Definition set_threads (t : gmap string bool) (w : World) : World :=
  {| save_dir := save_dir w; fs := fs w; existing_files := existing_files w;
     installation_completed := installation_completed w; cancel_in := cancel_in w;
     threads := t; ui_update_queue := ui_update_queue w;
     progress_bars := progress_bars w; step_progress_bars := step_progress_bars w;
     status_labels := status_labels w; user_path := user_path w; trace := trace w |}.

Definition set_queue (q : list UiUpdate) (w : World) : World :=
  {| save_dir := save_dir w; fs := fs w; existing_files := existing_files w;
     installation_completed := installation_completed w; cancel_in := cancel_in w;
     threads := threads w; ui_update_queue := q;
     progress_bars := progress_bars w; step_progress_bars := step_progress_bars w;
     status_labels := status_labels w; user_path := user_path w; trace := trace w |}.

Definition set_widgets (pb : gmap string Q) (sb : gmap (string * string) Q)
    (sl : gmap string Status) (w : World) : World :=
  {| save_dir := save_dir w; fs := fs w; existing_files := existing_files w;
     installation_completed := installation_completed w; cancel_in := cancel_in w;
     threads := threads w; ui_update_queue := ui_update_queue w;
     progress_bars := pb; step_progress_bars := sb;
     status_labels := sl; user_path := user_path w; trace := trace w |}.

Definition set_user_path (s : string) (w : World) : World :=
  {| save_dir := save_dir w; fs := fs w; existing_files := existing_files w;
     installation_completed := installation_completed w; cancel_in := cancel_in w;
     threads := threads w; ui_update_queue := ui_update_queue w;
     progress_bars := progress_bars w; step_progress_bars := step_progress_bars w;
     status_labels := status_labels w; user_path := s; trace := trace w |}.

Definition set_trace (t : list Event) (w : World) : World :=
  {| save_dir := save_dir w; fs := fs w; existing_files := existing_files w;
     installation_completed := installation_completed w; cancel_in := cancel_in w;
     threads := threads w; ui_update_queue := ui_update_queue w;
     progress_bars := progress_bars w; step_progress_bars := step_progress_bars w;
     status_labels := status_labels w; user_path := user_path w; trace := t |}.

(** ** A state and exception monad for the methods of [InstallerApp] *)

Inductive Result (A : Type) :=
  | Ok (a : A)
  | Raise (e : Exn).
Arguments Ok {A} a.
Arguments Raise {A} e.

Definition M (A : Type) : Type := World → Result A * World.

Definition ret {A} (a : A) : M A := λ w, (Ok a, w).
Definition raise {A} (e : Exn) : M A := λ w, (Raise e, w).
Definition bind {A B} (m : M A) (k : A → M B) : M B :=
  λ w, match m w with
       | (Ok a, w') => k a w'
       | (Raise e, w') => (Raise e, w')
       end.
(** [try: m except Exception as e: h e] *)
Definition try_except {A} (m : M A) (h : Exn → M A) : M A :=
  λ w, match m w with
       | (Ok a, w') => (Ok a, w')
       | (Raise e, w') => h e w'
       end.
Definition gets {A} (f : World → A) : M A := λ w, (Ok (f w), w).
Definition modify (f : World → World) : M unit := λ w, (Ok tt, f w).

#[global] Instance M_ret : MRet M := @ret.
#[global] Instance M_bind : MBind M := λ A B k m, bind m k.

Definition emit (e : Event) : M unit := modify (λ w, set_trace (trace w ++ [e]) w).
(** [self.ui_update_queue.put(...)] *)
Definition queue_put (u : UiUpdate) : M unit :=
  modify (λ w, set_queue (ui_update_queue w ++ [u]) w).
Definition update_status (tool_name : string) (s : Status) : M unit :=
  queue_put (SetStatus tool_name s).

(** Reading [self.installation_completed] from a worker thread: the user's
    cancel, set by the main thread, becomes visible at the read it is
    scheduled for and stays set. *)
Definition read_flag : M bool := λ w,
  match cancel_in w with
  | Some 0 => (Ok true, set_flag true (Some 0) w)
  | Some (S k) => (Ok (installation_completed w), set_flag (installation_completed w) (Some k) w)
  | None => (Ok (installation_completed w), w)
  end.

(** ** Layout normaliser *)

(** [shutil.rmtree(p)] and [Path.unlink(p)], where they succeed. *)
Definition rmtree (p : path) : M unit :=
  b ← gets (λ w, fs_is_dir p (fs w));
  if b : bool then modify (set_fs (fs_remove p)) else raise OSError.

Definition unlink (p : path) : M unit :=
  b ← gets (λ w, fs_is_file p (fs w));
  if b : bool then modify (set_fs (fs_remove p)) else raise OSError.

(** [shutil.move(src, dst)]: into [dst] when [dst] is a directory, onto
    [dst] otherwise; refuses an occupied destination and a missing
    source. *)
Definition shutil_move (src dst : path) : M unit :=
  dst_is_dir ← gets (λ w, fs_is_dir dst (fs w));
  let real_dst := if dst_is_dir : bool then dst ++ [name src] else dst in
  occupied ← gets (λ w, fs_exists real_dst (fs w));
  if (dst_is_dir && occupied)%bool then raise OSError
  else
    s ← gets (λ w, fs_lookup src (fs w));
    match s with
    | None => raise OSError
    | Some v =>
        parent_ok ← gets (λ w, fs_is_dir (parent real_dst) (fs w));
        if negb parent_ok || bool_decide (src `prefix_of` real_dst) then raise OSError
        else modify (set_fs (λ n, fs_put real_dst v (fs_remove src n)))
    end.

Fixpoint for_each {A} (l : list A) (body : A → M unit) : M unit :=
  match l with
  | [] => ret tt
  | x :: l' => body x ;; for_each l' body
  end.

Definition iterdir (p : path) : M (list path) :=
  r ← gets (λ w, fs_iterdir p (fs w));
  match r with
  | Some items => ret items
  | None => raise OSError
  end.

(** The body of the loop of [move_contents], for one [item] of [src_dir]. *)
Definition move_item (dst_dir item : path) : M unit :=
  let dst_item := dst_dir ++ [name item] in
  (ex ← gets (λ w, fs_exists dst_item (fs w));
   if ex : bool then
     d ← gets (λ w, fs_is_dir dst_item (fs w));
     if d : bool then rmtree dst_item else unlink dst_item
   else ret tt) ;;
  shutil_move item dst_dir.

Definition move_contents (src_dir dst_dir : path) : M unit :=
  items ← iterdir src_dir;
  for_each items (move_item dst_dir).

(** [p.is_dir() and any(p.iterdir())] *)
Definition dir_nonempty (p : path) (n : node) : bool :=
  match fs_lookup p n with
  | Some (Dir m) => negb (bool_decide (map_to_list m = []))
  | _ => false
  end.

(** ** Fetcher *)

Definition Qnat (n : nat) : Q := inject_Z (Z.of_nat n).

(** How the body of a response ends: normally, with a connection failure
    or timeout ([iter_content] raises [ConnectionError]), or with another
    failure of the transfer. *)
Inductive StreamEnd := EndOfBody | BrokenConnection | BrokenBody.

(** What [requests.get(url, stream=True, timeout=30)] and the reading of the
    body lead to in one attempt. *)
Inductive Attempt :=
  | GetConnectionError                  (* requests.get raises ConnectionError or Timeout *)
  | GetRequestError                     (* requests.get raises another requests error *)
  | StatusError                         (* raise_for_status raises HTTPError *)
  | Response (content_length : option nat) (chunks : list string) (ending : StreamEnd).

(** [open(p, 'wb')]: creates or truncates the file. *)
Definition open_wb (p : path) : M unit :=
  d ← gets (λ w, fs_is_dir p (fs w));
  parent_ok ← gets (λ w, fs_is_dir (parent p) (fs w));
  if (d || negb parent_ok)%bool then raise OSError
  else modify (set_fs (fs_put p (File ""))).

(** [file.write(chunk)] *)
Definition file_write (p : path) (chunk : string) : M unit :=
  modify (set_fs (fs_alter (λ o, match o with
                                 | Some (File d) => Some (File (d +:+ chunk))
                                 | _ => o
                                 end) p)).

(** [p.mkdir(parents=True, exist_ok=True)] *)
Definition mkdir_parents (p : path) : M unit :=
  r ← gets (λ w, fs_makedirs p (fs w));
  match r with
  | Some f => modify (set_fs (λ _, f))
  | None => raise OSError
  end.

(** The loop over [response.iter_content(chunk_size=8192)]. *)
Fixpoint download_chunks (save_path : path) (tool_name : string) (total_size : nat)
    (chunks : list string) (ending : StreamEnd) (downloaded : nat) : M bool :=
  match chunks with
  | [] =>
      match ending with
      | EndOfBody => ret true
      | BrokenConnection => raise ConnectionError
      | BrokenBody => raise RequestError
      end
  | chunk :: rest =>
      if String.eqb chunk "" then
        download_chunks save_path tool_name total_size rest ending downloaded
      else
        cancelled ← read_flag;
        if cancelled : bool then
          unlink save_path ;; ret false
        else
          file_write save_path chunk ;;
          let downloaded := downloaded + String.length chunk in
          let download_progress := (Qnat downloaded / Qnat total_size * 100)%Q in
          queue_put (SetStepBar tool_name "download" download_progress) ;;
          let total_progress := (Qnat downloaded / Qnat total_size * 33)%Q in
          queue_put (SetProgressBar tool_name total_progress) ;;
          download_chunks save_path tool_name total_size rest ending downloaded
  end.

(** The body of the [try] of [download_file], for the attempt numbered
    [attempt]. *)
Definition download_attempt (http : string → nat → Attempt) (url : string)
    (save_path : path) (tool_name : string) (attempt : nat) : M bool :=
  emit (EvRequest url) ;;
  match http url attempt with
  | GetConnectionError => raise ConnectionError
  | GetRequestError => raise RequestError
  | StatusError => raise HTTPError
  | Response content_length chunks ending =>
      let total_size := default 0 content_length in
      if Nat.eqb total_size 0 then raise NoContentLength
      else
        mkdir_parents (parent save_path) ;;
        open_wb save_path ;;
        download_chunks save_path tool_name total_size chunks ending 0
  end.

(** [for attempt in range(max_retries)], with [remaining] turns to go; the
    result is [None] when the loop runs out without returning. *)
Fixpoint download_loop (http : string → nat → Attempt) (url : string) (save_path : path)
    (tool_name : string) (max_retries remaining : nat) : M (option bool) :=
  match remaining with
  | 0 => ret None
  | S remaining' =>
      let attempt := max_retries - remaining in
      try_except
        (b ← download_attempt http url save_path tool_name attempt; ret (Some b))
        (λ e,
           match e with
           | ConnectionError =>
               if Nat.ltb attempt (max_retries - 1) then
                 emit EvLogWarning ;;
                 emit (EvSleep (2 ^ attempt)) ;;
                 download_loop http url save_path tool_name max_retries remaining'
               else raise (DownloadRetriesExhausted e)
           | HTTPError => raise (DownloadHttpFailed e)
           | _ =>
               present ← gets (λ w, fs_is_file save_path (fs w));
               (if present : bool then unlink save_path else ret tt) ;;
               raise (DownloadFailed e)
           end)
  end.

Definition download_file (http : string → nat → Attempt) (url : string) (save_path : path)
    (tool_name : string) (max_retries : nat) : M (option bool) :=
  download_loop http url save_path tool_name max_retries max_retries.

(** ** Archive expander *)

Record ZipInfo := {
  zi_filename : path;       (* the member name, split and sanitised as [zipfile] does *)
  zi_is_dir : bool;
  zi_data : string;
  zi_corrupt : bool         (* reading the member fails (bad CRC, truncated) *)
}.

(** [os.mkdir(p)] *)
Definition mkdir (p : path) : M unit :=
  ex ← gets (λ w, fs_exists p (fs w));
  parent_ok ← gets (λ w, fs_is_dir (parent p) (fs w));
  if (ex || negb parent_ok)%bool then raise OSError
  else modify (set_fs (fs_put p (Dir ∅))).

(** [zip_ref.extract(file, tool_dir)] *)
Definition zip_extract (tool_dir : path) (file : ZipInfo) : M unit :=
  let targetpath := tool_dir ++ zi_filename file in
  let upperdirs := parent targetpath in
  ex ← gets (λ w, fs_exists upperdirs (fs w));
  (if ex : bool then ret tt else mkdir_parents upperdirs) ;;
  if zi_is_dir file then
    d ← gets (λ w, fs_is_dir targetpath (fs w));
    if d : bool then ret tt else mkdir targetpath
  else
    open_wb targetpath ;;
    if zi_corrupt file then raise BadZipFile
    else file_write targetpath (zi_data file).

(** The loop over [zip_ref.infolist()]. *)
Fixpoint extract_members (tool_dir : path) (tool_name : string) (total_files : nat)
    (infos : list ZipInfo) (extracted : nat) : M (option path) :=
  match infos with
  | [] => ret (Some tool_dir)
  | file :: rest =>
      cancelled ← read_flag;
      if cancelled : bool then ret None
      else
        zip_extract tool_dir file ;;
        let extracted := extracted + 1 in
        let extract_progress := (Qnat extracted / Qnat total_files * 100)%Q in
        queue_put (SetStepBar tool_name "extract" extract_progress) ;;
        let total_progress := (33 + Qnat extracted / Qnat total_files * 33)%Q in
        queue_put (SetProgressBar tool_name total_progress) ;;
        extract_members tool_dir tool_name total_files rest extracted
  end.

(** [zipfile.ZipFile(save_path, 'r')] *)
Definition zip_open (zip_infolist : string → option (list ZipInfo)) (save_path : path)
    : M (list ZipInfo) :=
  f ← gets (λ w, fs_lookup save_path (fs w));
  match f with
  | Some (File data) =>
      match zip_infolist data with
      | Some infos => ret infos
      | None => raise BadZipFile
      end
  | _ => raise OSError
  end.

Definition extract_file (zip_infolist : string → option (list ZipInfo)) (save_path tool_dir : path)
    (tool_name : string) : M (option path) :=
  try_except
    (d ← gets (λ w, fs_is_dir tool_dir (fs w));
     (if d : bool then rmtree tool_dir else ret tt) ;;
     mkdir_parents tool_dir ;;
     infos ← zip_open zip_infolist save_path;
     let total_files := length infos in
     extract_members tool_dir tool_name total_files infos 0)
    (λ e,
       d ← gets (λ w, fs_is_dir tool_dir (fs w));
       (if d : bool then rmtree tool_dir else ret tt) ;;
       raise (ExtractFailed e)).

(** ** What the surroundings decide *)

Record Env := {
  (* what [requests.get(url)] leads to at the k-th attempt for that url *)
  http : string → nat → Attempt;
  (* [zipfile.ZipFile(f).infolist()] on the bytes of a file; [None] for a
     file that is not a zip archive *)
  zip_infolist : string → option (list ZipInfo);
  (* the OS refuses to remove the emptied nested directory *)
  rmtree_refused : bool;
  (* PowerShell's answer to a well-formed command: the write is accepted *)
  ps_accepts : bool;
  ps_stderr : string;
  (* PowerShell's answer (return code, new PATH) to any other script text *)
  ps_other : string → string → Z * string
}.

Definition fix_directory_structure (env : Env) (base_dir : path) (bin_subdir : string)
    (is_single_exe : bool) : M path :=
  if is_single_exe then ret base_dir
  else
    let target_bin := join base_dir bin_subdir in
    laid_out ← gets (λ w, dir_nonempty target_bin (fs w));
    if laid_out : bool then ret base_dir
    else
      items ← iterdir base_dir;
      subdirs ← gets (λ w, List.filter (λ d, fs_is_dir d (fs w)) items);
      match subdirs with
      | [nested_dir] =>
          let nested_bin := join nested_dir bin_subdir in
          nb ← gets (λ w, dir_nonempty nested_bin (fs w));
          (if (is_single_exe || nb)%bool then
             move_contents nested_dir base_dir ;;
             if rmtree_refused env then emit EvLogWarning
             else try_except (rmtree nested_dir) (λ _, emit EvLogWarning)
           else ret tt) ;;
          ret base_dir
      | _ => ret base_dir
      end.

(** ** Path registrar *)

(** [str(p.resolve())] for a path below [save_dir]: components are joined
    with the separator of the platform.  [save_dir] is the text of a
    directory that does not end in a separator, that is, not of a drive
    root. *)
Definition join_text (dir c : string) : string := dir +:+ "\" +:+ c.
Definition path_text (root : string) (p : path) : string := foldl join_text root p.

(** The command line handed to [subprocess.run]. *)
Definition set_path_command (target_path : string) : list string :=
  ["powershell.exe"; "-NoProfile"; "-Command";
   "[Environment]::SetEnvironmentVariable('PATH', " +:+
   "[Environment]::GetEnvironmentVariable('PATH', 'User') + ';" +:+
   target_path +:+ "'" +:+ ", 'User')"].

(** PowerShell, as far as this command needs it.  A single-quoted literal
    runs to the next single quote that is not doubled; a doubled quote
    inside it stands for one quote. *)
Fixpoint ps_scan_literal (s : string) : option (string * string) :=
  match s with
  | EmptyString => None
  | String a s' =>
      if Ascii.eqb a "'" then
        match s' with
        | String b s'' =>
            if Ascii.eqb b "'" then
              match ps_scan_literal s'' with
              | Some (lit, rest) => Some (String "'" lit, rest)
              | None => None
              end
            else Some (EmptyString, s')
        | EmptyString => Some (EmptyString, s')
        end
      else
        match ps_scan_literal s' with
        | Some (lit, rest) => Some (String a lit, rest)
        | None => None
        end
  end.

Fixpoint strip_prefix (p s : string) : option string :=
  match p with
  | EmptyString => Some s
  | String a p' =>
      match s with
      | String b s' => if Ascii.eqb a b then strip_prefix p' s' else None
      | EmptyString => None
      end
  end.

Definition ps_set_path_head : string :=
  "[Environment]::SetEnvironmentVariable('PATH', " +:+
  "[Environment]::GetEnvironmentVariable('PATH', 'User') + '".
Definition ps_set_path_tail : string := ", 'User')".

(** [subprocess.run(cmd, capture_output=True, text=True)]: the return code,
    the error text and the persistent user PATH afterwards.  A script of
    the shape [SetEnvironmentVariable('PATH', GetEnvironmentVariable('PATH',
    'User') + '<literal>', 'User')] writes the old value followed by the
    literal when the platform accepts the write; what PowerShell does with
    any other text is left to the surroundings. *)
Definition run_powershell (env : Env) (cmd : list string) (old_path : string)
    : Z * string * string :=
  match cmd with
  | [_; _; _; script] =>
      match strip_prefix ps_set_path_head script with
      | Some body =>
          match ps_scan_literal body with
          | Some (literal, rest) =>
              if String.eqb rest ps_set_path_tail then
                if ps_accepts env then (0%Z, "", old_path +:+ literal)
                else (1%Z, ps_stderr env, old_path)
              else let '(rc, p) := ps_other env script old_path in (rc, ps_stderr env, p)
          | None => let '(rc, p) := ps_other env script old_path in (rc, ps_stderr env, p)
          end
      | None => let '(rc, p) := ps_other env script old_path in (rc, ps_stderr env, p)
      end
  | _ => (1%Z, ps_stderr env, old_path)
  end.

Definition add_to_system_path (env : Env) (tool_dir : path) (bin_subdir : string)
    (is_single_exe : bool) (tool_name : string) : M unit :=
  let target_path := if is_single_exe then tool_dir else join tool_dir bin_subdir in
  target_path ← gets (λ w, path_text (save_dir w) target_path);
  try_except
    (let cmd := set_path_command target_path in
     result ← gets (λ w, run_powershell env cmd (user_path w));
     let '(returncode, stderr, new_path) := result in
     modify (set_user_path new_path) ;;
     if negb (Z.eqb returncode 0) then raise (SetPathFailed stderr)
     else
       emit EvLogInfo ;;
       queue_put (SetStepBar tool_name "config" 100) ;;
       queue_put (SetProgressBar tool_name 100) ;;
       emit (EvShowInfo "configured"))
    (λ e, raise (EnvVarFailed e)).

(** ** Installation orchestrator *)

Record ToolConfig := {
  url : string;
  bin_subdir : string;
  is_single_exe : bool
}.

(** The catalogue, in the order of the source; the description and version
    texts play no part in the pipeline. *)
Definition TOOLS : list (string * ToolConfig) :=
  [ ("Clangd",
     {| url := "https://github.com/clangd/clangd/releases/download/20.1.0/clangd-windows-20.1.0.zip";
        bin_subdir := "bin"; is_single_exe := false |});
    ("ARM-GCC",
     {| url := "https://developer.arm.com/-/media/Files/downloads/gnu/14.2.rel1/binrel/arm-gnu-toolchain-14.2.rel1-mingw-w64-x86_64-arm-none-eabi.zip";
        bin_subdir := "bin"; is_single_exe := false |});
    ("CMake",
     {| url := "https://github.com/Kitware/CMake/releases/download/v4.0.1/cmake-4.0.1-windows-x86_64.zip";
        bin_subdir := "bin"; is_single_exe := false |});
    ("Ninja",
     {| url := "https://github.com/ninja-build/ninja/releases/download/v1.12.1/ninja-win.zip";
        bin_subdir := ""; is_single_exe := true |});
    ("OpenOCD",
     {| url := "https://github.com/xpack-dev-tools/openocd-xpack/releases/download/v0.12.0-6/xpack-openocd-0.12.0-6-win32-x64.zip";
        bin_subdir := "bin"; is_single_exe := false |}) ].

Definition INSTALL_STEPS : list string := ["download"; "extract"; "config"].

(** [Path(urlsplit(url).path).name] and [.stem], for a URL with a non-empty
    path and neither query nor fragment. *)
Definition archive_name (url : string) : string := name (components url).

Fixpoint before_last_dot (s : string) : option string :=
  match s with
  | EmptyString => None
  | String a s' =>
      match before_last_dot s' with
      | Some p => Some (String a p)
      | None => if Ascii.eqb a "." then Some EmptyString else None
      end
  end.

Definition stem (file_name : string) : string :=
  match before_last_dot file_name with
  | Some p =>
      if (Nat.ltb 0 (String.length p)
          && Nat.ltb (String.length p) (String.length file_name - 1))%bool
      then p else file_name
  | None => file_name
  end.

Definition archive_stem (url : string) : string := stem (archive_name url).

Definition scan_existing_files : M unit :=
  modify (set_existing_files ∅) ;;
  for_each TOOLS (λ '(tool_name, tool_config),
    let filename := archive_name (url tool_config) in
    let file_path := [filename] in
    present ← gets (λ w, fs_is_file file_path (fs w));
    if present : bool then
      modify (λ w, set_existing_files (<[tool_name := file_path]> (existing_files w)) w) ;;
      update_status tool_name StExisting ;;
      queue_put (SetStepBar tool_name "download" 100) ;;
      emit EvLogInfo
    else ret tt).

(** One closure taken from the queue and run on the widgets. *)
Definition apply_update (u : UiUpdate) (w : World) : World :=
  match u with
  | SetStepBar tool step p =>
      set_widgets (progress_bars w) (<[(tool, step) := p]> (step_progress_bars w))
        (status_labels w) w
  | SetProgressBar tool p =>
      set_widgets (<[tool := p]> (progress_bars w)) (step_progress_bars w) (status_labels w) w
  | SetStatus tool s =>
      set_widgets (progress_bars w) (step_progress_bars w) (<[tool := s]> (status_labels w)) w
  end.

Definition process_ui_updates : M unit :=
  modify (λ w, set_queue [] (foldl (λ w u, apply_update u w) w (ui_update_queue w))).

Definition check_all_completed : M unit :=
  all_completed ← gets (λ w, forallb negb (map_to_list (threads w)).*2);
  (* [all_completed and not self.installation_completed]: the flag is read
     only when the first operand holds *)
  if all_completed : bool then
    flag ← read_flag;
    if negb flag then
      modify (λ w, set_flag true (cancel_in w) w) ;;
      emit (EvShowInfo "installation complete")
    else ret tt
  else ret tt.

(** The ways [install_tool] comes to its end: it ran through, it returned
    early on a set flag, or it reported an exception. *)
Inductive Outcome := Completed | Cancelled | Failed (e : Exn).

Definition install_tool (env : Env) (tool_name : string) (tool_config : ToolConfig)
    : M Outcome :=
  try_except
    (c0 ← read_flag;
     if c0 : bool then ret Cancelled
     else
       let tool_dir := [archive_stem (url tool_config)] in
       let filename := archive_name (url tool_config) in
       let save_path := [filename] in
       existing ← gets (λ w, existing_files w !! tool_name);
       save_path ← match existing with
                   | Some existing_file =>
                       update_status tool_name StVerifying ;; ret existing_file
                   | None =>
                       update_status tool_name StDownloading ;;
                       download_file (http env) (url tool_config) save_path tool_name 3 ;;
                       ret save_path
                   end;
       c1 ← read_flag;
       if c1 : bool then ret Cancelled
       else
         update_status tool_name StExtracting ;;
         extract_dir ← extract_file (zip_infolist env) save_path tool_dir tool_name;
         c2 ← read_flag;
         if c2 : bool then ret Cancelled
         else
           update_status tool_name StFixing ;;
           actual_tool_dir ← match extract_dir with
                             | Some d =>
                                 fix_directory_structure env d (bin_subdir tool_config)
                                   (is_single_exe tool_config)
                             | None => raise TypeError
                             end;
           c3 ← read_flag;
           if c3 : bool then ret Cancelled
           else
             update_status tool_name StConfiguring ;;
             add_to_system_path env actual_tool_dir (bin_subdir tool_config)
               (is_single_exe tool_config) tool_name ;;
             update_status tool_name StDone ;;
             check_all_completed ;;
             ret Completed)
    (λ e,
       update_status tool_name StFailed ;;
       emit EvLogError ;;
       emit (EvShowError "error") ;;
       ret (Failed e)).

Definition start_installation : M unit :=
  modify (λ w, set_flag false (cancel_in w) w) ;;
  for_each TOOLS (λ '(tool_name, _),
    modify (λ w,
      set_widgets (<[tool_name := 0%Q]> (progress_bars w))
        (foldl (λ sb step, <[(tool_name, step) := 0%Q]> sb) (step_progress_bars w) INSTALL_STEPS)
        (status_labels w) w)) ;;
  modify (set_threads ∅) ;;
  for_each TOOLS (λ '(tool_name, _),
    known ← gets (λ w, existing_files w !! tool_name);
    (if known is Some _ then ret tt else update_status tool_name StPreparing) ;;
    (* Thread(target=self.install_tool, ...).start() *)
    modify (λ w, set_threads (<[tool_name := true]> (threads w)) w)).

(** A worker thread: it runs [install_tool] and is alive until that
    returns. *)
Definition run_thread (env : Env) (tool_name : string) (tool_config : ToolConfig)
    : M Outcome :=
  o ← install_tool env tool_name tool_config;
  modify (λ w, set_threads (<[tool_name := false]> (threads w)) w) ;;
  ret o.

(** One schedule of a whole run: the directory is chosen and scanned, the
    queue is drained, the installation is started and the workers run to
    their end one after the other, in the order of the catalogue. *)
Fixpoint run_threads (env : Env) (tools : list (string * ToolConfig)) : M (list Outcome) :=
  match tools with
  | [] => ret []
  | (tool_name, tool_config) :: rest =>
      o ← run_thread env tool_name tool_config;
      os ← run_threads env rest;
      ret (o :: os)
  end.

Definition run_installation (env : Env) : M (list Outcome) :=
  scan_existing_files ;;
  process_ui_updates ;;
  start_installation ;;
  os ← run_threads env TOOLS;
  process_ui_updates ;;
  ret os.

(** ** Vocabulary of the statements about layouts *)

Definition is_dir_node (v : node) : bool :=
  match v with Dir _ => true | File _ => false end.

(** The names of the entries of a directory, in listing order, and those of
    its immediate subdirectories. *)
Definition child_names (m : gmap string node) : list string := (map_to_list m).*1.
Definition subdir_names (m : gmap string node) : list string :=
  (List.filter (λ kv, is_dir_node kv.2) (map_to_list m)).*1.

(** One turn of the loop of [move_contents], seen on the entries [mb] of
    the destination directory, [X] being the name of the source directory
    inside it. *)
Definition move_up_step (X n : string) (mb : gmap string node) : gmap string node :=
  match mb !! X with
  | Some (Dir mx) =>
      match mx !! n with
      | Some v => <[n := v]> (<[X := Dir (delete n mx)]> mb)
      | None => mb
      end
  | _ => mb
  end.

Definition move_up (X : string) (ns : list string) (mb : gmap string node) : gmap string node :=
  foldl (λ acc n, move_up_step X n acc) mb ns.

(** The entries of the base directory after its only subdirectory [X],
    with entries [mx], has been collapsed into it: the entries of [X] win
    over same-named files of the base; [X] itself stays behind, empty, when
    the OS refused its removal. *)
Definition collapsed (refused : bool) (X : string) (mx mb : gmap string node)
    : gmap string node :=
  if refused then <[X := Dir ∅]> (mx ∪ mb) else mx ∪ delete X mb.

(** ** Concrete surroundings for the examples *)

(** The application right after [__init__], over a given file system and
    persistent PATH. *)
Definition init_app (f : node) (user_path0 : string) : World :=
  {| save_dir := "C:\tools"; fs := f; existing_files := ∅; installation_completed := false; cancel_in := None;
     threads := ∅; ui_update_queue := []; progress_bars := ∅; step_progress_bars := ∅;
     status_labels := ∅; user_path := user_path0; trace := [] |}.

(** No network, no readable archive, an obliging OS and PowerShell. *)
Definition offline_env : Env :=
  {| http := λ _ _, GetConnectionError; zip_infolist := λ _, None;
     rmtree_refused := false; ps_accepts := true; ps_stderr := "";
     ps_other := λ _ p, (1%Z, p) |}.

(** The CMake layout of the specification: the archive wraps everything in
    one directory. *)
Definition cmake_root : string := "cmake-4.0.1-windows-x86_64".
Definition cmake_payload : gmap string node :=
  {[ "bin" := Dir {[ "cmake.exe" := File "MZ" ]}; "doc" := Dir ∅ ]}.
Definition cmake_wrapped : gmap string node := {[ cmake_root := Dir cmake_payload ]}.
Definition cmake_tree : node := Dir {[ cmake_root := Dir cmake_wrapped ]}.

(** An archive [t.zip] whose wrapping directory [t] holds a program called
    [t] next to its [bin]. *)
Definition selfnamed_tree : node :=
  Dir {[ "t" := Dir {[ "t" := Dir {[ "t" := File "#!"; "bin" := Dir {[ "x" := File "" ]} ]} ]} ]}.

(** A base directory whose only subdirectory is [bin] itself. *)
Definition bin_in_bin_tree : node :=
  Dir {[ "tool" := Dir {[ "bin" := Dir {[ "bin" := Dir {[ "x" := File "" ]} ]} ]} ]}.

(** ** Vocabulary of the statements about the fetcher *)

(** What [n] attempts leave on the outside: a request each, and between
    two of them a logged warning and a sleep that doubles. *)
Definition retry_trace (url : string) (n : nat) : list Event :=
  match n with
  | 0 => []
  | S m => EvRequest url :: flat_map (λ k, [EvLogWarning; EvSleep (2 ^ k); EvRequest url]) (seq 0 m)
  end.

(** The attempt ends in [requests.ConnectionError] or [requests.Timeout]
    unless something else stops it first. *)
Definition connection_failure (a : Attempt) : bool :=
  match a with
  | GetConnectionError | Response _ _ BrokenConnection => true
  | _ => false
  end.

(** A computation that touches nothing but the file system and fails with
    [OSError] only. *)
Definition fs_only {A} (m : M A) : Prop :=
  ∀ w, (m w).2 = set_fs (λ _, fs (m w).2) w ∧ ∀ e, (m w).1 = Raise e → e = OSError.

(** A server that answers, sends three of ten bytes and goes silent; the
    network is down from then on. *)
Definition http_stalls : string → nat → Attempt :=
  λ _ attempt,
    match attempt with
    | 0 => Response (Some 10) ["abc"] BrokenConnection
    | _ => GetConnectionError
    end.

(** ** Concrete surroundings for whole runs *)

(** The user cancels so that the cancel is seen at the read of the flag
    numbered [k] from 0. *)
Definition user_cancels_at (k : nat) (w : World) : World :=
  set_flag (installation_completed w) (Some k) w.

(** A zip reader for two kinds of archive bytes: a program wrapped in a
    directory [pkg] with a [bin] below it, and a flat archive with one
    executable. *)
Definition wrapped_members : list ZipInfo :=
  [ {| zi_filename := ["pkg"]; zi_is_dir := true; zi_data := ""; zi_corrupt := false |};
    {| zi_filename := ["pkg"; "bin"; "tool.exe"]; zi_is_dir := false; zi_data := "MZ";
       zi_corrupt := false |} ].
Definition flat_members : list ZipInfo :=
  [ {| zi_filename := ["ninja.exe"]; zi_is_dir := false; zi_data := "MZ"; zi_corrupt := false |} ].

Definition toy_zip_infolist (data : string) : option (list ZipInfo) :=
  if String.eqb data "PK-wrapped" then Some wrapped_members
  else if String.eqb data "PK-flat" then Some flat_members
  else None.

Definition toy_env : Env :=
  {| http := λ _ _, GetConnectionError; zip_infolist := toy_zip_infolist;
     rmtree_refused := false; ps_accepts := true; ps_stderr := "";
     ps_other := λ _ p, (1%Z, p) |}.

(** A chosen directory that already holds the five archives of the
    catalogue. *)
Definition all_archives : node :=
  Dir (list_to_map
         ((λ t : string * ToolConfig,
             (archive_name (url t.2),
              File (if is_single_exe t.2 then "PK-flat" else "PK-wrapped"))) <$> TOOLS)).

(** A chosen directory that holds the CMake archive only. *)
Definition cmake_archive_only : node :=
  Dir {[ "cmake-4.0.1-windows-x86_64.zip" := File "PK-wrapped" ]}.

Definition cmake_config : ToolConfig :=
  {| url := "https://github.com/Kitware/CMake/releases/download/v4.0.1/cmake-4.0.1-windows-x86_64.zip";
     bin_subdir := "bin"; is_single_exe := false |}.

(** How often the aggregated completion notice was shown. *)
Definition completion_notices (tr : list Event) : nat :=
  length (List.filter (λ e, match e with
                            | EvShowInfo title => String.eqb title "installation complete"
                            | _ => false
                            end) tr).

Definition requests (tr : list Event) : nat :=
  length (List.filter (λ e, match e with EvRequest _ => true | _ => false end) tr).

Definition all_threads_dead (w : World) : bool := forallb negb (map_to_list (threads w)).*2.

(** ** Vocabulary of the statements about the registrar *)

Fixpoint quote_free (s : string) : bool :=
  match s with
  | EmptyString => true
  | String a s' => negb (Ascii.eqb a "'") && quote_free s'
  end.

(** [choose_directory], as far as the pipeline sees it. *)
Definition set_save_dir (dir : string) (w : World) : World :=
  {| save_dir := dir; fs := fs w; existing_files := existing_files w;
     installation_completed := installation_completed w; cancel_in := cancel_in w;
     threads := threads w; ui_update_queue := ui_update_queue w;
     progress_bars := progress_bars w; step_progress_bars := step_progress_bars w;
     status_labels := status_labels w; user_path := user_path w; trace := trace w |}.

(** ** Vocabulary of the statements about progress *)

(** [m] never leaves the relation [R] between the world it starts in and
    the world it ends in. *)
Definition respects {A} (R : relation World) (m : M A) : Prop := ∀ w, R w (m w).2.

Definition same_queue : relation World :=
  λ w w', ui_update_queue w' = ui_update_queue w.

(** A flag that is set stays set. *)
Definition flag_stays : relation World :=
  λ w w', installation_completed w = true → installation_completed w' = true.

(** The values a job reports for the overall bar of [tool]. *)
Definition overall_reports (tool : string) (q : list UiUpdate) : list Q :=
  omap (λ u, match u with
             | SetProgressBar t p => if String.eqb t tool then Some p else None
             | _ => None
             end) q.

(** What [download_chunks] queues when it is not cancelled: two updates for
    every non-empty chunk. *)
Fixpoint chunk_updates (tool_name : string) (total_size : nat) (chunks : list string)
    (downloaded : nat) : list UiUpdate :=
  match chunks with
  | [] => []
  | chunk :: rest =>
      if String.eqb chunk "" then chunk_updates tool_name total_size rest downloaded
      else
        let downloaded := downloaded + String.length chunk in
        SetStepBar tool_name "download" (Qnat downloaded / Qnat total_size * 100)%Q ::
        SetProgressBar tool_name (Qnat downloaded / Qnat total_size * 33)%Q ::
        chunk_updates tool_name total_size rest downloaded
  end.

(** What [extract_members] queues for [todo] members when it is not
    cancelled. *)
Fixpoint member_updates (tool_name : string) (total_files todo extracted : nat)
    : list UiUpdate :=
  match todo with
  | 0 => []
  | S todo' =>
      let extracted := extracted + 1 in
      SetStepBar tool_name "extract" (Qnat extracted / Qnat total_files * 100)%Q ::
      SetProgressBar tool_name (33 + Qnat extracted / Qnat total_files * 33)%Q ::
      member_updates tool_name total_files todo' extracted
  end.

Definition received (chunks : list string) : nat :=
  foldr (λ chunk n, String.length chunk + n) 0 chunks.

(** The response keeps within its declared length, and delivers nothing
    when it breaks off with a connection failure. *)
Definition well_paced (a : Attempt) : bool :=
  match a with
  | Response content_length chunks ending =>
      Nat.leb (received chunks) (default 0 content_length)
      && match ending with
         | BrokenConnection => Nat.eqb (received chunks) 0
         | _ => true
         end
  | _ => true
  end.

(** The download of a job: nothing, or the chunks of one response. *)
Definition download_stage (http : string → nat → Attempt) (url tool_name : string)
    (us : list UiUpdate) : Prop :=
  us = [] ∨ ∃ (k : nat) content_length chunks ending,
    (k < 3)%nat
    ∧ http url k = Response content_length chunks ending
    ∧ default 0 content_length ≠ 0
    ∧ us = chunk_updates tool_name (default 0 content_length) chunks 0.

(** The extraction of a job: the members of one archive. *)
Definition extract_stage (tool_name : string) (us : list UiUpdate) : Prop :=
  ∃ n, us = member_updates tool_name n n 0.

(** A network that breaks off after five of seven bytes and delivers the
    whole archive at the second attempt, one that fails once before any
    byte arrives, and a reader that takes any seven bytes for the flat
    archive. *)
Definition http_breaks_midway : string → nat → Attempt :=
  λ _ attempt,
    match attempt with
    | 0 => Response (Some 7) ["PK-"; "fl"] BrokenConnection
    | _ => Response (Some 7) ["PK-"; "flat"] EndOfBody
    end.

Definition http_second_try : string → nat → Attempt :=
  λ _ attempt,
    match attempt with
    | 0 => GetConnectionError
    | _ => Response (Some 7) ["PK-"; ""; "flat"] EndOfBody
    end.

Definition env_with (h : string → nat → Attempt) : Env :=
  {| http := h; zip_infolist := toy_zip_infolist;
     rmtree_refused := false; ps_accepts := true; ps_stderr := "";
     ps_other := λ _ p, (1%Z, p) |}.

Definition ninja_config : ToolConfig :=
  {| url := "https://github.com/ninja-build/ninja/releases/download/v1.12.1/ninja-win.zip";
     bin_subdir := ""; is_single_exe := true |}.

(** A directory that exists keeps existing. *)
Definition dir_stays (d : path) : relation World :=
  λ w w', fs_is_dir d (fs w) = true → fs_is_dir d (fs w') = true.

(** ** The rest of the orchestrator *)

(** The controls of the main window that [cancel_installation] sets
    directly: the text of the status bar and the state of the three
    buttons.  They are no part of [World]; a method that is modelled with
    them takes them and returns them. *)
Inductive ButtonState := NORMAL | DISABLED.

Record Controls := {
  status_bar : string;
  dir_button : ButtonState;
  install_button : ButtonState;
  cancel_button : ButtonState
}.

Definition set_status_bar (text : string) (c : Controls) : Controls :=
  {| status_bar := text; dir_button := dir_button c;
     install_button := install_button c; cancel_button := cancel_button c |}.
Definition set_dir_button (s : ButtonState) (c : Controls) : Controls :=
  {| status_bar := status_bar c; dir_button := s;
     install_button := install_button c; cancel_button := cancel_button c |}.
Definition set_install_button (s : ButtonState) (c : Controls) : Controls :=
  {| status_bar := status_bar c; dir_button := dir_button c;
     install_button := s; cancel_button := cancel_button c |}.
Definition set_cancel_button (s : ButtonState) (c : Controls) : Controls :=
  {| status_bar := status_bar c; dir_button := dir_button c;
     install_button := install_button c; cancel_button := s |}.

(** The controls while an installation runs, as [start_installation]
    leaves them. *)
Definition installing_controls : Controls :=
  {| status_bar := "installing tools..."; dir_button := DISABLED;
     install_button := DISABLED; cancel_button := NORMAL |}.

(** [cancel_installation]; [confirmed] is the answer to the question
    [messagebox.askyesno] asks. *)
Definition cancel_installation (confirmed : bool) (c : Controls) : M Controls :=
  if confirmed then
    modify (λ w, set_flag true (cancel_in w) w) ;;
    let c := set_status_bar "installation cancelled" c in
    let c := set_dir_button NORMAL c in
    let c := set_install_button NORMAL c in
    let c := set_cancel_button DISABLED c in
    for_each TOOLS (λ '(tool_name, _),
      alive ← gets (λ w, threads w !! tool_name);
      if alive is Some true then update_status tool_name StCancelled else ret tt) ;;
    ret c
  else ret c.

(** [TOOLS.get(tool_name)] *)
Definition tool_config_of (tool_name : string) : option ToolConfig :=
  snd <$> List.find (λ t : string * ToolConfig, String.eqb t.1 tool_name) TOOLS.

(** ** Vocabulary of the further statements *)

Definition same_requests : relation World :=
  λ w w', requests (trace w') = requests (trace w).

(** The queue only ever gets longer at its end. *)
Definition queue_grows : relation World :=
  λ w w', ∃ us, ui_update_queue w' = ui_update_queue w ++ us.

(** The last status and the last step value queued for a tool. *)
Definition status_reports (tool : string) (q : list UiUpdate) : list Status :=
  omap (λ u, match u with
             | SetStatus t s => if String.eqb t tool then Some s else None
             | _ => None
             end) q.

Definition step_reports (tool step : string) (q : list UiUpdate) : list Q :=
  omap (λ u, match u with
             | SetStepBar t s p =>
                 if (String.eqb t tool && String.eqb s step)%bool then Some p else None
             | _ => None
             end) q.

(** The bytes of a body. *)
Definition body (chunks : list string) : string := foldr String.append "" chunks.

(** Two connection failures, then a complete response of seven bytes. *)
Definition http_third_try : string → nat → Attempt :=
  λ _ attempt,
    match attempt with
    | 0 | 1 => GetConnectionError
    | _ => Response (Some 7) ["PK-"; ""; "flat"] EndOfBody
    end.

(** A server that does not declare a length. *)
Definition http_no_length : string → nat → Attempt :=
  λ _ _, Response None ["PK-flat"] EndOfBody.

(** A file keeps its place and its content. *)
Definition file_stays (p : path) (d : string) : relation World :=
  λ w w', fs_lookup p (fs w) = Some (File d) → fs_lookup p (fs w') = Some (File d).

(** The status updates [cancel_installation] queues: one for every tool of
    the catalogue whose thread is registered and alive. *)
Definition cancelled_updates (w : World) (tools : list (string * ToolConfig)) : list UiUpdate :=
  (λ t, SetStatus t StCancelled)
    <$> List.filter (λ t, bool_decide (threads w !! t = Some true)) tools.*1.

(** The status updates [start_installation] queues: "preparing" for every
    tool of the catalogue that has no archive on record. *)
Definition preparing_updates (w : World) (tools : list (string * ToolConfig)) : list UiUpdate :=
  (λ t, SetStatus t StPreparing)
    <$> List.filter (λ t, bool_decide (existing_files w !! t = None)) tools.*1.

(** What a widget shows after the queue has been drained: the last value
    queued for it, or what it showed before. *)
Definition shown {A} (reports : list A) (before : option A) : option A :=
  match last reports with
  | Some a => Some a
  | None => before
  end.

(** What only the main thread changes: the widgets, the record of archives
    on disk, the chosen directory and the registry of threads. *)
Definition main_thread_state (w : World) :=
  (progress_bars w, step_progress_bars w, status_labels w,
   existing_files w, save_dir w, threads w).

Definition same_main_thread_state : relation World :=
  λ w w', main_thread_state w' = main_thread_state w.

Definition same_path : relation World := λ w w', user_path w' = user_path w.

(** The CMake layout next to a file of the user. *)
Definition cmake_tree_with_notes : node :=
  Dir {[ cmake_root := Dir cmake_wrapped; "notes.txt" := File "keep" ]}.

(** While the thread of [tool] is registered as alive, it stays so and the
    completion notice is not shown. *)
Definition no_notice_while_alive (tool : string) : relation World :=
  λ w w', threads w !! tool = Some true →
          threads w' !! tool = Some true
          ∧ completion_notices (trace w') = completion_notices (trace w).

Definition same_fs : relation World := λ w w', fs w' = fs w.

(** A chosen directory with the CMake archive and a file of the user. *)
Definition cmake_archive_with_notes : node :=
  Dir {[ "cmake-4.0.1-windows-x86_64.zip" := File "PK-wrapped"; "notes.txt" := File "keep" ]}.
(** * Theorems *)

Ltac msimpl :=
  unfold mbind, M_bind, bind, mret, M_ret, ret, gets, modify, raise, try_except in *;
  simpl in *.

Section fs_facts.
Implicit Types (p q : path) (n : node) (m : gmap string node).

Lemma fs_lookup_app p q n : fs_lookup (p ++ q) n = fs_lookup p n ≫= fs_lookup q.
Proof.
  revert n. induction p as [|c p IH]; intros n; simpl; [done|].
  destruct n as [d|m]; [done|].
  destruct (m !! c) as [v|]; simpl; [apply IH | done].
Qed.

Lemma fs_alter_cons_dir f c q m :
  q ≠ [] → fs_alter f (c :: q) (Dir m) = Dir (alter (fs_alter f q) c m).
Proof. destruct q; [done|]. reflexivity. Qed.

Lemma fs_lookup_alter_under f p q n :
  q ≠ [] → fs_lookup p (fs_alter f (p ++ q) n) = fs_alter f q <$> fs_lookup p n.
Proof.
  intros Hq. revert n. induction p as [|c p IH]; intros n; [done|].
  destruct n as [d|m]; [done|].
  change ((c :: p) ++ q) with (c :: (p ++ q)).
  rewrite fs_alter_cons_dir by (destruct p; [done|discriminate]).
  simpl. rewrite lookup_alter_eq. destruct (m !! c) as [v|]; simpl; [apply IH | done].
Qed.

Lemma fs_lookup_under p q n s :
  fs_lookup p n = Some s → fs_lookup (p ++ q) n = fs_lookup q s.
Proof. intros H. by rewrite fs_lookup_app, H. Qed.

Lemma fs_lookup_child p c n m :
  fs_lookup p n = Some (Dir m) → fs_lookup (p ++ [c]) n = m !! c.
Proof.
  intros H. rewrite (fs_lookup_under _ _ _ _ H). simpl. by destruct (m !! c).
Qed.

Lemma fs_remove_under p q n s :
  q ≠ [] → fs_lookup p n = Some s →
  fs_lookup p (fs_remove (p ++ q) n) = Some (fs_remove q s).
Proof. intros Hq H. unfold fs_remove. by rewrite fs_lookup_alter_under, H. Qed.

Lemma fs_put_under p q v n s :
  q ≠ [] → fs_lookup p n = Some s →
  fs_lookup p (fs_put (p ++ q) v n) = Some (fs_put q v s).
Proof. intros Hq H. unfold fs_put. by rewrite fs_lookup_alter_under, H. Qed.

Lemma fs_remove_child c m : fs_remove [c] (Dir m) = Dir (delete c m).
Proof. reflexivity. Qed.

Lemma fs_put_child c v m : fs_put [c] v (Dir m) = Dir (<[c := v]> m).
Proof. reflexivity. Qed.

Lemma name_snoc p c : name (p ++ [c]) = c.
Proof. apply last_last. Qed.

Lemma parent_snoc p c : parent (p ++ [c]) = p.
Proof. apply removelast_last. Qed.
End fs_facts.

Section move_up_facts.
Context (X : string).
Implicit Types (mb mx : gmap string node) (l : list string).

Lemma move_up_lookup l : ∀ mb mx k,
  mb !! X = Some (Dir mx) → NoDup l → X ∉ l → (∀ n, n ∈ l → is_Some (mx !! n)) →
  move_up X l mb !! k =
    if decide (k = X) then Some (Dir (foldl (λ m n, delete n m) mx l))
    else if decide (k ∈ l) then mx !! k else mb !! k.
Proof.
  induction l as [|n l IH]; intros mb mx k HX Hnd HXl Hin.
  - unfold move_up; cbn [foldl]. case_decide as Hk; [by rewrite Hk|]. case_decide; [set_solver|done].
  - apply NoDup_cons in Hnd as [Hnl Hnd]. apply not_elem_of_cons in HXl as [HXn HXl].
    destruct (Hin n) as [v Hv]; [set_solver|].
    unfold move_up. cbn [foldl]. fold (move_up X l (move_up_step X n mb)).
    assert (Hstep : move_up_step X n mb = <[n := v]> (<[X := Dir (delete n mx)]> mb)).
    { unfold move_up_step. by rewrite HX, Hv. }
    rewrite Hstep.
    rewrite (IH _ (delete n mx)); first last.
    + intros n' Hn'. rewrite lookup_delete_ne by set_solver. apply Hin. set_solver.
    + done.
    + done.
    + rewrite lookup_insert_ne by done. by rewrite lookup_insert_eq.
    + cbn [foldl]. case_decide; [done|].
      destruct (decide (k = n)) as [->|Hkn].
      * rewrite decide_False by done. rewrite decide_True by (by left).
        by rewrite lookup_insert_eq.
      * destruct (decide (k ∈ l)) as [Hkl|Hkl].
        -- rewrite decide_True by (by right). by rewrite lookup_delete_ne.
        -- rewrite decide_False by (by apply not_elem_of_cons).
           by rewrite !lookup_insert_ne.
Qed.

Lemma foldl_delete_lookup l : ∀ mx k,
  foldl (λ m n, delete n m) mx l !! k = if decide (k ∈ l) then None else mx !! k.
Proof.
  induction l as [|n l IH]; intros mx k; cbn [foldl].
  - by rewrite decide_False by apply not_elem_of_nil.
  - rewrite IH. destruct (decide (k ∈ l)).
    + by rewrite decide_True by (by right).
    + destruct (decide (k = n)) as [->|].
      * rewrite decide_True by (by left). apply lookup_delete_eq.
      * rewrite decide_False by (by apply not_elem_of_cons). by apply lookup_delete_ne.
Qed.

Lemma child_names_spec mx k : k ∈ child_names mx ↔ is_Some (mx !! k).
Proof.
  unfold child_names. rewrite list_elem_of_fmap. split.
  - intros [[k' v] [-> H]]. apply elem_of_map_to_list in H. by exists v.
  - intros [v H]. exists (k, v). split; [done|]. by apply elem_of_map_to_list.
Qed.

Lemma move_up_all mb mx :
  mb !! X = Some (Dir mx) → mx !! X = None →
  move_up X (child_names mx) mb = <[X := Dir ∅]> (mx ∪ mb).
Proof.
  intros HX Hfresh. apply map_eq. intros k.
  rewrite (move_up_lookup _ mb mx k HX).
  - destruct (decide (k = X)) as [->|Hk].
    + rewrite lookup_insert_eq. do 2 f_equal. apply map_eq. intros j.
      rewrite foldl_delete_lookup, lookup_empty.
      case_decide as Hj; [done|].
      destruct (mx !! j) eqn:E; [|done].
      exfalso. apply Hj. apply child_names_spec. by eexists.
    + rewrite lookup_insert_ne by done.
      destruct (decide (k ∈ child_names mx)) as [Hin|Hnin].
      * apply child_names_spec in Hin as [v Hv].
        rewrite Hv. symmetry. by apply lookup_union_Some_l.
      * rewrite lookup_union_r; [done|].
        destruct (mx !! k) eqn:E; [|done]. exfalso. apply Hnin, child_names_spec. by eexists.
  - apply NoDup_fst_map_to_list.
  - intros Hin. apply child_names_spec in Hin as [v Hv]. congruence.
  - intros n Hn. by apply child_names_spec.
Qed.
End move_up_facts.

(** ** The primitives of the file system, where they succeed *)

Lemma set_fs_id w : set_fs (λ _, fs w) w = w.
Proof. by destruct w. Qed.

Lemma rmtree_ok p w :
  fs_is_dir p (fs w) = true → rmtree p w = (Ok tt, set_fs (fs_remove p) w).
Proof. intros H. unfold rmtree. msimpl. by rewrite H. Qed.

Lemma unlink_ok p w :
  fs_is_file p (fs w) = true → unlink p w = (Ok tt, set_fs (fs_remove p) w).
Proof. intros H. unfold unlink. msimpl. by rewrite H. Qed.

Lemma shutil_move_into src dst v w :
  fs_is_dir dst (fs w) = true →
  fs_exists (dst ++ [name src]) (fs w) = false →
  fs_lookup src (fs w) = Some v →
  ¬ src `prefix_of` dst ++ [name src] →
  shutil_move src dst w =
    (Ok tt, set_fs (λ f, fs_put (dst ++ [name src]) v (fs_remove src f)) w).
Proof.
  intros Hd Hfree Hsrc Hpre. unfold shutil_move. msimpl.
  rewrite Hd, Hfree. simpl. rewrite Hsrc. simpl. rewrite parent_snoc, Hd. simpl.
  by rewrite bool_decide_false.
Qed.

Section move_contents_facts.
Context (base : path) (X : string).
Implicit Types (mb mx : gmap string node) (w : World).

Lemma move_item_ok w mb mx n v :
  fs_lookup base (fs w) = Some (Dir mb) →
  mb !! X = Some (Dir mx) → mx !! n = Some v → n ≠ X →
  ∃ f', move_item base (base ++ [X] ++ [n]) w = (Ok tt, set_fs (λ _, f') w)
        ∧ fs_lookup base f' = Some (Dir (move_up_step X n mb)).
Proof.
  intros Hb HX Hn HnX.
  assert (Hname : name (base ++ [X] ++ [n]) = n).
  { rewrite app_assoc. apply name_snoc. }
  assert (Hstep : move_up_step X n mb = <[n := v]> (<[X := Dir (delete n mx)]> mb)).
  { unfold move_up_step. by rewrite HX, Hn. }
  (* first half: the destination is cleared *)
  assert (∃ f1, (ex ← gets (λ w, fs_exists (base ++ [n]) (fs w));
                 if ex : bool then
                   d ← gets (λ w, fs_is_dir (base ++ [n]) (fs w));
                   if d : bool then rmtree (base ++ [n]) else unlink (base ++ [n])
                 else ret tt) w = (Ok tt, set_fs (λ _, f1) w)
                ∧ fs_lookup base f1 = Some (Dir (delete n mb))) as (f1 & Hrun1 & Hf1).
  { msimpl. unfold fs_exists, fs_is_dir.
    rewrite (fs_lookup_child _ _ _ _ Hb).
    destruct (mb !! n) as [u|] eqn:Hu.
    - exists (fs_remove (base ++ [n]) (fs w)). split.
      + rewrite (fs_lookup_child _ _ _ _ Hb), Hu. destruct u; simpl.
        * rewrite unlink_ok; [done|]. unfold fs_is_file.
          by rewrite (fs_lookup_child _ _ _ _ Hb), Hu.
        * rewrite rmtree_ok; [done|]. unfold fs_is_dir.
          by rewrite (fs_lookup_child _ _ _ _ Hb), Hu.
      + rewrite (fs_remove_under _ [n] _ (Dir mb)); [reflexivity|done|done].
    - exists (fs w). split; [by rewrite set_fs_id|].
      by rewrite delete_id. }
  unfold move_item. rewrite Hname.
  change (base ++ [X] ++ [n]) with (base ++ [X; n]) in *.
  unfold mbind at 1, M_bind at 1, bind at 1.
  rewrite Hrun1.
  assert (Hb1 : fs_lookup base (fs (set_fs (λ _, f1) w)) = Some (Dir (delete n mb))) by done.
  rewrite (shutil_move_into _ _ v).
  - eexists. split; [reflexivity|]. simpl. rewrite Hname.
    rewrite (fs_put_under _ [n] _ _ (fs_remove [X; n] (Dir (delete n mb)))); [|done|].
    + rewrite Hstep. f_equal.
      change (fs_remove [X; n] (Dir (delete n mb)))
        with (Dir (alter (fs_remove [n]) X (delete n mb))).
      rewrite fs_put_child. f_equal. apply map_eq. intros k.
      destruct (decide (k = n)) as [->|Hkn]; [by rewrite !lookup_insert_eq|].
      rewrite !(lookup_insert_ne _ n) by done.
      destruct (decide (k = X)) as [->|HkX].
      * rewrite lookup_alter_eq, lookup_insert_eq, lookup_delete_ne, HX by done.
        reflexivity.
      * by rewrite lookup_alter_ne, lookup_insert_ne, lookup_delete_ne.
    + rewrite (fs_remove_under _ [X; n] _ (Dir (delete n mb))); [reflexivity|done|done].
  - unfold fs_is_dir. by rewrite Hb1.
  - rewrite Hname. unfold fs_exists. rewrite (fs_lookup_child _ _ _ _ Hb1).
    by rewrite lookup_delete_eq.
  - rewrite (fs_lookup_under _ [X; n] _ _ Hb1). simpl.
    rewrite lookup_delete_ne by done. rewrite HX. simpl. rewrite Hn. done.
  - rewrite Hname. intros Hp. apply prefix_length in Hp. rewrite !length_app in Hp. simpl in Hp. lia.
Qed.

Lemma move_up_step_nested mb mx n v :
  mb !! X = Some (Dir mx) → mx !! n = Some v → n ≠ X →
  move_up_step X n mb !! X = Some (Dir (delete n mx)).
Proof.
  intros HX Hn HnX. unfold move_up_step. rewrite HX, Hn.
  rewrite lookup_insert_ne by done. apply lookup_insert_eq.
Qed.

Lemma move_loop_ok l : ∀ w mb mx,
  fs_lookup base (fs w) = Some (Dir mb) →
  mb !! X = Some (Dir mx) → NoDup l → X ∉ l → (∀ n, n ∈ l → is_Some (mx !! n)) →
  ∃ f', for_each ((λ n, base ++ [X] ++ [n]) <$> l) (move_item base) w
          = (Ok tt, set_fs (λ _, f') w)
        ∧ fs_lookup base f' = Some (Dir (move_up X l mb)).
Proof.
  induction l as [|n l IH]; intros w mb mx Hb HX Hnd HXl Hin.
  - exists (fs w). split; [|done]. simpl. unfold ret. by rewrite set_fs_id.
  - apply NoDup_cons in Hnd as [Hnl Hnd]. apply not_elem_of_cons in HXl as [HXn HXl].
    destruct (Hin n) as [v Hv]; [set_solver|].
    destruct (move_item_ok w mb mx n v Hb HX Hv) as (f1 & Hrun & Hf1); [done|].
    destruct (IH (set_fs (λ _, f1) w) (move_up_step X n mb) (delete n mx))
      as (f2 & Hrun2 & Hf2); [done| |done|done| |].
    + by apply (move_up_step_nested _ _ _ v).
    + intros n' Hn'. rewrite lookup_delete_ne by set_solver. apply Hin. set_solver.
    + exists f2. split; [|done].
      cbn [fmap list_fmap for_each]. unfold mbind, M_bind, bind.
      rewrite Hrun. exact Hrun2.
Qed.

Lemma move_contents_ok w mb mx :
  fs_lookup base (fs w) = Some (Dir mb) →
  mb !! X = Some (Dir mx) → mx !! X = None →
  ∃ f', move_contents (base ++ [X]) base w = (Ok tt, set_fs (λ _, f') w)
        ∧ fs_lookup base f' = Some (Dir (<[X := Dir ∅]> (mx ∪ mb))).
Proof.
  intros Hb HX Hfresh.
  destruct (move_loop_ok (child_names mx) w mb mx Hb HX) as (f' & Hrun & Hf').
  - apply NoDup_fst_map_to_list.
  - intros Hin. apply child_names_spec in Hin as [v Hv]. congruence.
  - intros n Hn. by apply child_names_spec.
  - exists f'. split; [|by rewrite Hf', (move_up_all X mb mx)].
    unfold move_contents, iterdir. unfold mbind, M_bind, bind, gets, fs_iterdir.
    rewrite (fs_lookup_child _ _ _ _ Hb), HX. unfold ret.
    rewrite <- Hrun. f_equal. unfold child_names. rewrite <- list_fmap_compose.
    apply list_fmap_ext. intros i [k u] _. simpl. by rewrite <- app_assoc.
Qed.
End move_contents_facts.

(** ** The layout normaliser *)

Section normaliser_facts.
Context (env : Env) (base : path) (bin_subdir : string).
Implicit Types (mb mx : gmap string node) (w : World).

Lemma subdirs_filter f mb :
  fs_lookup base f = Some (Dir mb) →
  List.filter (λ d, fs_is_dir d f) ((λ kv, base ++ [kv.1]) <$> map_to_list mb)
    = (λ n, base ++ [n]) <$> subdir_names mb.
Proof.
  intros Hb. unfold subdir_names.
  assert (Hl : ∀ kv, kv ∈ map_to_list mb → mb !! kv.1 = Some kv.2).
  { intros [k v] H. by apply elem_of_map_to_list in H. }
  induction (map_to_list mb) as [|[k v] l IH]; [done|].
  cbn [fmap list_fmap List.filter]. unfold fs_is_dir at 1.
  rewrite (fs_lookup_child _ _ _ _ Hb), (Hl (k, v)) by left.
  cbn [fst snd]. rewrite IH by (intros kv H; apply Hl; by right).
  by destruct v.
Qed.

Lemma subdir_names_singleton mb X :
  subdir_names mb = [X] → ∃ mx, mb !! X = Some (Dir mx).
Proof.
  unfold subdir_names. intros H.
  assert (HX : X ∈ (List.filter (λ kv, is_dir_node kv.2) (map_to_list mb)).*1)
    by (rewrite H; left).
  apply list_elem_of_fmap in HX as ([k v] & -> & Hin).
  apply list_elem_of_In, filter_In in Hin as [Hin Hd].
  apply list_elem_of_In, elem_of_map_to_list in Hin.
  destruct v as [|mx]; [done|]. by exists mx.
Qed.

Lemma fix_directory_structure_single_exe w :
  fix_directory_structure env base bin_subdir true w = (Ok base, w).
Proof. reflexivity. Qed.

Lemma fix_directory_structure_laid_out w :
  dir_nonempty (join base bin_subdir) (fs w) = true →
  fix_directory_structure env base bin_subdir false w = (Ok base, w).
Proof. intros H. unfold fix_directory_structure. msimpl. by rewrite H. Qed.

Lemma fix_directory_structure_subdir_count w mb :
  fs_lookup base (fs w) = Some (Dir mb) →
  length (subdir_names mb) ≠ 1 →
  fix_directory_structure env base bin_subdir false w = (Ok base, w).
Proof.
  intros Hb Hlen. unfold fix_directory_structure, iterdir. msimpl.
  destruct (dir_nonempty (join base bin_subdir) (fs w)); [done|].
  unfold fs_iterdir. rewrite Hb. rewrite (subdirs_filter _ _ Hb).
  destruct (subdir_names mb) as [|X [|Y l]]; simpl in *; done.
Qed.

Lemma fix_directory_structure_nested_bin_empty w mb X :
  fs_lookup base (fs w) = Some (Dir mb) →
  subdir_names mb = [X] →
  dir_nonempty (join (base ++ [X]) bin_subdir) (fs w) = false →
  fix_directory_structure env base bin_subdir false w = (Ok base, w).
Proof.
  intros Hb HX Hn. unfold fix_directory_structure, iterdir. msimpl.
  destruct (dir_nonempty (join base bin_subdir) (fs w)); [done|].
  unfold fs_iterdir. rewrite Hb. rewrite (subdirs_filter _ _ Hb), HX. simpl.
  by rewrite Hn.
Qed.

Lemma fix_directory_structure_collapses w mb X mx :
  fs_lookup base (fs w) = Some (Dir mb) →
  dir_nonempty (join base bin_subdir) (fs w) = false →
  subdir_names mb = [X] → mb !! X = Some (Dir mx) →
  dir_nonempty (join (base ++ [X]) bin_subdir) (fs w) = true →
  mx !! X = None →
  ∃ f', fix_directory_structure env base bin_subdir false w
          = (Ok base,
             if rmtree_refused env
             then set_trace (trace w ++ [EvLogWarning]) (set_fs (λ _, f') w)
             else set_fs (λ _, f') w)
        ∧ fs_lookup base f' = Some (Dir (collapsed (rmtree_refused env) X mx mb)).
Proof.
  intros Hb Hlaid Hsub HX Hnb Hfresh.
  destruct (move_contents_ok base X w mb mx Hb HX Hfresh) as (f1 & Hrun & Hf1).
  unfold fix_directory_structure, iterdir. msimpl.
  rewrite Hlaid. unfold fs_iterdir. rewrite Hb, (subdirs_filter _ _ Hb), Hsub. simpl.
  rewrite Hnb, Hrun. unfold collapsed.
  destruct (rmtree_refused env).
  - exists f1. split; [reflexivity|done].
  - rewrite rmtree_ok.
    2:{ unfold fs_is_dir. simpl. by rewrite (fs_lookup_child _ _ _ _ Hf1), lookup_insert_eq. }
    eexists. split; [reflexivity|]. simpl.
    rewrite (fs_remove_under _ [X] _ _ ltac:(discriminate) Hf1), fs_remove_child.
    do 2 f_equal. rewrite delete_insert_eq, delete_union. f_equal. by apply delete_id.
Qed.
End normaliser_facts.

(** X28. The normaliser leaves the world as it is, and returns the base
    directory, in every situation but the one in which it collapses: a
    single executable, a base that is laid out already, a number of
    subdirectories other than one, or an only subdirectory whose own
    [bin_subdir] is not a non-empty directory. *)
Lemma fix_directory_structure_unchanged env base bin_subdir is_single_exe w mb :
  fs_lookup base (fs w) = Some (Dir mb) →
  is_single_exe = true
  ∨ dir_nonempty (join base bin_subdir) (fs w) = true
  ∨ length (subdir_names mb) ≠ 1
  ∨ (∃ X, subdir_names mb = [X]
          ∧ dir_nonempty (join (base ++ [X]) bin_subdir) (fs w) = false) →
  fix_directory_structure env base bin_subdir is_single_exe w = (Ok base, w).
Proof.
  intros Hb [->|H]; [apply fix_directory_structure_single_exe|].
  destruct is_single_exe; [apply fix_directory_structure_single_exe|].
  destruct H as [H|[H|(X & HX & Hn)]].
  - by apply fix_directory_structure_laid_out.
  - by apply (fix_directory_structure_subdir_count _ _ _ _ mb).
  - by apply (fix_directory_structure_nested_bin_empty _ _ _ _ mb X).
Qed.

Lemma dir_nonempty_under p q f s :
  fs_lookup p f = Some s → dir_nonempty (p ++ q) f = dir_nonempty q s.
Proof. intros H. unfold dir_nonempty. by rewrite (fs_lookup_under _ _ _ _ H). Qed.

(** C10. With [is_single_exe = False] and the empty [bin_subdir], a base
    directory that holds at least one entry is returned as it is: nothing
    in the world changes, so no nested directory is collapsed.  The reason
    is the one the claim gives: [base_dir / ""] is [base_dir], which the
    "already laid out" test accepts. *)
Theorem fix_directory_structure_empty_bin_subdir env base w mb c v :
  fs_lookup base (fs w) = Some (Dir mb) → mb !! c = Some v →
  join base "" = base ∧
  fix_directory_structure env base "" false w = (Ok base, w).
Proof.
  intros Hb Hc.
  assert (Hj : join base "" = base) by apply app_nil_r.
  split; [done|].
  apply fix_directory_structure_laid_out.
  unfold dir_nonempty. rewrite Hj, Hb.
  rewrite bool_decide_false; [done|].
  rewrite map_to_list_empty_iff. intros ->. by rewrite lookup_empty in Hc.
Qed.

Lemma fix_directory_structure_empty_bin_subdir_witness :
  join [cmake_root] "" = [cmake_root] ∧
  fix_directory_structure offline_env [cmake_root] "" false (init_app cmake_tree "")
    = (Ok [cmake_root], init_app cmake_tree "").
Proof.
  apply (fix_directory_structure_empty_bin_subdir offline_env [cmake_root]
           (init_app cmake_tree "") cmake_wrapped cmake_root (Dir cmake_payload));
    reflexivity.
Defined.

(** C8, as the code has it.  Take [is_single_exe = False], a base directory
    that is not yet laid out ([base_dir / bin_subdir] is not a non-empty
    directory) and has exactly one subdirectory [X], whose own [bin_subdir]
    is a non-empty directory and which holds no entry called [X] itself.
    One normalisation then succeeds and leaves the entries of [X] in the
    base directory ([collapsed]); a second one returns without touching
    anything. *)
Theorem fix_directory_structure_idempotent env base bin_subdir w mb X mx :
  fs_lookup base (fs w) = Some (Dir mb) →
  dir_nonempty (join base bin_subdir) (fs w) = false →
  subdir_names mb = [X] → mb !! X = Some (Dir mx) →
  dir_nonempty (join (base ++ [X]) bin_subdir) (fs w) = true →
  mx !! X = None →
  ∃ w1, fix_directory_structure env base bin_subdir false w = (Ok base, w1)
        ∧ fs_lookup base (fs w1) = Some (Dir (collapsed (rmtree_refused env) X mx mb))
        ∧ fix_directory_structure env base bin_subdir false w1 = (Ok base, w1).
Proof.
  intros Hb Hlaid Hsub HX Hnb Hfresh.
  destruct (fix_directory_structure_collapses env base bin_subdir w mb X mx)
    as (f' & Hrun & Hf'); try done.
  eexists. split; [exact Hrun|].
  assert (Hbin : dir_nonempty (join base bin_subdir) f' = true).
  { unfold join in *. rewrite (dir_nonempty_under _ _ _ _ Hf').
    rewrite (dir_nonempty_under _ _ _ _ Hb) in Hlaid.
    assert (HbX : fs_lookup (base ++ [X]) (fs w) = Some (Dir mx))
      by (by rewrite (fs_lookup_child _ _ _ _ Hb)).
    rewrite (dir_nonempty_under _ _ _ _ HbX) in Hnb.
    destruct (components bin_subdir) as [|b0 bs].
    - unfold dir_nonempty in Hlaid. simpl in Hlaid.
      apply negb_false_iff, bool_decide_eq_true, map_to_list_empty_iff in Hlaid.
      subst mb. by rewrite lookup_empty in HX.
    - unfold dir_nonempty in Hnb |- *. simpl in Hnb |- *.
      destruct (mx !! b0) as [v0|] eqn:Hb0; [|done]. rewrite <- Hnb.
      assert (b0 ≠ X) by congruence.
      assert (collapsed (rmtree_refused env) X mx mb !! b0 = Some v0) as ->; [|done].
      unfold collapsed. destruct (rmtree_refused env).
      + rewrite lookup_insert_ne by done. by apply lookup_union_Some_l.
      + by apply lookup_union_Some_l. }
  destruct (rmtree_refused env); simpl; (split; [done|]);
    by apply fix_directory_structure_laid_out.
Qed.

Lemma fix_directory_structure_idempotent_witness :
  ∃ w1, fix_directory_structure offline_env [cmake_root] "bin" false (init_app cmake_tree "")
          = (Ok [cmake_root], w1)
        ∧ fs_lookup [cmake_root] (fs w1)
          = Some (Dir (collapsed false cmake_root cmake_payload cmake_wrapped))
        ∧ fix_directory_structure offline_env [cmake_root] "bin" false w1 = (Ok [cmake_root], w1).
Proof.
  apply (fix_directory_structure_idempotent offline_env [cmake_root] "bin"
           (init_app cmake_tree "") cmake_wrapped cmake_root cmake_payload);
    vm_compute; reflexivity.
Defined.

(** C8, as it is stated, fails on a base directory whose only subdirectory
    is [bin] itself: that subdirectory has a non-empty [bin] of its own,
    yet the normaliser takes the base for laid out and leaves [x] two
    levels down instead of moving the contents of [bin] up. *)
Lemma fix_directory_structure_bin_in_bin_kept :
  let w := init_app bin_in_bin_tree "" in
  let mb : gmap string node := {[ "bin" := Dir {[ "bin" := Dir {[ "x" := File "" ]} ]} ]} in
  let mx : gmap string node := {[ "bin" := Dir {[ "x" := File "" ]} ]} in
  fs_lookup ["tool"] (fs w) = Some (Dir mb)
  ∧ subdir_names mb = ["bin"] ∧ mb !! "bin" = Some (Dir mx)
  ∧ dir_nonempty (join ["tool"; "bin"] "bin") (fs w) = true
  ∧ fix_directory_structure offline_env ["tool"] "bin" false w = (Ok ["tool"], w)
  ∧ fs_lookup ["tool"; "bin"; "x"] (fs w) = None
  ∧ fs_lookup ["bin"; "x"] (Dir (collapsed false "bin" mx mb)) = Some (File "").
Proof. vm_compute. repeat split; reflexivity. Qed.

(** C4 at a wrapping directory that holds an entry of its own name: the
    loop of [move_contents] finds the destination [t/t] occupied (by the
    wrapping directory itself), removes it with everything in it, and the
    following [shutil.move] has no source left.  The normaliser raises
    instead of returning the base directory, and neither the wrapping
    directory nor the program [t] it held exists afterwards. *)
Theorem fix_directory_structure_selfnamed_entry :
  let w := init_app selfnamed_tree "" in
  let r := fix_directory_structure offline_env ["t"] "bin" false w in
  dir_nonempty (join ["t"] "bin") (fs w) = false
  ∧ subdir_names {[ "t" := Dir {[ "t" := File "#!"; "bin" := Dir {[ "x" := File "" ]} ]} ]} = ["t"]
  ∧ dir_nonempty (join ["t"; "t"] "bin") (fs w) = true
  ∧ fs_lookup ["t"; "t"; "t"] (fs w) = Some (File "#!")
  ∧ r.1 = Raise OSError
  ∧ fs_lookup ["t"; "t"] (fs r.2) = None.
Proof. vm_compute. repeat split; reflexivity. Qed.

(** ** The fetcher *)

Lemma fs_only_unlink p : fs_only (unlink p).
Proof.
  intros w. unfold unlink. msimpl. destruct (fs_is_file p (fs w)); simpl.
  - split; [by destruct w|]. intros e [=].
  - split; [by destruct w|]. by intros e [= <-].
Qed.

Lemma fs_only_open_wb p : fs_only (open_wb p).
Proof.
  intros w. unfold open_wb. msimpl.
  destruct (fs_is_dir p (fs w) || negb (fs_is_dir (parent p) (fs w)))%bool; simpl.
  - split; [by destruct w|]. by intros e [= <-].
  - split; [by destruct w|]. intros e [=].
Qed.

Lemma fs_only_mkdir_parents p : fs_only (mkdir_parents p).
Proof.
  intros w. unfold mkdir_parents. msimpl. destruct (fs_makedirs p (fs w)); simpl.
  - split; [by destruct w|]. intros e [=].
  - split; [by destruct w|]. by intros e [= <-].
Qed.

Lemma read_flag_trace w : trace (read_flag w).2 = trace w.
Proof. unfold read_flag. by destruct (cancel_in w) as [[|k]|]. Qed.

Lemma read_flag_queue w : ui_update_queue (read_flag w).2 = ui_update_queue w.
Proof. unfold read_flag. by destruct (cancel_in w) as [[|k]|]. Qed.

Lemma read_flag_fs w : fs (read_flag w).2 = fs w.
Proof. unfold read_flag. by destruct (cancel_in w) as [[|k]|]. Qed.

Lemma read_flag_ok w : ∃ b, (read_flag w).1 = Ok b.
Proof. unfold read_flag. destruct (cancel_in w) as [[|k]|]; eauto. Qed.

Lemma bind_run {A B} (m : M A) (k : A → M B) w :
  (m ≫= k) w = match m w with
               | (Ok a, w1) => k a w1
               | (Raise e, w1) => (Raise e, w1)
               end.
Proof. reflexivity. Qed.

Lemma download_chunks_effects save_path tool_name total_size ending chunks : ∀ downloaded w,
  let r := download_chunks save_path tool_name total_size chunks ending downloaded w in
  trace r.2 = trace w ∧ user_path r.2 = user_path w
  ∧ ∀ e, r.1 = Raise e →
         (e = ConnectionError ∧ ending = BrokenConnection) ∨ e = RequestError ∨ e = OSError.
Proof.
  induction chunks as [|chunk rest IH]; intros downloaded w; cbn [download_chunks].
  - destruct ending; simpl; repeat split; try done; intros e [= <-]; auto.
  - destruct (String.eqb chunk ""); [apply IH|].
    rewrite bind_run.
    pose proof (read_flag_trace w) as Ht.
    assert (Hu : user_path (read_flag w).2 = user_path w)
      by (unfold read_flag; by destruct (cancel_in w) as [[|k]|]).
    destruct (read_flag w) as [[[|]|e] w1] eqn:E; simpl in Ht, Hu.
    + rewrite bind_run.
      destruct (fs_only_unlink save_path w1) as [Hw He].
      destruct (unlink save_path w1) as [[[]|e] w2]; simpl in *.
      * rewrite Hw. simpl. rewrite Ht, Hu. repeat split; try done.
      * rewrite Hw. simpl. rewrite Ht, Hu. repeat split; try done.
        intros e' [= <-]. right; right. by apply He.
    + unfold file_write, queue_put, modify, mbind, M_bind, bind. cbn beta iota zeta.
      match goal with |- context [download_chunks _ _ _ rest _ ?d ?w'] =>
        specialize (IH d w'); cbn zeta in IH;
        destruct (download_chunks save_path tool_name total_size rest ending d w')
          as [r2 w2] eqn:E2 end.
      simpl in IH. rewrite Ht, Hu in IH. exact IH.
    + destruct (read_flag_ok w) as [b Hb]. rewrite E in Hb. discriminate.
Qed.

Lemma download_attempt_effects http url save_path tool_name attempt w :
  let r := download_attempt http url save_path tool_name attempt w in
  trace r.2 = trace w ++ [EvRequest url]
  ∧ user_path r.2 = user_path w
  ∧ (r.1 = Raise ConnectionError → connection_failure (http url attempt) = true)
  ∧ (r.1 = Raise HTTPError ↔ http url attempt = StatusError)
  ∧ (http url attempt = GetConnectionError → r.1 = Raise ConnectionError).
Proof.
  unfold download_attempt, emit, modify. rewrite bind_run. cbn beta iota zeta.
  destruct (http url attempt) as [| | |content_length chunks ending]; simpl;
    try (repeat split; (done || (intros [=]))).
  destruct (default 0 content_length =? 0)%nat; simpl;
    [repeat split; (done || (intros [=]))|].
  set (w0 := set_trace (trace w ++ [EvRequest url]) w).
  rewrite bind_run.
  destruct (fs_only_mkdir_parents (parent save_path) w0) as [Hw1 He1].
  destruct (mkdir_parents (parent save_path) w0) as [[[]|e1] w1]; simpl in *.
  2:{ rewrite Hw1. simpl. repeat split; try done; intros [= ->]; by specialize (He1 _ eq_refl). }
  rewrite bind_run.
  destruct (fs_only_open_wb save_path w1) as [Hw2 He2].
  destruct (open_wb save_path w1) as [[[]|e2] w2]; simpl in *.
  2:{ rewrite Hw2, Hw1. simpl. repeat split; try done; intros [= ->]; by specialize (He2 _ eq_refl). }
  destruct (download_chunks_effects save_path tool_name (default 0 content_length) ending
              chunks 0 w2) as (Ht & Hu & He3).
  cbn zeta in *.
  destruct (download_chunks save_path tool_name (default 0 content_length) chunks ending 0 w2)
    as [[b|e3] w3]; simpl in *; rewrite Ht, Hu, Hw2, Hw1; simpl.
  - repeat split; try done; intros [=].
  - repeat split; try done.
    + intros [= ->]. destruct (He3 _ eq_refl) as [[_ ->]|[|]]; done.
    + intros [= ->]. destruct (He3 _ eq_refl) as [[? _]|[|]]; done.
Qed.

Lemma fs_lookup_remove_self p f : p ≠ [] → fs_lookup p (fs_remove p f) = None.
Proof.
  revert f. induction p as [|c p IH]; intros f Hp; [done|].
  destruct f as [d|m]; [done|].
  destruct p as [|c' p'].
  - simpl. rewrite (lookup_partial_alter_eq _ m c). done.
  - unfold fs_remove. rewrite fs_alter_cons_dir by done.
    simpl. rewrite lookup_alter_eq.
    destruct (m !! c) as [v|]; simpl; [|done]. by apply IH.
Qed.

(** The handler of [download_file] for a failure that is neither a
    connection failure nor an HTTP status. *)
Lemma download_cleanup_effects save_path e w :
  let r := (present ← gets (λ w, fs_is_file save_path (fs w));
            (if present : bool then unlink save_path else ret tt) ;;
            raise (A := option bool) (DownloadFailed e)) w in
  r.1 = Raise (DownloadFailed e) ∧ trace r.2 = trace w ∧ user_path r.2 = user_path w
  ∧ (save_path ≠ [] → fs_is_file save_path (fs r.2) = false).
Proof.
  msimpl. destruct (fs_is_file save_path (fs w)) eqn:Hf; simpl.
  - rewrite unlink_ok by done. simpl. repeat split; try done.
    intros Hp. unfold fs_is_file. by rewrite fs_lookup_remove_self.
  - repeat split; done.
Qed.

(** What one turn of the retry loop does with the outcome of its attempt. *)
Lemma download_loop_S http url save_path tool_name max_retries remaining w :
  download_loop http url save_path tool_name max_retries (S remaining) w =
  let attempt := max_retries - S remaining in
  match download_attempt http url save_path tool_name attempt w with
  | (Ok b, w1) => (Ok (Some b), w1)
  | (Raise ConnectionError, w1) =>
      if Nat.ltb attempt (max_retries - 1) then
        download_loop http url save_path tool_name max_retries remaining
          (set_trace (trace w1 ++ [EvLogWarning] ++ [EvSleep (2 ^ attempt)]) w1)
      else (Raise (DownloadRetriesExhausted ConnectionError), w1)
  | (Raise HTTPError, w1) => (Raise (DownloadHttpFailed HTTPError), w1)
  | (Raise e, w1) =>
      (present ← gets (λ w, fs_is_file save_path (fs w));
       (if present : bool then unlink save_path else ret tt) ;;
       raise (DownloadFailed e)) w1
  end.
Proof.
  cbn [download_loop]. unfold try_except. rewrite bind_run. cbn zeta.
  destruct (download_attempt _ _ _ _ _ w) as [[b|e] w1]; [done|].
  destruct e; try reflexivity.
  destruct (Nat.ltb _ _); [|done].
  unfold emit, modify. rewrite !bind_run. cbn beta iota.
  f_equal. destruct w1; simpl. by rewrite <- app_assoc.
Qed.

(** C5. [download_file] with its default [max_retries = 3] makes between
    one and three requests.  Between two requests it logs a warning and
    sleeps [2 ^ k] seconds after the attempt numbered [k] from 0, that is
    1s and then 2s; every attempt that was followed by another one ended in
    a connection failure or timeout.  An HTTP status failure is the last
    attempt and surfaces as "download failed (HTTP error)", a connection
    failure at the last attempt means all three are used up, and whatever
    is raised is a transfer error. *)
Theorem download_file_retry_policy http url save_path tool_name w :
  let r := download_file http url save_path tool_name 3 w in
  ∃ n : nat, (1 ≤ n ≤ 3)%nat
    ∧ trace r.2 = trace w ++ retry_trace url n
    ∧ (∀ k : nat, (k < n - 1)%nat → connection_failure (http url k) = true)
    ∧ (∀ k : nat, (k < n)%nat → http url k = StatusError →
         k = (n - 1)%nat ∧ r.1 = Raise (DownloadHttpFailed HTTPError))
    ∧ (http url (n - 1)%nat = GetConnectionError →
         n = 3 ∧ r.1 = Raise (DownloadRetriesExhausted ConnectionError))
    ∧ (∀ e, r.1 = Raise e → error_kind e = Some TransferError).
Proof.
  unfold download_file. cbn zeta.
  rewrite download_loop_S. cbn zeta. change (3 - 3) with 0. change (3 - 1) with 2.
  destruct (download_attempt_effects http url save_path tool_name 0 w)
    as (Ht0 & _ & Hc0 & Hh0 & Hg0).
  cbn zeta in *.
  destruct (download_attempt http url save_path tool_name 0 w) as [[b0|e0] w1];
    cbn [fst snd] in *.
  { exists 1. simpl in *. split_and!; try lia; try done.
    - intros k Hk Hs. assert (k = 0) as -> by lia. by apply Hh0 in Hs.
    - intros Hg. by apply Hg0 in Hg. }
  assert (Hlast0 : ∀ r : Result (option bool) * World,
    trace r.2 = trace w1 → (∀ e, r.1 = Raise e → error_kind e = Some TransferError) →
    (e0 = HTTPError → r.1 = Raise (DownloadHttpFailed HTTPError)) →
    e0 ≠ ConnectionError →
    ∃ n : nat, (1 ≤ n ≤ 3)%nat ∧ trace r.2 = trace w ++ retry_trace url n
      ∧ (∀ k : nat, (k < n - 1)%nat → connection_failure (http url k) = true)
      ∧ (∀ k : nat, (k < n)%nat → http url k = StatusError →
           k = (n - 1)%nat ∧ r.1 = Raise (DownloadHttpFailed HTTPError))
      ∧ (http url (n - 1)%nat = GetConnectionError →
           n = 3 ∧ r.1 = Raise (DownloadRetriesExhausted ConnectionError))
      ∧ (∀ e, r.1 = Raise e → error_kind e = Some TransferError)).
  { intros r Ht Hk Hhttp Hne. exists 1. rewrite Ht, Ht0. simpl.
    split_and!; try lia; try done.
    - intros k Hlt Hs. assert (k = 0) as -> by lia. split; [done|].
      apply Hhttp. apply Hh0 in Hs. congruence.
    - intros Hg. apply Hg0 in Hg. congruence. }
  destruct e0;
    try (match goal with |- context [raise (DownloadFailed ?e)] =>
           destruct (download_cleanup_effects save_path e w1) as (Hr & Ht & _) end;
         apply Hlast0; cbn zeta in *; rewrite ?Hr; try done; by intros e' [= <-]).
  2:{ apply Hlast0; try done. by intros e' [= <-]. }
  clear Hlast0. change (Nat.ltb 0 2) with true. cbn iota.
  specialize (Hc0 eq_refl).
  set (w1' := set_trace _ w1).
  assert (Ht1' : trace w1' = trace w ++ retry_trace url 1 ++ [EvLogWarning; EvSleep 1]).
  { subst w1'. simpl in *. rewrite Ht0. by rewrite <- !app_assoc. }
  clearbody w1'. clear Ht0 Hh0 Hg0 w1.
  rewrite download_loop_S. cbn zeta. change (3 - 2) with 1. change (3 - 1) with 2.
  destruct (download_attempt_effects http url save_path tool_name 1 w1')
    as (Ht1 & _ & Hc1 & Hh1 & Hg1).
  cbn zeta in *. rewrite Ht1' in Ht1. clear Ht1'.
  destruct (download_attempt http url save_path tool_name 1 w1') as [[b1|e1] w2];
    cbn [fst snd] in *.
  { exists 2. simpl in *. rewrite Ht1, <- !app_assoc. split_and!; try lia; try done.
    - intros k Hk. by assert (k = 0) as -> by lia.
    - intros k Hk Hs. destruct k as [|[|k]]; try lia.
      + by rewrite Hs in Hc0.
      + by apply Hh1 in Hs.
    - intros Hg. by apply Hg1 in Hg. }
  assert (Hlast1 : ∀ r : Result (option bool) * World,
    trace r.2 = trace w2 → (∀ e, r.1 = Raise e → error_kind e = Some TransferError) →
    (e1 = HTTPError → r.1 = Raise (DownloadHttpFailed HTTPError)) →
    e1 ≠ ConnectionError →
    ∃ n : nat, (1 ≤ n ≤ 3)%nat ∧ trace r.2 = trace w ++ retry_trace url n
      ∧ (∀ k : nat, (k < n - 1)%nat → connection_failure (http url k) = true)
      ∧ (∀ k : nat, (k < n)%nat → http url k = StatusError →
           k = (n - 1)%nat ∧ r.1 = Raise (DownloadHttpFailed HTTPError))
      ∧ (http url (n - 1)%nat = GetConnectionError →
           n = 3 ∧ r.1 = Raise (DownloadRetriesExhausted ConnectionError))
      ∧ (∀ e, r.1 = Raise e → error_kind e = Some TransferError)).
  { intros r Ht Hk Hhttp Hne. exists 2. rewrite Ht, Ht1. simpl. rewrite <- !app_assoc.
    split_and!; try lia; try done.
    - intros k Hlt. by assert (k = 0) as -> by lia.
    - intros k Hlt Hs. destruct k as [|[|k]]; try lia.
      + by rewrite Hs in Hc0.
      + split; [done|]. apply Hhttp. apply Hh1 in Hs. congruence.
    - intros Hg. apply Hg1 in Hg. congruence. }
  destruct e1;
    try (match goal with |- context [raise (DownloadFailed ?e)] =>
           destruct (download_cleanup_effects save_path e w2) as (Hr & Ht & _) end;
         apply Hlast1; cbn zeta in *; rewrite ?Hr; try done; by intros e' [= <-]).
  2:{ apply Hlast1; try done. by intros e' [= <-]. }
  clear Hlast1. change (Nat.ltb 1 2) with true. cbn iota.
  specialize (Hc1 eq_refl).
  set (w2' := set_trace _ w2).
  assert (Ht2' : trace w2' = trace w ++ retry_trace url 2 ++ [EvLogWarning; EvSleep 2]).
  { subst w2'. simpl in *. rewrite Ht1. by rewrite <- !app_assoc. }
  clearbody w2'. clear Ht1 Hh1 Hg1 w2.
  rewrite download_loop_S. cbn zeta. change (3 - 1) with 2.
  destruct (download_attempt_effects http url save_path tool_name 2 w2')
    as (Ht2 & _ & Hc2 & Hh2 & Hg2).
  cbn zeta in *. rewrite Ht2' in Ht2. clear Ht2'.
  assert (Hlast2 : ∀ (r : Result (option bool) * World) (a : Result bool),
    trace r.2 = trace w ++ retry_trace url 3 →
    (∀ e, r.1 = Raise e → error_kind e = Some TransferError) →
    (a = Raise HTTPError ↔ http url 2 = StatusError) →
    (http url 2 = GetConnectionError → a = Raise ConnectionError) →
    (a = Raise HTTPError → r.1 = Raise (DownloadHttpFailed HTTPError)) →
    (a = Raise ConnectionError → r.1 = Raise (DownloadRetriesExhausted ConnectionError)) →
    ∃ n : nat, (1 ≤ n ≤ 3)%nat ∧ trace r.2 = trace w ++ retry_trace url n
      ∧ (∀ k : nat, (k < n - 1)%nat → connection_failure (http url k) = true)
      ∧ (∀ k : nat, (k < n)%nat → http url k = StatusError →
           k = (n - 1)%nat ∧ r.1 = Raise (DownloadHttpFailed HTTPError))
      ∧ (http url (n - 1)%nat = GetConnectionError →
           n = 3 ∧ r.1 = Raise (DownloadRetriesExhausted ConnectionError))
      ∧ (∀ e, r.1 = Raise e → error_kind e = Some TransferError)).
  { intros r a Ht Hk Hiff Hget Hhttp Hconn. exists 3. rewrite Ht.
    split_and!; try lia; try done.
    - intros k Hlt. destruct k as [|[|k]]; try lia; done.
    - intros k Hlt Hs. destruct k as [|[|[|k]]]; try lia.
      + by rewrite Hs in Hc0.
      + by rewrite Hs in Hc1.
      + split; [done|]. by apply Hhttp, Hiff.
    - intros Hg. split; [done|]. by apply Hconn, Hget. }
  destruct (download_attempt http url save_path tool_name 2 w2') as [[b2|e2] w3];
    cbn [fst snd] in *.
  { apply (Hlast2 (Ok (Some b2), w3) (Ok b2)); try done. simpl in *. by rewrite Ht2, <- !app_assoc. }
  assert (Ht3 : trace w3 = trace w ++ retry_trace url 3).
  { simpl in *. by rewrite Ht2, <- !app_assoc. }
  destruct e2;
    try (match goal with |- context [raise (DownloadFailed ?e)] =>
           destruct (download_cleanup_effects save_path e w3) as (Hr & Ht & _);
           apply (Hlast2 _ (Raise e)) end;
         cbn zeta in *; rewrite ?Hr, ?Ht; try done; by intros e' [= <-]).
  - change (Nat.ltb 2 2) with false. cbn iota.
    apply (Hlast2 _ (Raise ConnectionError)); try done. by intros e' [= <-].
  - apply (Hlast2 _ (Raise HTTPError)); try done. by intros e' [= <-].
Qed.

(** Any failure other than a connection failure or an HTTP status leaves
    no file at the destination. *)
Lemma download_file_other_failure_cleans http url save_path tool_name max_retries e :
  save_path ≠ [] → ∀ remaining w,
  let r := download_loop http url save_path tool_name max_retries remaining w in
  r.1 = Raise (DownloadFailed e) → fs_is_file save_path (fs r.2) = false.
Proof.
  intros Hp. induction remaining as [|remaining IH]; intros w; [done|].
  cbn zeta. rewrite download_loop_S. cbn zeta.
  destruct (download_attempt http url save_path tool_name _ w) as [[b|e0] w1]; [done|].
  destruct e0;
    try (match goal with |- context [raise (DownloadFailed ?e')] =>
           destruct (download_cleanup_effects save_path e' w1) as (_ & _ & _ & Hf) end;
         intros _; by apply Hf).
  - destruct (Nat.ltb _ _); [apply IH|done].
  - done.
Qed.

(** C2 on a download whose three attempts all end in connection failures,
    the first of them after the server had delivered part of the body: the
    error surfaces as a transfer error, and the destination file is still
    on disk with the three bytes that arrived.  Only the handler for other
    failures ([download_file_other_failure_cleans]) and the cancel path
    remove the file. *)
Theorem download_file_keeps_partial_file :
  let r := download_file http_stalls "u" ["t.zip"] "T" 3 (init_app (Dir ∅) "") in
  forallb (λ k, connection_failure (http_stalls "u" k)) [0; 1; 2] = true
  ∧ r.1 = Raise (DownloadRetriesExhausted ConnectionError)
  ∧ error_kind (DownloadRetriesExhausted ConnectionError) = Some TransferError
  ∧ fs_lookup ["t.zip"] (fs r.2) = Some (File "abc")
  ∧ trace r.2 = retry_trace "u" 3.
Proof. vm_compute. repeat split; reflexivity. Qed.

(** ** The archive expander *)

(** C1 on the CMake archive, already on disk, with a cancel that lands
    before the second member is extracted.  [extract_file] returns [None]
    and [install_tool] leaves by its early return, so the job is cancelled
    and not failed; but the extraction directory is still there, with the
    member that was extracted before the cancel.  The same holds one level
    down, for [extract_file] alone, also when the cancel lands before the
    first member: the freshly made directory stays. *)
Theorem extract_file_cancel_keeps_directory :
  let w := user_cancels_at 3 (scan_existing_files (init_app cmake_archive_only "")).2 in
  let r := install_tool toy_env "CMake" cmake_config w in
  let w1 := user_cancels_at 1 (init_app cmake_archive_only "") in
  let r1 := extract_file toy_zip_infolist ["cmake-4.0.1-windows-x86_64.zip"] [cmake_root] "CMake" w1 in
  let w0 := user_cancels_at 0 (init_app cmake_archive_only "") in
  let r0 := extract_file toy_zip_infolist ["cmake-4.0.1-windows-x86_64.zip"] [cmake_root] "CMake" w0 in
  fs_exists [cmake_root] (fs w) = false
  ∧ r.1 = Ok Cancelled
  ∧ (SetStatus "CMake" StFailed ∉ ui_update_queue r.2)
  ∧ fs_lookup [cmake_root] (fs r.2) = Some (Dir {[ "pkg" := Dir ∅ ]})
  ∧ r1.1 = Ok None
  ∧ fs_lookup [cmake_root] (fs r1.2) = Some (Dir {[ "pkg" := Dir ∅ ]})
  ∧ r0.1 = Ok None
  ∧ fs_lookup [cmake_root] (fs r0.2) = Some (Dir ∅).
Proof.
  vm_compute. split_and!; try reflexivity.
  intros H. repeat (apply elem_of_cons in H as [H|H]; [discriminate H|]).
  by apply elem_of_nil in H.
Qed.

(** ** The orchestrator *)

(** A worker calls [check_all_completed] from inside [install_tool], while
    its own thread is alive: the test finds a live thread and does
    nothing. *)
Lemma check_all_completed_own_thread_alive w tool_name :
  threads w !! tool_name = Some true → check_all_completed w = (Ok tt, w).
Proof.
  intros H. unfold check_all_completed. msimpl.
  replace (forallb negb (map_to_list (threads w)).*2) with false; [done|].
  symmetry. apply not_true_iff_false. intros Hall.
  rewrite forallb_forall in Hall.
  specialize (Hall true). simpl in Hall. assert (false = true) as [=]. apply Hall.
  apply list_elem_of_In, list_elem_of_fmap. exists (tool_name, true). split; [done|].
  by apply elem_of_map_to_list.
Qed.

(** C9 on two whole runs.  In the first all five archives are on disk and
    every job completes; in the second nothing is on disk, the network is
    down and every job fails.  Each time all worker threads have ended,
    yet [installation_completed] is still unset and the completion notice
    was never shown: a successful worker tests the threads while it is
    itself alive, and a failing worker does not call
    [check_all_completed] at all. *)
Theorem check_all_completed_never_signals :
  let r := run_installation toy_env (init_app all_archives "") in
  let r' := run_installation offline_env (init_app (Dir ∅) "") in
  r.1 = Ok [Completed; Completed; Completed; Completed; Completed]
  ∧ all_threads_dead r.2 = true
  ∧ installation_completed r.2 = false
  ∧ completion_notices (trace r.2) = 0
  ∧ (∃ os, r'.1 = Ok os ∧ length os = 5
           ∧ forallb (λ o, match o with Failed _ => true | _ => false end) os = true)
  ∧ all_threads_dead r'.2 = true
  ∧ installation_completed r'.2 = false
  ∧ completion_notices (trace r'.2) = 0.
Proof. vm_compute. split_and!; try reflexivity. eexists. split_and!; reflexivity. Qed.

(** C3 on a whole run with the five archives on disk.  The scan finds
    them and, once the queue is drained, the download bar of CMake stands
    at 100; [start_installation] then sets every step bar back to 0, and
    [install_tool] never touches the download bar of a tool whose archive
    exists.  No request is made and the later stages run (the job
    completes, the extract bar ends at 100 and PATH gains the tool), but
    the download bar reads 0 when the installation starts and still reads
    0 when it is over. *)
Theorem existing_archive_download_bar_reset :
  let scanned := (process_ui_updates (scan_existing_files (init_app all_archives "")).2).2 in
  let started := (start_installation scanned).2 in
  let r := run_installation toy_env (init_app all_archives "") in
  existing_files scanned !! "CMake" = Some ["cmake-4.0.1-windows-x86_64.zip"]
  ∧ step_progress_bars scanned !! ("CMake", "download") = Some 100%Q
  ∧ step_progress_bars started !! ("CMake", "download") = Some 0%Q
  ∧ r.1 = Ok [Completed; Completed; Completed; Completed; Completed]
  ∧ requests (trace r.2) = 0
  ∧ step_progress_bars r.2 !! ("CMake", "download") = Some 0%Q
  ∧ step_progress_bars r.2 !! ("CMake", "extract") = Some (200 # 2)%Q
  ∧ fs_is_dir ["cmake-4.0.1-windows-x86_64"; "bin"] (fs r.2) = true.
Proof. vm_compute. split_and!; reflexivity. Qed.

(** ** The path registrar *)

Lemma ps_scan_literal_quote_free t rest :
  quote_free t = true →
  match rest with String b _ => Ascii.eqb b "'" = false | EmptyString => True end →
  ps_scan_literal (t +:+ String "'" rest) = Some (t, rest).
Proof.
  intros Ht Hrest. induction t as [|a t IH].
  - simpl. destruct rest as [|b rest']; [done|]. by rewrite Hrest.
  - simpl in Ht. apply andb_true_iff in Ht as [Ha Ht].
    apply negb_true_iff in Ha.
    change (String a t +:+ String "'" rest) with (String a (t +:+ String "'" rest)).
    cbn [ps_scan_literal]. rewrite Ha. by rewrite IH.
Qed.

Lemma run_powershell_set_path env target old_path :
  quote_free target = true →
  run_powershell env (set_path_command target) old_path =
    if ps_accepts env then (0%Z, "", old_path +:+ ";" +:+ target)
    else (1%Z, ps_stderr env, old_path).
Proof.
  intros Hq. unfold run_powershell, set_path_command.
  assert (Hs : strip_prefix ps_set_path_head
            ("[Environment]::SetEnvironmentVariable('PATH', " +:+
             "[Environment]::GetEnvironmentVariable('PATH', 'User') + ';" +:+
             target +:+ "'" +:+ ", 'User')")
          = Some (String ";" target +:+ String "'" ps_set_path_tail)) by reflexivity.
  rewrite Hs.
  rewrite (ps_scan_literal_quote_free (String ";" target) ps_set_path_tail); [|done|done].
  by rewrite String.eqb_refl.
Qed.

Lemma path_text_snoc root p c : path_text root (p ++ [c]) = path_text root p +:+ "\" +:+ c.
Proof. unfold path_text. by rewrite foldl_snoc. Qed.

(** What the registrar does for a directory whose text holds no single
    quote.  The directory is the install root for a single executable and
    the root joined with [bin_subdir] otherwise ([root\bin] for ["bin"]).
    The PowerShell command appends [;] and that text to the persistent user
    PATH, whatever PATH held before, if the platform accepts the write; if
    the platform rejects it, PATH stays as it was and the registrar raises
    its registration error. *)
Theorem add_to_system_path_appends env (tool_dir : path) (bin_subdir : string)
    (is_single_exe : bool) (tool_name : string) w :
  let target := path_text (save_dir w)
                  (if is_single_exe then tool_dir else join tool_dir bin_subdir) in
  quote_free target = true →
  let r := add_to_system_path env tool_dir bin_subdir is_single_exe tool_name w in
  (ps_accepts env = true →
     r.1 = Ok tt ∧ user_path r.2 = user_path w +:+ ";" +:+ target)
  ∧ (ps_accepts env = false →
     r.1 = Raise (EnvVarFailed (SetPathFailed (ps_stderr env)))
     ∧ error_kind (EnvVarFailed (SetPathFailed (ps_stderr env))) = Some RegistrationError
     ∧ user_path r.2 = user_path w)
  ∧ path_text (save_dir w) (join tool_dir "bin") = path_text (save_dir w) tool_dir +:+ "\bin".
Proof.
  intros target Hq r.
  assert (Hr : r.1 = (if ps_accepts env then Ok tt
                      else Raise (EnvVarFailed (SetPathFailed (ps_stderr env))))
               ∧ user_path r.2 = if ps_accepts env then user_path w +:+ ";" +:+ target
                                 else user_path w).
  { subst r. unfold add_to_system_path, try_except.
    rewrite !bind_run. unfold gets. cbn beta iota zeta. rewrite !bind_run. cbn beta iota zeta.
    fold target.
    rewrite (run_powershell_set_path env target (user_path w) Hq).
    destruct (ps_accepts env); msimpl; done. }
  destruct Hr as [Hr1 Hr2]. split_and!.
  - intros Ha. by rewrite Ha in Hr1, Hr2.
  - intros Ha. by rewrite Ha in Hr1, Hr2.
  - change (join tool_dir "bin") with (tool_dir ++ ["bin"]). apply path_text_snoc.
Qed.

Lemma add_to_system_path_appends_witness :
  let w := init_app (Dir ∅) "C:\Windows" in
  let r := add_to_system_path toy_env ["cmake-4.0.1-windows-x86_64"] "bin" false "CMake" w in
  (ps_accepts toy_env = true →
     r.1 = Ok tt
     ∧ user_path r.2 = "C:\Windows" +:+ ";" +:+ "C:\tools\cmake-4.0.1-windows-x86_64\bin")
  ∧ (ps_accepts toy_env = false →
     r.1 = Raise (EnvVarFailed (SetPathFailed (ps_stderr toy_env)))
     ∧ error_kind (EnvVarFailed (SetPathFailed (ps_stderr toy_env))) = Some RegistrationError
     ∧ user_path r.2 = user_path w)
  ∧ path_text (save_dir w) (join ["cmake-4.0.1-windows-x86_64"] "bin")
    = path_text (save_dir w) ["cmake-4.0.1-windows-x86_64"] +:+ "\bin".
Proof.
  apply (add_to_system_path_appends toy_env ["cmake-4.0.1-windows-x86_64"] "bin" false "CMake"
           (init_app (Dir ∅) "C:\Windows")).
  vm_compute. reflexivity.
Defined.

(** C7 at a chosen directory whose name holds a doubled single quote.  The
    registrar puts the text of the directory between single quotes without
    escaping it; inside the PowerShell literal the pair of quotes stands
    for one quote, so the entry appended to PATH is not the directory.
    The command returns 0 all the same, and the registrar logs and
    announces the success and reports the step as done. *)
Lemma add_to_system_path_doubled_quote :
  let w := set_save_dir "C:\o''neil" (init_app (Dir ∅) "C:\Windows") in
  let r := add_to_system_path toy_env ["ninja-win"] "" true "Ninja" w in
  path_text (save_dir w) ["ninja-win"] = "C:\o''neil\ninja-win"
  ∧ r.1 = Ok tt
  ∧ user_path r.2 = "C:\Windows;C:\o'neil\ninja-win"
  ∧ user_path r.2 ≠ user_path w +:+ ";" +:+ path_text (save_dir w) ["ninja-win"]
  ∧ trace r.2 = [EvLogInfo; EvShowInfo "configured"]
  ∧ ui_update_queue r.2 = [SetStepBar "Ninja" "config" 100; SetProgressBar "Ninja" 100].
Proof. vm_compute. split_and!; try reflexivity. discriminate. Qed.

(** ** Frames: what a method leaves alone *)

Section respects_facts.
Context (R : relation World) `{!Reflexive R, !Transitive R}.

Lemma respects_ret {A} (a : A) : respects R (ret a).
Proof. intros w. simpl. reflexivity. Qed.

Lemma respects_raise {A} e : respects R (raise (A := A) e).
Proof. intros w. simpl. reflexivity. Qed.

Lemma respects_gets {A} (f : World → A) : respects R (gets f).
Proof. intros w. simpl. reflexivity. Qed.

Lemma respects_bind {A B} (m : M A) (k : A → M B) :
  respects R m → (∀ a, respects R (k a)) → respects R (m ≫= k).
Proof.
  intros Hm Hk w. rewrite bind_run. specialize (Hm w).
  destruct (m w) as [[a|e] w1]; simpl in *; [|done].
  etrans; [exact Hm|apply Hk].
Qed.

Lemma respects_try_except {A} (m : M A) (h : Exn → M A) :
  respects R m → (∀ e, respects R (h e)) → respects R (try_except m h).
Proof.
  intros Hm Hh w. unfold try_except. specialize (Hm w).
  destruct (m w) as [[a|e] w1]; simpl in *; [done|].
  etrans; [exact Hm|apply Hh].
Qed.

Lemma respects_for_each {A} (l : list A) (body : A → M unit) :
  (∀ x, respects R (body x)) → respects R (for_each l body).
Proof.
  intros Hb. induction l as [|x l IH]; simpl.
  - apply respects_ret.
  - apply respects_bind; [apply Hb|by intros _].
Qed.
End respects_facts.

(** Splits a goal [respects R m] along the structure of [m]. *)
Ltac respects_step :=
  first
    [ solve [eauto with frames]
    | solve [apply respects_ret; apply _]
    | solve [apply respects_raise; apply _]
    | solve [apply respects_gets; apply _]
    | apply respects_bind; [apply _| |intros ?]
    | apply respects_try_except; [apply _| |intros ?]
    | apply respects_for_each; [apply _|apply _|intros ?]
    | match goal with
      | |- respects _ (if ?b then _ else _) => destruct b
      | |- respects _ (match ?x with _ => _ end) => destruct x
      end ].

#[local] Instance same_queue_refl : Reflexive same_queue.
Proof. by intros w. Qed.
#[local] Instance same_queue_trans : Transitive same_queue.
Proof. intros w1 w2 w3 H1 H2. unfold same_queue in *. congruence. Qed.
#[local] Instance flag_stays_refl : Reflexive flag_stays.
Proof. intros w H. exact H. Qed.
#[local] Instance flag_stays_trans : Transitive flag_stays.
Proof. intros w1 w2 w3 H1 H2. unfold flag_stays in *. auto. Qed.

Lemma same_queue_set_fs f : respects same_queue (modify (set_fs f)).
Proof. by intros w. Qed.
Lemma same_queue_emit e : respects same_queue (emit e).
Proof. by intros w. Qed.
Lemma same_queue_read_flag : respects same_queue read_flag.
Proof. intros w. apply read_flag_queue. Qed.

Lemma flag_stays_set_fs f : respects flag_stays (modify (set_fs f)).
Proof. intros w H. exact H. Qed.
Lemma flag_stays_emit e : respects flag_stays (emit e).
Proof. intros w H. exact H. Qed.
Lemma flag_stays_queue_put u : respects flag_stays (queue_put u).
Proof. intros w H. exact H. Qed.
Lemma flag_stays_read_flag : respects flag_stays read_flag.
Proof.
  intros w Hf. unfold read_flag. destruct (cancel_in w) as [[|k]|]; simpl; done.
Qed.

Create HintDb frames.
#[local] Hint Resolve same_queue_set_fs same_queue_emit same_queue_read_flag
  flag_stays_set_fs flag_stays_emit flag_stays_queue_put flag_stays_read_flag : frames.

Ltac respects_tac := repeat respects_step; eauto with frames.

Lemma same_queue_rmtree p : respects same_queue (rmtree p).
Proof. unfold rmtree. respects_tac. Qed.
Lemma same_queue_unlink p : respects same_queue (unlink p).
Proof. unfold unlink. respects_tac. Qed.
Lemma same_queue_mkdir_parents p : respects same_queue (mkdir_parents p).
Proof. unfold mkdir_parents. respects_tac. Qed.
Lemma same_queue_open_wb p : respects same_queue (open_wb p).
Proof. unfold open_wb. respects_tac. Qed.
Lemma same_queue_mkdir p : respects same_queue (mkdir p).
Proof. unfold mkdir. respects_tac. Qed.
Lemma same_queue_file_write p c : respects same_queue (file_write p c).
Proof. unfold file_write. respects_tac. Qed.
Lemma same_queue_shutil_move src dst : respects same_queue (shutil_move src dst).
Proof. unfold shutil_move. respects_tac. Qed.

#[local] Hint Resolve same_queue_rmtree same_queue_unlink same_queue_mkdir_parents
  same_queue_open_wb same_queue_mkdir same_queue_file_write same_queue_shutil_move : frames.

Lemma same_queue_move_contents src dst : respects same_queue (move_contents src dst).
Proof. unfold move_contents, iterdir, move_item. respects_tac. Qed.

Lemma same_queue_fix_directory_structure env base_dir bin_subdir is_single_exe :
  respects same_queue (fix_directory_structure env base_dir bin_subdir is_single_exe).
Proof.
  unfold fix_directory_structure, iterdir.
  pose proof same_queue_move_contents. respects_tac.
Qed.

Lemma same_queue_zip_extract tool_dir file : respects same_queue (zip_extract tool_dir file).
Proof. unfold zip_extract. respects_tac. Qed.

Lemma same_queue_zip_open zi save_path : respects same_queue (zip_open zi save_path).
Proof. unfold zip_open. respects_tac. Qed.

Lemma same_queue_check_all_completed : respects same_queue check_all_completed.
Proof. unfold check_all_completed. respects_tac. by intros w. Qed.

Lemma flag_stays_unlink p : respects flag_stays (unlink p).
Proof. unfold unlink. respects_tac. Qed.

(** ** What the stages put on the queue *)

Lemma read_flag_set w :
  installation_completed w = true → (read_flag w).1 = Ok true.
Proof.
  intros H. unfold read_flag. destruct (cancel_in w) as [[|k]|]; simpl; by rewrite ?H.
Qed.

Lemma read_flag_true w w1 :
  read_flag w = (Ok true, w1) → installation_completed w1 = true.
Proof.
  unfold read_flag. destruct (cancel_in w) as [[|k]|]; intros H;
    by simplify_eq/=.
Qed.

Lemma read_flag_cases w :
  ∃ c w1, read_flag w = (Ok c, w1) ∧ ui_update_queue w1 = ui_update_queue w.
Proof.
  unfold read_flag. destruct (cancel_in w) as [[|k]|]; eexists _, _; split; reflexivity.
Qed.

Lemma received_zero_empty chunk rest :
  received (chunk :: rest) = 0 → chunk = "" ∧ received rest = 0.
Proof.
  simpl. intros H. split; [|lia]. destruct chunk; [done|simpl in H; lia].
Qed.

Lemma download_chunks_queue save_path tool_name total_size ending chunks :
  ∀ downloaded w w' b,
  download_chunks save_path tool_name total_size chunks ending downloaded w = (Ok b, w') →
  if b then ui_update_queue w' =
              ui_update_queue w ++ chunk_updates tool_name total_size chunks downloaded
  else installation_completed w' = true.
Proof.
  induction chunks as [|chunk rest IH]; intros downloaded w w' b; cbn [download_chunks chunk_updates].
  - destruct ending; intros [= <- <-]. by rewrite app_nil_r.
  - destruct (String.eqb chunk ""); [apply IH|].
    rewrite bind_run.
    destruct (read_flag_cases w) as (c & w1 & Hrf & Hq). rewrite Hrf.
    destruct c.
    + apply read_flag_true in Hrf. rewrite bind_run.
      pose proof (flag_stays_unlink save_path w1 Hrf) as Hfl.
      destruct (unlink save_path w1) as [[[]|e] w2]; [|done].
      by intros [= <- <-].
    + unfold file_write, queue_put, modify, mbind, M_bind, bind. cbn beta iota zeta.
      intros Hrun. apply IH in Hrun. destruct b; [|done].
      rewrite Hrun. simpl. rewrite Hq. by rewrite <- !app_assoc.
Qed.

Lemma download_chunks_nothing_received save_path tool_name total_size ending chunks :
  received chunks = 0 → ∀ downloaded w,
  download_chunks save_path tool_name total_size chunks ending downloaded w =
    match ending with
    | EndOfBody => (Ok true, w)
    | BrokenConnection => (Raise ConnectionError, w)
    | BrokenBody => (Raise RequestError, w)
    end.
Proof.
  induction chunks as [|chunk rest IH]; intros Hr downloaded w; cbn [download_chunks].
  - by destruct ending.
  - apply received_zero_empty in Hr as [-> Hr]. simpl. by apply IH.
Qed.

Lemma well_paced_broken content_length chunks :
  well_paced (Response content_length chunks BrokenConnection) = true → received chunks = 0.
Proof. simpl. intros [_ H]%andb_true_iff. by apply Nat.eqb_eq in H. Qed.

Lemma well_paced_length content_length chunks ending :
  well_paced (Response content_length chunks ending) = true →
  (received chunks ≤ default 0 content_length)%nat.
Proof. simpl. intros [H _]%andb_true_iff. by apply Nat.leb_le in H. Qed.

Lemma download_attempt_queue http url save_path tool_name attempt w r w' :
  (attempt < 3)%nat →
  well_paced (http url attempt) = true →
  download_attempt http url save_path tool_name attempt w = (r, w') →
  match r with
  | Ok true => ∃ us, ui_update_queue w' = ui_update_queue w ++ us
                     ∧ download_stage http url tool_name us
  | Ok false => installation_completed w' = true
  | Raise ConnectionError => ui_update_queue w' = ui_update_queue w
  | Raise _ => True
  end.
Proof.
  intros Hlt Hwp. unfold download_attempt, emit, modify. rewrite bind_run. cbn beta iota zeta.
  destruct (http url attempt) as [| | |content_length chunks ending] eqn:Hhttp.
  1-3: by intros [= <- <-].
  destruct (default 0 content_length =? 0)%nat eqn:Hcl; [by intros [= <- <-]|].
  apply Nat.eqb_neq in Hcl.
  set (w0 := set_trace (trace w ++ [EvRequest url]) w).
  rewrite bind_run.
  pose proof (same_queue_mkdir_parents (parent save_path) w0) as Hq1.
  destruct (mkdir_parents (parent save_path) w0) as [[[]|e1] w1].
  2:{ intros [= <- <-]. destruct e1; first [done | exact Hq1]. }
  rewrite bind_run.
  pose proof (same_queue_open_wb save_path w1) as Hq2.
  destruct (open_wb save_path w1) as [[[]|e2] w2].
  2:{ intros [= <- <-]. unfold same_queue in *. simpl in *. destruct e2; first [done | congruence]. }
  unfold same_queue in *. simpl in *.
  destruct r as [b|e].
  - intros Hrun. apply download_chunks_queue in Hrun. destruct b; [|done].
    eexists. split; [by rewrite Hrun, Hq2, Hq1|].
    right. by exists attempt, content_length, chunks, ending.
  - destruct e; try done.
    destruct ending.
    + pose proof (download_chunks_effects save_path tool_name (default 0 content_length)
                    EndOfBody chunks 0 w2) as (_ & _ & He).
      intros Hrun. cbn zeta in He. rewrite Hrun in He.
      destruct (He _ eq_refl) as [[_ ?]|[?|?]]; done.
    + rewrite download_chunks_nothing_received by (by apply (well_paced_broken content_length)).
      intros [= <-]. congruence.
    + pose proof (download_chunks_effects save_path tool_name (default 0 content_length)
                    BrokenBody chunks 0 w2) as (_ & _ & He).
      intros Hrun. cbn zeta in He. rewrite Hrun in He.
      destruct (He _ eq_refl) as [[_ ?]|[?|?]]; done.
Qed.

Lemma download_loop_queue http url save_path tool_name :
  (∀ k : nat, (k < 3)%nat → well_paced (http url k) = true) →
  ∀ (remaining : nat) w b w', (remaining ≤ 3)%nat →
  download_loop http url save_path tool_name 3 remaining w = (Ok b, w') →
  match b with
  | Some false => installation_completed w' = true
  | _ => ∃ us, ui_update_queue w' = ui_update_queue w ++ us
               ∧ download_stage http url tool_name us
  end.
Proof.
  intros Hwp. induction remaining as [|remaining IH]; intros w b w' Hle.
  - intros [= <- <-]. exists []. split; [by rewrite app_nil_r|by left].
  - rewrite download_loop_S. cbn zeta.
    destruct (download_attempt http url save_path tool_name (3 - S remaining) w)
      as [r w1] eqn:Hatt.
    apply download_attempt_queue in Hatt; [|lia|apply Hwp; lia].
    destruct r as [b1|e].
    + intros [= <- <-]. by destruct b1.
    + destruct e;
        try (match goal with |- context [raise (DownloadFailed ?e')] =>
               destruct (download_cleanup_effects save_path e' w1) as (Hr & _) end;
             cbn zeta in *; intros Hrun; rewrite Hrun in Hr; discriminate Hr).
      * destruct (Nat.ltb _ _); [|done].
        intros Hrun. apply IH in Hrun; [|lia].
        simpl in Hrun. by rewrite Hatt in Hrun.
      * done.
Qed.

Lemma member_updates_step tool_name total_files todo extracted :
  member_updates tool_name total_files (S todo) extracted =
    SetStepBar tool_name "extract" (Qnat (extracted + 1) / Qnat total_files * 100)%Q ::
    SetProgressBar tool_name (33 + Qnat (extracted + 1) / Qnat total_files * 33)%Q ::
    member_updates tool_name total_files todo (extracted + 1).
Proof. reflexivity. Qed.

Lemma extract_members_queue tool_dir tool_name total_files infos :
  ∀ extracted w r w',
  extract_members tool_dir tool_name total_files infos extracted w = (Ok r, w') →
  match r with
  | Some _ => ui_update_queue w' = ui_update_queue w
                ++ member_updates tool_name total_files (length infos) extracted
  | None => installation_completed w' = true
  end.
Proof.
  induction infos as [|file rest IH]; intros extracted w r w'; cbn [extract_members].
  - intros [= <- <-]. simpl. by rewrite app_nil_r.
  - rewrite bind_run.
    destruct (read_flag_cases w) as (c & w1 & Hrf & Hq). rewrite Hrf.
    destruct c.
    + apply read_flag_true in Hrf. by intros [= <- <-].
    + rewrite bind_run.
      pose proof (same_queue_zip_extract tool_dir file w1) as Hq1.
      destruct (zip_extract tool_dir file w1) as [[[]|e] w2]; [|done].
      unfold queue_put, modify, mbind, M_bind, bind. cbn beta iota zeta.
      intros Hrun. apply IH in Hrun. destruct r; [|done].
      rewrite Hrun. cbn [length]. rewrite member_updates_step.
      unfold same_queue in Hq1. simpl in *. rewrite Hq1, Hq. by rewrite <- !app_assoc.
Qed.

Lemma extract_file_queue zi save_path tool_dir tool_name w r w' :
  extract_file zi save_path tool_dir tool_name w = (Ok r, w') →
  match r with
  | Some _ => ∃ us, ui_update_queue w' = ui_update_queue w ++ us
                    ∧ extract_stage tool_name us
  | None => installation_completed w' = true
  end.
Proof.
  unfold extract_file, try_except.
  match goal with |- context [match ?m w with _ => _ end] => set (body := m) end.
  destruct (body w) as [[r0|e] w0] eqn:Hbody.
  2:{ unfold mbind, M_bind, bind, gets. cbn beta iota.
      destruct (fs_is_dir tool_dir (fs w0)).
      - destruct (rmtree tool_dir w0) as [[[]|?] ?]; done.
      - done. }
  intros [= <- <-]. subst body. revert Hbody.
  rewrite bind_run. unfold gets at 1. cbn beta iota. rewrite bind_run.
  set (m1 := if fs_is_dir tool_dir (fs w) then rmtree tool_dir else ret tt).
  assert (Hq1 : respects same_queue m1) by (subst m1; respects_tac).
  specialize (Hq1 w). destruct (m1 w) as [[[]|e1] w1]; [|done].
  rewrite bind_run.
  pose proof (same_queue_mkdir_parents tool_dir w1) as Hq2.
  destruct (mkdir_parents tool_dir w1) as [[[]|e2] w2]; [|done].
  rewrite bind_run.
  pose proof (same_queue_zip_open zi save_path w2) as Hq3.
  destruct (zip_open zi save_path w2) as [[infos|e3] w3]; [|done].
  cbn zeta. intros Hrun. apply extract_members_queue in Hrun.
  destruct r0; [|done].
  unfold same_queue in *. simpl in *.
  eexists. split; [by rewrite Hrun, Hq3, Hq2, Hq1|]. by eexists.
Qed.

Lemma add_to_system_path_queue env tool_dir bin_subdir is_single_exe tool_name w w' :
  add_to_system_path env tool_dir bin_subdir is_single_exe tool_name w = (Ok tt, w') →
  ui_update_queue w' = ui_update_queue w
    ++ [SetStepBar tool_name "config" 100; SetProgressBar tool_name 100].
Proof.
  unfold add_to_system_path, try_except.
  rewrite !bind_run. unfold gets. cbn beta iota zeta. rewrite !bind_run. cbn beta iota zeta.
  destruct (run_powershell _ _ _) as [[returncode stderr] new_path].
  unfold modify at 1. cbn beta iota. destruct (negb _); [done|].
  unfold emit, queue_put, modify, mbind, M_bind, bind. cbn beta iota.
  intros [= <-]. simpl. by rewrite <- app_assoc.
Qed.

Lemma update_status_run tool_name s w :
  update_status tool_name s w
  = (Ok tt, set_queue (ui_update_queue w ++ [SetStatus tool_name s]) w).
Proof. reflexivity. Qed.

Lemma install_tool_queue env tool_name tool_config w w' :
  (∀ k : nat, (k < 3)%nat → well_paced (http env (url tool_config) k) = true) →
  install_tool env tool_name tool_config w = (Ok Completed, w') →
  ∃ us_d us_e,
    download_stage (http env) (url tool_config) tool_name us_d
    ∧ extract_stage tool_name us_e
    ∧ overall_reports tool_name (drop (length (ui_update_queue w)) (ui_update_queue w'))
      = overall_reports tool_name us_d ++ overall_reports tool_name us_e ++ [100%Q].
Proof.
  intros Hwp. unfold install_tool, try_except.
  match goal with |- context [match ?m w with _ => _ end] => set (body := m) end.
  destruct (body w) as [[o|e] w0] eqn:Hbody; [|done].
  intros [= -> ->]. subst body. revert Hbody.
  (* the first look at the flag *)
  rewrite bind_run.
  destruct (read_flag_cases w) as (c0 & w1 & Hrf0 & Hq0). rewrite Hrf0.
  destruct c0; [done|]. cbn zeta.
  (* verifying or downloading *)
  rewrite bind_run. unfold gets at 1. cbn beta iota. rewrite bind_run.
  match goal with |- context [match ?m w1 with _ => _ end] => set (stage_a := m) end.
  assert (Ha : ∀ sp w2, stage_a w1 = (Ok sp, w2) →
            installation_completed w2 = true
            ∨ ∃ us st, ui_update_queue w2 = ui_update_queue w1 ++ SetStatus tool_name st :: us
                       ∧ download_stage (http env) (url tool_config) tool_name us).
  { subst stage_a. intros sp w2. destruct (existing_files w1 !! tool_name) as [existing|].
    - intros [= <- <-]. right. exists [], StVerifying. split; [done|by left].
    - rewrite bind_run, update_status_run, bind_run. unfold download_file.
      match goal with |- context [download_loop _ _ _ _ _ _ ?w0] => set (wq := w0) end.
      destruct (download_loop (http env) (url tool_config) [archive_name (url tool_config)]
                  tool_name 3 3 wq) as [[b|e] w2'] eqn:Hdl; [|done].
      intros [= <- <-]. apply download_loop_queue in Hdl; [|done|lia].
      destruct b as [[|]|]; [right|by left|right];
        destruct Hdl as (us & Hq & Hst); exists us, StDownloading;
        (split; [|done]); rewrite Hq; subst wq; simpl; by rewrite <- app_assoc. }
  destruct (stage_a w1) as [[sp|e] w2] eqn:Hsa; [|done].
  specialize (Ha sp w2 eq_refl). clear Hsa.
  (* the second look at the flag *)
  rewrite bind_run.
  destruct (read_flag_cases w2) as (c1 & w3 & Hrf1 & Hq1). rewrite Hrf1.
  destruct Ha as [Hflag|(us_d & st_d & Hq2 & Hstage_d)].
  { apply read_flag_set in Hflag. rewrite Hrf1 in Hflag. simpl in Hflag.
    injection Hflag as ->. done. }
  destruct c1; [done|].
  (* extracting *)
  rewrite bind_run, update_status_run, bind_run.
  match goal with |- context [extract_file _ _ _ _ ?w0] => set (w4 := w0) end.
  destruct (extract_file (zip_infolist env) sp [archive_stem (url tool_config)] tool_name w4)
    as [[r|e] w5] eqn:Hex; [|done].
  apply extract_file_queue in Hex.
  rewrite bind_run.
  destruct (read_flag_cases w5) as (c2 & w6 & Hrf2 & Hq5). rewrite Hrf2.
  destruct r as [d|].
  2:{ apply read_flag_set in Hex. rewrite Hrf2 in Hex. simpl in Hex.
      injection Hex as ->. done. }
  destruct Hex as (us_e & Hq4 & Hstage_e).
  destruct c2; [done|].
  (* arranging the directory *)
  rewrite bind_run, update_status_run, bind_run.
  match goal with |- context [fix_directory_structure _ _ _ _ ?w0] => set (w7 := w0) end.
  pose proof (same_queue_fix_directory_structure env d (bin_subdir tool_config)
                (is_single_exe tool_config) w7) as Hq7.
  destruct (fix_directory_structure env d (bin_subdir tool_config)
              (is_single_exe tool_config) w7) as [[actual|e] w8]; [|done].
  rewrite bind_run.
  destruct (read_flag_cases w8) as (c3 & w9 & Hrf3 & Hq8). rewrite Hrf3.
  destruct c3; [done|].
  (* registering *)
  rewrite bind_run, update_status_run, bind_run.
  match goal with |- context [add_to_system_path _ _ _ _ _ ?w0] => set (w10 := w0) end.
  destruct (add_to_system_path env actual (bin_subdir tool_config) (is_single_exe tool_config)
              tool_name w10) as [[[]|e] w11] eqn:Hreg; [|done].
  apply add_to_system_path_queue in Hreg.
  rewrite bind_run, update_status_run, bind_run.
  match goal with |- context [check_all_completed ?w0] => set (w12 := w0) end.
  pose proof (same_queue_check_all_completed w12) as Hq12.
  destruct (check_all_completed w12) as [[[]|e] w13]; [|done].
  intros [= <-].
  exists us_d, us_e. split_and!; [done|done|].
  unfold same_queue in *. subst w4 w7 w10 w12. simpl in *.
  rewrite Hq12, Hreg, Hq8, Hq7, Hq5, Hq4, Hq1, Hq2, Hq0.
  rewrite <- !app_assoc. rewrite drop_app_length.
  unfold overall_reports. rewrite !omap_app. simpl.
  rewrite String.eqb_refl. reflexivity.
Qed.

(** ** Progress arithmetic *)

Lemma Qnat_nonneg n : (0 <= Qnat n)%Q.
Proof. unfold Qnat. rewrite <- (Zle_Qle 0). lia. Qed.

Lemma Qnat_le n m : (n ≤ m)%nat → (Qnat n <= Qnat m)%Q.
Proof. intros H. unfold Qnat. rewrite <- Zle_Qle. lia. Qed.

Lemma Qnat_pos n : n ≠ 0%nat → (0 < Qnat n)%Q.
Proof. intros H. unfold Qnat. rewrite <- (Zlt_Qlt 0). lia. Qed.

Lemma share_mono n m t : (n ≤ m)%nat → (Qnat n / Qnat t <= Qnat m / Qnat t)%Q.
Proof.
  intros H. unfold Qdiv. apply Qmult_le_compat_r; [by apply Qnat_le|].
  apply Qinv_le_0_compat, Qnat_nonneg.
Qed.

Lemma share_nonneg n t : (0 <= Qnat n / Qnat t)%Q.
Proof.
  unfold Qdiv. apply Qmult_le_0_compat; [apply Qnat_nonneg|].
  apply Qinv_le_0_compat, Qnat_nonneg.
Qed.

Lemma share_le_1 n t : t ≠ 0%nat → (n ≤ t)%nat → (Qnat n / Qnat t <= 1)%Q.
Proof.
  intros Ht H. apply Qle_shift_div_r; [by apply Qnat_pos|].
  rewrite Qmult_1_l. by apply Qnat_le.
Qed.

Lemma chunk_reports_bounds tool_name total_size :
  total_size ≠ 0%nat → ∀ chunks downloaded,
  (downloaded + received chunks ≤ total_size)%nat →
  let l := overall_reports tool_name (chunk_updates tool_name total_size chunks downloaded) in
  Forall (λ p, (Qnat downloaded / Qnat total_size * 33 <= p)%Q ∧ (p <= 33)%Q) l
  ∧ StronglySorted Qle l.
Proof.
  intros Ht. induction chunks as [|chunk rest IH]; intros downloaded Hle; cbn zeta.
  - split; constructor.
  - cbn [chunk_updates]. destruct (String.eqb chunk "") eqn:Hc.
    + apply String.eqb_eq in Hc as ->. apply IH. simpl in Hle. lia.
    + unfold overall_reports. cbn [omap list_omap]. rewrite String.eqb_refl.
      fold (overall_reports tool_name
              (chunk_updates tool_name total_size rest (downloaded + String.length chunk))).
      simpl in Hle.
      destruct (IH (downloaded + String.length chunk)%nat) as [Hb Hs]; [lia|].
      pose proof (share_mono downloaded (downloaded + String.length chunk) total_size
                    ltac:(lia)) as Hm.
      pose proof (share_le_1 (downloaded + String.length chunk) total_size Ht ltac:(lia)) as H1.
      split.
      * constructor; [split; lra|].
        eapply Forall_impl; [exact Hb|]. intros p [Hp1 Hp2]. split; lra.
      * constructor; [done|]. eapply Forall_impl; [exact Hb|]. by intros p [Hp1 _].
Qed.

Lemma member_reports_bounds tool_name total_files :
  ∀ todo extracted, (extracted + todo ≤ total_files)%nat →
  let l := overall_reports tool_name (member_updates tool_name total_files todo extracted) in
  Forall (λ p, (33 + Qnat extracted / Qnat total_files * 33 <= p)%Q ∧ (p <= 66)%Q) l
  ∧ StronglySorted Qle l.
Proof.
  induction todo as [|todo IH]; intros extracted Hle; cbn zeta.
  - split; constructor.
  - rewrite member_updates_step. unfold overall_reports. cbn [omap list_omap].
    rewrite String.eqb_refl.
    fold (overall_reports tool_name (member_updates tool_name total_files todo (extracted + 1))).
    destruct (IH (extracted + 1)%nat) as [Hb Hs]; [lia|].
    pose proof (share_mono extracted (extracted + 1) total_files ltac:(lia)) as Hm.
    pose proof (share_le_1 (extracted + 1) total_files ltac:(lia) ltac:(lia)) as H1.
    split.
    + constructor; [split; lra|].
      eapply Forall_impl; [exact Hb|]. intros p [Hp1 Hp2]. split; lra.
    + constructor; [done|]. eapply Forall_impl; [exact Hb|]. by intros p [Hp1 _].
Qed.

Lemma for_each_modify {A} (l : list A) (f : A → World → World) w :
  for_each l (λ x, modify (f x)) w = (Ok tt, foldl (λ w x, f x w) w l).
Proof.
  revert w. induction l as [|x l IH]; intros w; [done|].
  cbn [for_each foldl]. rewrite bind_run. unfold modify at 1. cbn beta iota. apply IH.
Qed.

#[local] Instance same_bars_refl : Reflexive (λ w w', progress_bars w' = progress_bars w).
Proof. by intros w. Qed.
#[local] Instance same_bars_trans : Transitive (λ w w', progress_bars w' = progress_bars w).
Proof. intros w1 w2 w3 H1 H2. congruence. Qed.

(** [start_installation] puts the overall bar of every tool of the
    catalogue at 0. *)
Lemma start_installation_resets w tool_name tool_config :
  (tool_name, tool_config) ∈ TOOLS →
  progress_bars (start_installation w).2 !! tool_name = Some 0%Q.
Proof.
  intros Hin.
  assert (H : tool_name ∈ TOOLS.*1).
  { apply list_elem_of_fmap. by exists (tool_name, tool_config). }
  clear Hin. unfold start_installation.
  rewrite bind_run. unfold modify at 1. cbn beta iota.
  rewrite bind_run.
  match goal with |- context [for_each TOOLS ?body ?w0] =>
    replace (for_each TOOLS body w0)
      with (for_each TOOLS (λ t : string * ToolConfig, modify (λ w,
              set_widgets (<[t.1 := 0%Q]> (progress_bars w))
                (foldl (λ sb step, <[(t.1, step) := 0%Q]> sb) (step_progress_bars w)
                   INSTALL_STEPS)
                (status_labels w) w)) w0);
      [|unfold TOOLS; reflexivity]
  end.
  rewrite for_each_modify.
  match goal with |- context [(?m ≫= ?k) ?w0] =>
    assert (Hfr : respects (λ w w', progress_bars w' = progress_bars w) (m ≫= k));
      [|rewrite (Hfr w0)]
  end.
  { respects_tac; by intros ?. }
  cbn in H. unfold TOOLS. cbn [foldl fst progress_bars set_widgets].
  repeat (apply elem_of_cons in H as [->|H];
          [repeat first [rewrite lookup_insert_eq; reflexivity
                        | rewrite lookup_insert_ne by done]|]).
  by apply elem_of_nil in H.
Qed.

(** C6, as the code has it.  Take a job that completes, with responses
    that keep within their declared length and, where they break off with
    a connection failure, have delivered nothing.  The values it reports
    for the overall bar are those of the download ([downloaded /
    total_size * 33], none for an archive already on disk), then those of
    the extraction ([33 + extracted / total_files * 33]), then 100 from the
    registration; normalisation reports nothing.  The first lie between 0
    and 33, the second between 33 and 66, and after the 0 that
    [start_installation] sets, the sequence never decreases, never exceeds
    100 and ends at 100. *)
Theorem install_tool_progress env tool_name tool_config w w' :
  forallb (λ k, well_paced (http env (url tool_config) k)) (seq 0 3) = true →
  install_tool env tool_name tool_config w = (Ok Completed, w') →
  ∃ ds es,
    overall_reports tool_name (drop (length (ui_update_queue w)) (ui_update_queue w'))
      = ds ++ es ++ [100%Q]
    ∧ (∃ us, download_stage (http env) (url tool_config) tool_name us
             ∧ ds = overall_reports tool_name us)
    ∧ (∃ us, extract_stage tool_name us ∧ es = overall_reports tool_name us)
    ∧ Forall (λ p, (0 <= p)%Q ∧ (p <= 33)%Q) ds
    ∧ Forall (λ p, (33 <= p)%Q ∧ (p <= 66)%Q) es
    ∧ StronglySorted Qle (0%Q :: ds ++ es ++ [100%Q])
    ∧ Forall (λ p, (p <= 100)%Q) (0%Q :: ds ++ es ++ [100%Q]).
Proof.
  intros Hwp Hrun.
  assert (Hwp' : ∀ k : nat, (k < 3)%nat → well_paced (http env (url tool_config) k) = true).
  { intros k Hk. rewrite forallb_forall in Hwp. apply Hwp, in_seq. lia. }
  destruct (install_tool_queue env tool_name tool_config w w' Hwp' Hrun)
    as (us_d & us_e & Hd & He & Hq).
  exists (overall_reports tool_name us_d), (overall_reports tool_name us_e).
  assert (Hds : Forall (λ p, (0 <= p)%Q ∧ (p <= 33)%Q) (overall_reports tool_name us_d)
                ∧ StronglySorted Qle (overall_reports tool_name us_d)).
  { destruct Hd as [->|(k & cl & chunks & ending & Hlt & Hk & Hcl & ->)]; [split; constructor|].
    pose proof (Hwp' k Hlt) as Hkw.
    rewrite Hk in Hkw. apply well_paced_length in Hkw.
    destruct (chunk_reports_bounds tool_name (default 0 cl) Hcl chunks 0 ltac:(simpl; lia))
      as [Hb Hs].
    split; [|done]. eapply Forall_impl; [exact Hb|].
    intros p [Hp1 Hp2]. split; [|done].
    pose proof (share_nonneg 0 (default 0 cl)). lra. }
  assert (Hes : Forall (λ p, (33 <= p)%Q ∧ (p <= 66)%Q) (overall_reports tool_name us_e)
                ∧ StronglySorted Qle (overall_reports tool_name us_e)).
  { destruct He as [n ->].
    destruct (member_reports_bounds tool_name n n 0 ltac:(lia)) as [Hb Hs].
    split; [|done]. eapply Forall_impl; [exact Hb|].
    intros p [Hp1 Hp2]. split; [|done].
    pose proof (share_nonneg 0 n). lra. }
  destruct Hds as [Hdb Hds], Hes as [Heb Hes].
  split_and!; try done.
  - by exists us_d.
  - by exists us_e.
  - constructor.
    + apply StronglySorted_app_2; [|done|].
      * intros x1 x2 Hx1 Hx2. rewrite Forall_forall in Hdb. destruct (Hdb x1 Hx1).
        apply elem_of_app in Hx2 as [Hx2|Hx2].
        -- rewrite Forall_forall in Heb. destruct (Heb x2 Hx2). lra.
        -- apply list_elem_of_singleton in Hx2 as ->. lra.
      * apply StronglySorted_app_2; [|done|repeat constructor].
        intros x1 x2 Hx1 Hx2. apply list_elem_of_singleton in Hx2 as ->.
        rewrite Forall_forall in Heb. destruct (Heb x1 Hx1). lra.
    + rewrite !Forall_app. split_and!.
      * eapply Forall_impl; [exact Hdb|]. by intros p [? ?].
      * eapply Forall_impl; [exact Heb|]. intros p [? ?]. lra.
      * repeat constructor. lra.
  - constructor; [lra|]. rewrite !Forall_app. split_and!.
    + eapply Forall_impl; [exact Hdb|]. intros p [? ?]. lra.
    + eapply Forall_impl; [exact Heb|]. intros p [? ?]. lra.
    + repeat constructor. lra.
Qed.

Lemma install_tool_progress_witness :
  let env := env_with http_second_try in
  let w := (start_installation (init_app (Dir ∅) "")).2 in
  let w' := (install_tool env "Ninja" ninja_config w).2 in
  ∃ ds es,
    overall_reports "Ninja" (drop (length (ui_update_queue w)) (ui_update_queue w'))
      = ds ++ es ++ [100%Q]
    ∧ (∃ us, download_stage (http env) (url ninja_config) "Ninja" us
             ∧ ds = overall_reports "Ninja" us)
    ∧ (∃ us, extract_stage "Ninja" us ∧ es = overall_reports "Ninja" us)
    ∧ Forall (λ p, (0 <= p)%Q ∧ (p <= 33)%Q) ds
    ∧ Forall (λ p, (33 <= p)%Q ∧ (p <= 66)%Q) es
    ∧ StronglySorted Qle (0%Q :: ds ++ es ++ [100%Q])
    ∧ Forall (λ p, (p <= 100)%Q) (0%Q :: ds ++ es ++ [100%Q]).
Proof.
  apply (install_tool_progress (env_with http_second_try) "Ninja" ninja_config
           (start_installation (init_app (Dir ∅) "")).2
           (install_tool (env_with http_second_try) "Ninja" ninja_config
              (start_installation (init_app (Dir ∅) "")).2).2).
  - vm_compute. reflexivity.
  - vm_compute. reflexivity.
Defined.

(** C6, as it is stated, fails on a job that completes after a retry: the
    first response breaks off after five of seven bytes, the second
    delivers the archive.  The overall bar is reported at 3/7 and 5/7 of
    33, then falls back to 3/7 of 33 with the first chunk of the second
    attempt. *)
Lemma install_tool_progress_falls_back :
  let env := env_with http_breaks_midway in
  let w := (start_installation (init_app (Dir ∅) "")).2 in
  let r := install_tool env "Ninja" ninja_config w in
  r.1 = Ok Completed
  ∧ overall_reports "Ninja" (drop (length (ui_update_queue w)) (ui_update_queue r.2))
    = [ Qnat 3 / Qnat 7 * 33; Qnat 5 / Qnat 7 * 33;
        Qnat 3 / Qnat 7 * 33; Qnat 7 / Qnat 7 * 33;
        33 + Qnat 1 / Qnat 1 * 33; 100 ]%Q
  ∧ (Qnat 3 / Qnat 7 * 33 < Qnat 5 / Qnat 7 * 33)%Q
  ∧ ¬ StronglySorted Qle
        (0%Q :: overall_reports "Ninja"
                  (drop (length (ui_update_queue w)) (ui_update_queue r.2))).
Proof.
  assert (Hlt : (Qnat 3 / Qnat 7 * 33 < Qnat 5 / Qnat 7 * 33)%Q) by reflexivity.
  assert (Hq : overall_reports "Ninja"
                 (drop (length (ui_update_queue (start_installation (init_app (Dir ∅) "")).2))
                    (ui_update_queue
                       (install_tool (env_with http_breaks_midway) "Ninja" ninja_config
                          (start_installation (init_app (Dir ∅) "")).2).2))
               = [ Qnat 3 / Qnat 7 * 33; Qnat 5 / Qnat 7 * 33;
                   Qnat 3 / Qnat 7 * 33; Qnat 7 / Qnat 7 * 33;
                   33 + Qnat 1 / Qnat 1 * 33; 100 ]%Q) by (vm_compute; reflexivity).
  cbn zeta. split_and!.
  - vm_compute. reflexivity.
  - exact Hq.
  - exact Hlt.
  - rewrite Hq. intros Hs.
    apply StronglySorted_cons in Hs as [_ Hs].
    apply StronglySorted_cons in Hs as [_ Hs].
    apply StronglySorted_cons in Hs as [Hall _].
    apply Forall_cons in Hall as [Hle _].
    apply Qle_not_lt in Hle. by apply Hle.
Qed.

(** ** The cancel path of the expander *)

(** The cancel path of [extract_file] in general: nothing on it removes the
    extraction directory. *)

Lemma fs_is_dir_alter_under g q r f :
  r ≠ [] → fs_is_dir q (fs_alter g (q ++ r) f) = fs_is_dir q f.
Proof.
  intros Hr. unfold fs_is_dir. rewrite fs_lookup_alter_under by done.
  destruct r as [|c [|c' r']]; [done| |];
    by destruct (fs_lookup q f) as [[d|m]|].
Qed.

Lemma fs_is_dir_file_write p chunk q : ∀ f,
  fs_is_dir q (fs_alter (λ o, match o with
                              | Some (File d) => Some (File (d +:+ chunk))
                              | _ => o
                              end) p f) = fs_is_dir q f.
Proof.
  revert q. induction p as [|c p IH]; intros q f; [done|].
  destruct f as [d|m]; [done|].
  destruct q as [|c' q]; [by destruct p|].
  unfold fs_is_dir in *. destruct p as [|c2 p].
  - simpl. destruct (decide (c' = c)) as [->|Hne].
    + rewrite (lookup_partial_alter_eq _ m c).
      destruct (m !! c) as [[d|m']|]; simpl; [by destruct q|done|done].
    + by rewrite (lookup_partial_alter_ne _ m c c').
  - rewrite fs_alter_cons_dir by done. simpl.
    destruct (decide (c' = c)) as [->|Hne].
    + rewrite lookup_alter_eq. destruct (m !! c) as [v|]; simpl; [apply IH|done].
    + by rewrite lookup_alter_ne.
Qed.

Lemma fs_makedirs_keeps_dirs p : ∀ f f' q,
  fs_makedirs p f = Some f' → fs_is_dir q f = true → fs_is_dir q f' = true.
Proof.
  induction p as [|c p IH]; intros f f' q; destruct f as [d|m]; simpl; try done.
  - by intros [= <-].
  - destruct (fs_makedirs p (default (Dir ∅) (m !! c))) as [child|] eqn:Hc; [|done].
    intros [= <-]. destruct q as [|c' q]; [done|].
    unfold fs_is_dir. simpl.
    destruct (decide (c' = c)) as [->|Hne].
    + rewrite lookup_insert_eq. simpl.
      destruct (m !! c) as [v|]; simpl; [|done].
      intros Hq. by apply (IH v child q).
    + by rewrite lookup_insert_ne.
Qed.

Lemma fs_makedirs_is_dir p : ∀ f f', fs_makedirs p f = Some f' → fs_is_dir p f' = true.
Proof.
  induction p as [|c p IH]; intros f f'; destruct f as [d|m]; simpl; try done.
  - by intros [= <-].
  - destruct (fs_makedirs p (default (Dir ∅) (m !! c))) as [child|] eqn:Hc; [|done].
    intros [= <-]. unfold fs_is_dir. simpl. rewrite lookup_insert_eq. simpl.
    by apply IH in Hc.
Qed.

Section dir_stays_facts.
Context (tool_dir : path).

#[local] Instance dir_stays_refl : Reflexive (dir_stays tool_dir).
Proof. intros w H. exact H. Qed.
#[local] Instance dir_stays_trans : Transitive (dir_stays tool_dir).
Proof. intros w1 w2 w3 H1 H2 H. apply H2, H1, H. Qed.

Lemma dir_stays_read_flag : respects (dir_stays tool_dir) read_flag.
Proof. intros w H. by rewrite read_flag_fs. Qed.

Lemma dir_stays_queue_put u : respects (dir_stays tool_dir) (queue_put u).
Proof. intros w H. exact H. Qed.

Lemma dir_stays_mkdir_parents p : respects (dir_stays tool_dir) (mkdir_parents p).
Proof.
  intros w H. unfold mkdir_parents. msimpl.
  destruct (fs_makedirs p (fs w)) as [f'|] eqn:Hm; simpl; [|done].
  by apply (fs_makedirs_keeps_dirs p (fs w)).
Qed.

Lemma dir_stays_mkdir fn : respects (dir_stays tool_dir) (mkdir (tool_dir ++ fn)).
Proof.
  intros w H. unfold mkdir. msimpl.
  destruct (fs_exists (tool_dir ++ fn) (fs w)) eqn:Hex; simpl; [done|].
  destruct (negb _); simpl; [done|].
  unfold fs_put. rewrite fs_is_dir_alter_under; [done|].
  intros ->. rewrite app_nil_r in Hex. unfold fs_exists, fs_is_dir in *.
  by destruct (fs_lookup tool_dir (fs w)).
Qed.

Lemma dir_stays_open_wb fn : respects (dir_stays tool_dir) (open_wb (tool_dir ++ fn)).
Proof.
  intros w H. unfold open_wb. msimpl.
  destruct (fs_is_dir (tool_dir ++ fn) (fs w)) eqn:Hd; simpl; [done|].
  destruct (negb _); simpl; [done|].
  unfold fs_put. rewrite fs_is_dir_alter_under; [done|].
  intros ->. rewrite app_nil_r in Hd. congruence.
Qed.

Lemma dir_stays_file_write p chunk : respects (dir_stays tool_dir) (file_write p chunk).
Proof. intros w H. unfold file_write. simpl. by rewrite fs_is_dir_file_write. Qed.

Lemma dir_stays_zip_extract file : respects (dir_stays tool_dir) (zip_extract tool_dir file).
Proof.
  unfold zip_extract.
  pose proof dir_stays_mkdir_parents. pose proof dir_stays_mkdir.
  pose proof dir_stays_open_wb. pose proof dir_stays_file_write.
  cbn zeta. respects_tac.
Qed.

Lemma dir_stays_extract_members tool_name total_files infos :
  ∀ extracted,
  respects (dir_stays tool_dir) (extract_members tool_dir tool_name total_files infos extracted).
Proof.
  pose proof dir_stays_read_flag. pose proof dir_stays_queue_put.
  pose proof dir_stays_zip_extract.
  induction infos as [|file rest IH]; intros extracted; cbn [extract_members]; respects_tac.
Qed.

Lemma dir_stays_zip_open zi save_path : respects (dir_stays tool_dir) (zip_open zi save_path).
Proof. unfold zip_open. respects_tac. Qed.
End dir_stays_facts.

(** X29. Whenever [extract_file] answers a cancel, with [None], the
    extraction directory is on disk when it returns. *)
Lemma extract_file_cancelled_directory_stays zi save_path tool_dir tool_name w w' :
  extract_file zi save_path tool_dir tool_name w = (Ok None, w') →
  fs_is_dir tool_dir (fs w') = true.
Proof.
  unfold extract_file, try_except.
  match goal with |- context [match ?m w with _ => _ end] => set (body := m) end.
  destruct (body w) as [[r0|e] w0] eqn:Hbody.
  2:{ unfold mbind, M_bind, bind, gets. cbn beta iota.
      destruct (fs_is_dir tool_dir (fs w0)).
      - destruct (rmtree tool_dir w0) as [[[]|?] ?]; done.
      - done. }
  intros [= -> ->]. subst body. revert Hbody.
  rewrite bind_run. unfold gets at 1. cbn beta iota. rewrite bind_run.
  destruct ((if fs_is_dir tool_dir (fs w) then rmtree tool_dir else ret ()) w)
    as [[[]|e1] w1]; [|done].
  rewrite bind_run. unfold mkdir_parents at 1. rewrite bind_run. unfold gets at 1.
  cbn beta iota.
  destruct (fs_makedirs tool_dir (fs w1)) as [f2|] eqn:Hmk; [|done].
  unfold modify at 1. cbn beta iota. apply fs_makedirs_is_dir in Hmk.
  rewrite bind_run.
  set (w2 := set_fs (λ _, f2) w1).
  pose proof (dir_stays_zip_open tool_dir zi save_path w2 Hmk) as Hz.
  destruct (zip_open zi save_path w2) as [[infos|e3] w3]; [|done].
  cbn zeta. intros Hrun.
  pose proof (dir_stays_extract_members tool_dir tool_name (length infos) infos 0 w3 Hz) as Hx.
  by rewrite Hrun in Hx.
Qed.


(** * Further properties of the pipeline *)

(** ** The file system *)

Lemma fs_lookup_alter_self g p : ∀ f v,
  p ≠ [] → fs_lookup p f = Some v → fs_lookup p (fs_alter g p f) = g (Some v).
Proof.
  induction p as [|c p IH]; intros f v Hp Hl; [done|].
  destruct f as [d|m]; [done|].
  destruct p as [|c' p'].
  - simpl in *. rewrite (lookup_partial_alter_eq _ m c).
    destruct (m !! c) as [v0|]; simplify_eq/=. by destruct (g (Some v)).
  - rewrite fs_alter_cons_dir by done.
    cbn [fs_lookup] in Hl |- *. rewrite lookup_alter_eq.
    destruct (m !! c) as [v'|]; [|done]. cbn [mbind option_bind fmap option_fmap option_map] in *.
    by apply IH.
Qed.

Lemma fs_lookup_put_self p v : ∀ f,
  p ≠ [] → fs_is_dir (parent p) f = true → fs_lookup p (fs_put p v f) = Some v.
Proof.
  induction p as [|c p IH]; intros f Hp Hd; [done|].
  destruct f as [d|m].
  { unfold fs_is_dir in Hd. by destruct (parent (c :: p)). }
  destruct p as [|c' p'].
  - simpl. by rewrite (lookup_partial_alter_eq _ m c).
  - unfold fs_put. rewrite fs_alter_cons_dir by done.
    change (parent (c :: c' :: p')) with (c :: parent (c' :: p')) in Hd.
    unfold fs_is_dir in Hd. cbn [fs_lookup] in Hd |- *. rewrite lookup_alter_eq.
    destruct (m !! c) as [v'|]; [|done]. cbn [mbind option_bind fmap option_fmap option_map] in *.
    apply IH; [done|]. exact Hd.
Qed.

Lemma append_assoc (a b c : string) : (a +:+ b) +:+ c = a +:+ (b +:+ c).
Proof.
  induction a as [|x a IH]; [done|].
  change ((String x a +:+ b) +:+ c) with (String x ((a +:+ b) +:+ c)).
  change (String x a +:+ b +:+ c) with (String x (a +:+ b +:+ c)).
  by rewrite IH.
Qed.

Lemma append_empty_r (a : string) : a +:+ "" = a.
Proof.
  induction a as [|x a IH]; [done|].
  change (String x a +:+ "") with (String x (a +:+ "")). by rewrite IH.
Qed.

(** ** The fetcher: what is on disk afterwards *)

Lemma open_wb_ok p w w' :
  open_wb p w = (Ok tt, w') →
  p ≠ [] ∧ w' = set_fs (fs_put p (File "")) w ∧ fs_lookup p (fs w') = Some (File "").
Proof.
  unfold open_wb. msimpl.
  destruct (fs_is_dir p (fs w)) eqn:Hd; [done|].
  destruct (fs_is_dir (parent p) (fs w)) eqn:Hp; [|done].
  simpl. intros [= <-].
  assert (p ≠ []) as Hne by (intros ->; simpl in Hp; congruence).
  split_and!; [done..|]. simpl. by apply fs_lookup_put_self.
Qed.

(** The chunk loop appends the chunks to the open file; a cancel removes
    the file. *)
Lemma download_chunks_file save_path tool_name total_size ending chunks :
  save_path ≠ [] → ∀ downloaded acc w b w',
  fs_lookup save_path (fs w) = Some (File acc) →
  download_chunks save_path tool_name total_size chunks ending downloaded w = (Ok b, w') →
  if b then ending = EndOfBody ∧ fs_lookup save_path (fs w') = Some (File (acc +:+ body chunks))
  else fs_lookup save_path (fs w') = None.
Proof.
  intros Hp. induction chunks as [|chunk rest IH]; intros downloaded acc w b w' Hf;
    cbn [download_chunks].
  - destruct ending; [|done..]. intros [= <- <-]. split; [done|].
    unfold body. cbn [foldr]. by rewrite append_empty_r.
  - destruct (String.eqb chunk "") eqn:Hc.
    { apply String.eqb_eq in Hc as ->. intros H. apply (IH _ acc) in H; [|done].
      exact H. }
    rewrite bind_run. pose proof (read_flag_fs w) as Hfs.
    destruct (read_flag w) as [[[|]|e] w1]; simpl in Hfs; [| |done].
    + rewrite bind_run. unfold unlink at 1. rewrite bind_run. unfold gets at 1.
      cbn beta iota. unfold fs_is_file. rewrite Hfs, Hf.
      unfold modify. cbn beta iota. intros [= <- <-]. simpl.
      by apply fs_lookup_remove_self.
    + unfold file_write, queue_put, modify, mbind, M_bind, bind. cbn beta iota zeta.
      intros H. eapply (IH _ (acc +:+ chunk)) in H.
      * destruct b; [|done]. destruct H as [-> H]. split; [done|].
        rewrite H. unfold body. cbn [foldr]. by rewrite append_assoc.
      * simpl. rewrite Hfs. by rewrite (fs_lookup_alter_self _ _ _ (File acc)).
Qed.

Lemma download_attempt_file http url save_path tool_name attempt w b w' :
  download_attempt http url save_path tool_name attempt w = (Ok b, w') →
  if b then ∃ content_length chunks,
         http url attempt = Response content_length chunks EndOfBody
         ∧ default 0 content_length ≠ 0%nat
         ∧ fs_lookup save_path (fs w') = Some (File (body chunks))
  else fs_lookup save_path (fs w') = None.
Proof.
  unfold download_attempt, emit, modify. rewrite bind_run. cbn beta iota zeta.
  destruct (http url attempt) as [| | |content_length chunks ending]; try done.
  destruct (default 0 content_length =? 0)%nat eqn:Hn; [done|].
  apply Nat.eqb_neq in Hn.
  rewrite bind_run.
  destruct (mkdir_parents (parent save_path) _) as [[[]|e1] w1]; [|done].
  rewrite bind_run.
  destruct (open_wb save_path w1) as [[[]|e2] w2] eqn:Ho; [|done].
  apply open_wb_ok in Ho as (Hp & _ & Hf).
  intros H. apply (download_chunks_file _ _ _ _ _ Hp _ "" _ _ _ Hf) in H.
  destruct b; [|done]. destruct H as [-> H]. eauto.
Qed.

Lemma download_loop_file http url save_path tool_name max_retries : ∀ remaining w b w',
  (remaining ≤ max_retries)%nat →
  download_loop http url save_path tool_name max_retries remaining w = (Ok (Some b), w') →
  if b then ∃ (k : nat) content_length chunks,
         (k < max_retries)%nat
         ∧ http url k = Response content_length chunks EndOfBody
         ∧ default 0 content_length ≠ 0%nat
         ∧ fs_lookup save_path (fs w') = Some (File (body chunks))
  else fs_lookup save_path (fs w') = None.
Proof.
  induction remaining as [|remaining IH]; intros w b w' Hle; [done|].
  rewrite download_loop_S. cbn zeta.
  destruct (download_attempt http url save_path tool_name _ w) as [[b0|e0] w1] eqn:Ha.
  - intros [= <- <-]. apply download_attempt_file in Ha.
    destruct b0; [|done]. destruct Ha as (cl & chunks & Hh & Hn & Hf).
    exists (max_retries - S remaining)%nat, cl, chunks. split_and!; try done. lia.
  - destruct e0;
      try (match goal with |- context [raise (DownloadFailed ?e')] =>
             destruct (download_cleanup_effects save_path e' w1) as (Hr & _) end;
           intros H; rewrite H in Hr; done).
    + destruct (Nat.ltb _ _); [apply IH; lia|done].
    + done.
Qed.

(** X1. A download that reports success has left, at the destination, a
    file that holds exactly the body of one response: the response to one
    of the [max_retries] attempts, which declared a length other than 0 and
    ended normally.  Nothing of an earlier, broken attempt is in it. *)
Theorem download_file_success_content http url save_path tool_name max_retries w w' :
  download_file http url save_path tool_name max_retries w = (Ok (Some true), w') →
  ∃ (k : nat) content_length chunks,
    (k < max_retries)%nat
    ∧ http url k = Response content_length chunks EndOfBody
    ∧ default 0 content_length ≠ 0%nat
    ∧ fs_lookup save_path (fs w') = Some (File (body chunks)).
Proof.
  intros H. by apply (download_loop_file _ _ _ _ _ _ _ true) in H.
Qed.

Lemma download_file_success_content_witness :
  ∃ w', download_file http_breaks_midway "u" ["t.zip"] "T" 3 (init_app (Dir ∅) "")
        = (Ok (Some true), w')
  ∧ ∃ (k : nat) content_length chunks,
      (k < 3)%nat
      ∧ http_breaks_midway "u" k = Response content_length chunks EndOfBody
      ∧ default 0 content_length ≠ 0%nat
      ∧ fs_lookup ["t.zip"] (fs w') = Some (File (body chunks)).
Proof.
  eexists. split; [vm_compute; reflexivity|].
  apply (download_file_success_content http_breaks_midway "u" ["t.zip"] "T" 3
           (init_app (Dir ∅) "")).
  vm_compute. reflexivity.
Defined.

(** X2. A download that answers a cancel, with [False], has removed the
    file it was writing: nothing is at the destination when it returns. *)
Theorem download_file_cancelled_no_file http url save_path tool_name max_retries w w' :
  download_file http url save_path tool_name max_retries w = (Ok (Some false), w') →
  fs_lookup save_path (fs w') = None.
Proof.
  intros H. by apply (download_loop_file _ _ _ _ _ _ _ false) in H.
Qed.

Lemma download_file_cancelled_no_file_witness :
  ∃ w', download_file http_breaks_midway "u" ["t.zip"] "T" 3
          (user_cancels_at 1 (init_app (Dir ∅) "")) = (Ok (Some false), w')
  ∧ fs_lookup ["t.zip"] (fs w') = None.
Proof.
  eexists. split; [vm_compute; reflexivity|].
  apply (download_file_cancelled_no_file http_breaks_midway "u" ["t.zip"] "T" 3
           (user_cancels_at 1 (init_app (Dir ∅) ""))).
  vm_compute. reflexivity.
Defined.

(** X3. A download that fails with the plain "download failed", that is
    for a reason other than a connection failure, a timeout or an HTTP
    status, leaves no file at the destination. *)
Theorem download_file_failed_no_file http url save_path tool_name max_retries e w :
  save_path ≠ [] →
  (download_file http url save_path tool_name max_retries w).1 = Raise (DownloadFailed e) →
  fs_is_file save_path (fs (download_file http url save_path tool_name max_retries w).2) = false.
Proof.
  intros Hp H.
  by apply (download_file_other_failure_cleans http url save_path tool_name max_retries e Hp
              max_retries w).
Qed.

Lemma download_file_failed_no_file_witness :
  fs_is_file ["t.zip"]
    (fs (download_file http_no_length "u" ["t.zip"] "T" 3
           (init_app (Dir {[ "t.zip" := File "old" ]}) "")).2) = false.
Proof.
  apply (download_file_failed_no_file http_no_length "u" ["t.zip"] "T" 3 NoContentLength
           (init_app (Dir {[ "t.zip" := File "old" ]}) "")).
  - done.
  - vm_compute. reflexivity.
Defined.

(** X4. A response that declares no length, or the length 0, ends the
    download at once: one request, no retry, no directory made, the plain
    "download failed"; a file that was at the destination before is
    deleted. *)
Theorem download_file_no_content_length http url save_path tool_name max_retries
    content_length chunks ending w :
  (0 < max_retries)%nat →
  http url 0 = Response content_length chunks ending →
  default 0 content_length = 0%nat →
  download_file http url save_path tool_name max_retries w =
    let w1 := set_trace (trace w ++ [EvRequest url]) w in
    (Raise (DownloadFailed NoContentLength),
     if fs_is_file save_path (fs w) then set_fs (fs_remove save_path) w1 else w1).
Proof.
  intros Hm Hh Hn. unfold download_file.
  destruct max_retries as [|m]; [lia|].
  rewrite download_loop_S. cbn zeta. rewrite Nat.sub_diag.
  unfold download_attempt, emit, modify. rewrite bind_run. cbn beta iota zeta.
  rewrite Hh, Hn. cbn [Nat.eqb]. unfold raise at 1. cbn beta iota.
  rewrite bind_run. unfold gets at 1. cbn beta iota. cbn [fs set_trace].
  destruct (fs_is_file save_path (fs w)) eqn:Hf.
  - rewrite bind_run. rewrite unlink_ok by (simpl; done). done.
  - done.
Qed.

Lemma download_file_no_content_length_witness :
  download_file http_no_length "u" ["t.zip"] "T" 3 (init_app (Dir ∅) "") =
    (Raise (DownloadFailed NoContentLength),
     set_trace [EvRequest "u"] (init_app (Dir ∅) "")).
Proof.
  etrans.
  - apply (download_file_no_content_length http_no_length "u" ["t.zip"] "T" 3
             None ["PK-flat"] EndOfBody (init_app (Dir ∅) "")); [lia|reflexivity..].
  - vm_compute. reflexivity.
Defined.

Lemma download_chunks_not_cancelled save_path tool_name total_size chunks :
  ∀ downloaded w,
  installation_completed w = false → cancel_in w = None →
  ∃ w', download_chunks save_path tool_name total_size chunks EndOfBody downloaded w
        = (Ok true, w').
Proof.
  induction chunks as [|chunk rest IH]; intros downloaded w Hc Hn; cbn [download_chunks].
  - by eexists.
  - destruct (String.eqb chunk ""); [by apply IH|].
    rewrite bind_run. unfold read_flag. rewrite Hn, Hc.
    unfold file_write, queue_put, modify, mbind, M_bind, bind. cbn beta iota zeta.
    by apply IH.
Qed.

Lemma download_attempt_connection_error http url save_path tool_name attempt w :
  http url attempt = GetConnectionError →
  download_attempt http url save_path tool_name attempt w =
    (Raise ConnectionError, set_trace (trace w ++ [EvRequest url]) w).
Proof.
  intros H. unfold download_attempt, emit, modify. rewrite bind_run. cbn beta iota zeta.
  by rewrite H.
Qed.

Lemma download_attempt_succeeds http url save_path tool_name attempt n chunks f w :
  http url attempt = Response (Some n) chunks EndOfBody → n ≠ 0%nat →
  installation_completed w = false → cancel_in w = None →
  fs_makedirs (parent save_path) (fs w) = Some f → fs_is_dir save_path f = false →
  ∃ w', download_attempt http url save_path tool_name attempt w = (Ok true, w')
        ∧ trace w' = trace w ++ [EvRequest url]
        ∧ fs_lookup save_path (fs w') = Some (File (body chunks)).
Proof.
  intros Hh Hn Hc Hk Hmk Hd.
  pose proof (download_attempt_effects http url save_path tool_name attempt w) as (Ht & _).
  cbn zeta in Ht.
  assert (∃ w', download_attempt http url save_path tool_name attempt w = (Ok true, w'))
    as [w' Hrun].
  { unfold download_attempt, emit, modify. rewrite bind_run. cbn beta iota zeta.
    rewrite Hh. change (default 0 (Some n)) with n. apply Nat.eqb_neq in Hn. rewrite Hn.
    rewrite bind_run. unfold mkdir_parents at 1. rewrite bind_run. unfold gets at 1.
    cbn beta iota. cbn [fs set_trace]. rewrite Hmk. unfold modify at 1. cbn beta iota.
    rewrite bind_run. unfold open_wb at 1. rewrite bind_run. unfold gets at 1.
    cbn beta iota. rewrite bind_run. unfold gets at 1. cbn beta iota.
    cbn [fs set_fs set_trace]. rewrite Hd. rewrite (fs_makedirs_is_dir _ _ _ Hmk).
    cbn [orb negb]. unfold modify at 1. cbn beta iota.
    by apply download_chunks_not_cancelled. }
  exists w'. rewrite Hrun in Ht. split_and!; [done..|].
  apply download_attempt_file in Hrun as (cl & chunks' & Hh' & _ & Hf).
  rewrite Hh in Hh'. by simplify_eq.
Qed.

(** X5. When the first two requests end in a connection failure and the
    third is answered completely, and nobody cancels, [download_file]
    succeeds: it has made three requests, with sleeps of 1s and 2s between
    them, and the destination file holds the body of the third
    response. *)
Theorem download_file_succeeds_at_third_attempt http url save_path tool_name n chunks f w :
  http url 0 = GetConnectionError → http url 1 = GetConnectionError →
  http url 2 = Response (Some n) chunks EndOfBody → n ≠ 0%nat →
  installation_completed w = false → cancel_in w = None →
  fs_makedirs (parent save_path) (fs w) = Some f → fs_is_dir save_path f = false →
  ∃ w', download_file http url save_path tool_name 3 w = (Ok (Some true), w')
        ∧ trace w' = trace w ++ retry_trace url 3
        ∧ fs_lookup save_path (fs w') = Some (File (body chunks)).
Proof.
  intros H0 H1 H2 Hn Hc Hk Hmk Hd. unfold download_file.
  rewrite download_loop_S. cbn zeta. change (3 - 3)%nat with 0%nat.
  rewrite (download_attempt_connection_error _ _ _ _ _ _ H0).
  change (Nat.ltb 0 (3 - 1)) with true. cbn iota.
  rewrite download_loop_S. cbn zeta. change (3 - 2)%nat with 1%nat.
  rewrite (download_attempt_connection_error _ _ _ _ _ _ H1).
  change (Nat.ltb 1 (3 - 1)) with true. cbn iota.
  rewrite download_loop_S. cbn zeta. change (3 - 1)%nat with 2%nat.
  match goal with |- context [download_attempt _ _ _ _ 2 ?w2] =>
    destruct (download_attempt_succeeds http url save_path tool_name 2 n chunks f w2)
      as (w' & Hrun & Ht & Hf); try done
  end.
  rewrite Hrun. exists w'. split_and!; [done| |done].
  rewrite Ht. cbn [trace set_trace]. rewrite <- !app_assoc. reflexivity.
Qed.

Lemma download_file_succeeds_at_third_attempt_witness :
  ∃ w', download_file http_third_try "u" ["t.zip"] "T" 3 (init_app (Dir ∅) "")
        = (Ok (Some true), w')
        ∧ trace w' = trace (init_app (Dir ∅) "") ++ retry_trace "u" 3
        ∧ fs_lookup ["t.zip"] (fs w') = Some (File (body ["PK-"; ""; "flat"])).
Proof.
  apply (download_file_succeeds_at_third_attempt http_third_try "u" ["t.zip"] "T" 7
           ["PK-"; ""; "flat"] (Dir ∅) (init_app (Dir ∅) "")); try reflexivity. lia.
Defined.

(** ** The expander: what is on disk afterwards *)

Lemma fs_lookup_alter_file g q : ∀ p f d,
  fs_lookup p f = Some (File d) → ¬ q `prefix_of` p →
  fs_lookup p (fs_alter g q f) = Some (File d).
Proof.
  induction q as [|c q IH]; intros p f d Hl Hq; [by destruct Hq; apply prefix_nil|].
  destruct f as [d0|m]; [done|].
  destruct p as [|c0 p]; [done|].
  destruct (decide (c0 = c)) as [->|Hne].
  - destruct q as [|c' q'].
    { destruct Hq. apply prefix_cons, prefix_nil. }
    rewrite fs_alter_cons_dir by done. cbn [fs_lookup] in Hl |- *.
    rewrite lookup_alter_eq. destruct (m !! c) as [v|]; [|done].
    cbn [mbind option_bind fmap option_fmap option_map] in *.
    apply IH; [done|]. intros Hp. apply Hq. by apply prefix_cons.
  - destruct q as [|c' q'].
    + simpl in *. by rewrite (lookup_partial_alter_ne _ m c c0).
    + rewrite fs_alter_cons_dir by done. cbn [fs_lookup] in Hl |- *.
      by rewrite lookup_alter_ne.
Qed.

Lemma fs_makedirs_keeps_files q : ∀ f f' p d,
  fs_makedirs q f = Some f' → fs_lookup p f = Some (File d) →
  fs_lookup p f' = Some (File d).
Proof.
  induction q as [|c q IH]; intros f f' p d; destruct f as [d0|m]; simpl; try done.
  - by intros [= <-].
  - destruct (fs_makedirs q (default (Dir ∅) (m !! c))) as [child|] eqn:Hc; [|done].
    intros [= <-]. destruct p as [|c0 p]; [done|]. simpl.
    destruct (decide (c0 = c)) as [->|Hne].
    + rewrite lookup_insert_eq. simpl.
      destruct (m !! c) as [v|]; simpl; [|done].
      intros Hp. by apply (IH v child p d).
    + by rewrite lookup_insert_ne.
Qed.

Lemma fs_lookup_alter_file_inv g q : ∀ p f d,
  fs_lookup p (fs_alter g q f) = Some (File d) → ¬ q `prefix_of` p →
  fs_lookup p f = Some (File d).
Proof.
  induction q as [|c q IH]; intros p f d Hl Hq; [by destruct Hq; apply prefix_nil|].
  destruct f as [d0|m]; [done|].
  destruct p as [|c0 p]; [by destruct q|].
  destruct (decide (c0 = c)) as [->|Hne].
  - destruct q as [|c' q'].
    { destruct Hq. apply prefix_cons, prefix_nil. }
    rewrite fs_alter_cons_dir in Hl by done. cbn [fs_lookup] in Hl |- *.
    rewrite lookup_alter_eq in Hl. destruct (m !! c) as [v|]; [|done].
    cbn [mbind option_bind fmap option_fmap option_map] in *.
    apply IH; [done|]. intros Hp. apply Hq. by apply prefix_cons.
  - destruct q as [|c' q'].
    + simpl in *. by rewrite (lookup_partial_alter_ne _ m c c0) in Hl.
    + rewrite fs_alter_cons_dir in Hl by done. cbn [fs_lookup] in Hl |- *.
      by rewrite lookup_alter_ne in Hl.
Qed.

Lemma fs_makedirs_keeps_files_inv q : ∀ f f' p d,
  fs_makedirs q f = Some f' → fs_lookup p f' = Some (File d) →
  fs_lookup p f = Some (File d).
Proof.
  induction q as [|c q IH]; intros f f' p d; destruct f as [d0|m]; simpl; try done.
  - by intros [= <-].
  - destruct (fs_makedirs q (default (Dir ∅) (m !! c))) as [child|] eqn:Hc; [|done].
    intros [= <-]. destruct p as [|c0 p]; [done|]. simpl.
    destruct (decide (c0 = c)) as [->|Hne].
    + rewrite lookup_insert_eq. simpl. intros Hp.
      pose proof (IH _ _ p d Hc Hp) as H.
      destruct (m !! c) as [v|]; simpl in *; [done|]. by destruct p.
    + by rewrite lookup_insert_ne.
Qed.

Section file_stays_facts.
Context (p : path) (d : string).

#[local] Instance file_stays_refl : Reflexive (file_stays p d).
Proof. intros w H. exact H. Qed.
#[local] Instance file_stays_trans : Transitive (file_stays p d).
Proof. intros w1 w2 w3 H1 H2 H. apply H2, H1, H. Qed.

Lemma file_stays_read_flag : respects (file_stays p d) read_flag.
Proof. intros w H. by rewrite read_flag_fs. Qed.

Lemma file_stays_queue_put u : respects (file_stays p d) (queue_put u).
Proof. intros w H. exact H. Qed.

Lemma file_stays_mkdir_parents q : respects (file_stays p d) (mkdir_parents q).
Proof.
  intros w H. unfold mkdir_parents. msimpl.
  destruct (fs_makedirs q (fs w)) as [f'|] eqn:Hm; simpl; [|done].
  by apply (fs_makedirs_keeps_files q (fs w)).
Qed.

Lemma file_stays_rmtree q : ¬ q `prefix_of` p → respects (file_stays p d) (rmtree q).
Proof.
  intros Hq w H. unfold rmtree. msimpl. destruct (fs_is_dir q (fs w)); simpl; [|done].
  by apply fs_lookup_alter_file.
Qed.

Lemma file_stays_mkdir q : ¬ q `prefix_of` p → respects (file_stays p d) (mkdir q).
Proof.
  intros Hq w H. unfold mkdir. msimpl.
  destruct (fs_exists q (fs w) || negb _)%bool; simpl; [done|].
  by apply fs_lookup_alter_file.
Qed.

Lemma file_stays_open_wb q : ¬ q `prefix_of` p → respects (file_stays p d) (open_wb q).
Proof.
  intros Hq w H. unfold open_wb. msimpl.
  destruct (fs_is_dir q (fs w) || negb _)%bool; simpl; [done|].
  by apply fs_lookup_alter_file.
Qed.

Lemma file_stays_file_write q chunk :
  ¬ q `prefix_of` p → respects (file_stays p d) (file_write q chunk).
Proof. intros Hq w H. unfold file_write. simpl. by apply fs_lookup_alter_file. Qed.

Lemma file_stays_zip_extract tool_dir file :
  ¬ (tool_dir ++ zi_filename file) `prefix_of` p →
  respects (file_stays p d) (zip_extract tool_dir file).
Proof.
  intros Hq. unfold zip_extract.
  pose proof file_stays_mkdir_parents. pose proof (file_stays_mkdir _ Hq).
  pose proof (file_stays_open_wb _ Hq). pose proof (file_stays_file_write _ (zi_data file) Hq).
  cbn zeta. respects_tac.
Qed.

Lemma file_stays_extract_members tool_dir tool_name total_files infos :
  Forall (λ later, ¬ (tool_dir ++ zi_filename later) `prefix_of` p) infos →
  ∀ extracted,
  respects (file_stays p d) (extract_members tool_dir tool_name total_files infos extracted).
Proof.
  pose proof file_stays_read_flag. pose proof file_stays_queue_put.
  induction 1 as [|file rest Hq Hrest IH]; intros extracted; cbn [extract_members].
  - respects_tac.
  - pose proof (file_stays_zip_extract tool_dir file Hq). respects_tac.
Qed.
End file_stays_facts.

Lemma zip_extract_writes tool_dir file w w' :
  zip_extract tool_dir file w = (Ok tt, w') → zi_is_dir file = false →
  zi_corrupt file = false
  ∧ fs_lookup (tool_dir ++ zi_filename file) (fs w') = Some (File (zi_data file)).
Proof.
  unfold zip_extract. cbn zeta. intros Hrun Hd. revert Hrun.
  rewrite bind_run. unfold gets at 1. cbn beta iota. rewrite bind_run.
  match goal with |- context [match ?m w with _ => _ end] =>
    destruct (m w) as [[[]|e1] w1]; [|done] end.
  rewrite Hd. rewrite bind_run.
  destruct (open_wb _ w1) as [[[]|e2] w2] eqn:Ho; [|done].
  apply open_wb_ok in Ho as (Hp & _ & Hf).
  destruct (zi_corrupt file); [done|].
  unfold file_write, modify. intros [= <-]. split; [done|]. simpl.
  by rewrite (fs_lookup_alter_self _ _ _ (File "")).
Qed.

Lemma extract_members_result tool_dir tool_name total_files infos : ∀ extracted w d w',
  extract_members tool_dir tool_name total_files infos extracted w = (Ok (Some d), w') →
  d = tool_dir
  ∧ ∀ (i : nat) file,
      infos !! i = Some file → zi_is_dir file = false →
      (∀ (j : nat) later, (i < j)%nat → infos !! j = Some later →
         ¬ zi_filename later `prefix_of` zi_filename file) →
      fs_lookup (tool_dir ++ zi_filename file) (fs w') = Some (File (zi_data file)).
Proof.
  induction infos as [|file0 rest IH]; intros extracted w d w'; cbn [extract_members].
  - intros [= <- <-]. split; [done|]. intros i file Hi. by rewrite lookup_nil in Hi.
  - rewrite bind_run. destruct (read_flag w) as [[[|]|e] w1]; [done| |done].
    rewrite bind_run.
    destruct (zip_extract tool_dir file0 w1) as [[[]|e1] w2] eqn:Hz; [|done].
    unfold queue_put, modify. rewrite !bind_run. cbn beta iota zeta.
    intros Hrun. pose proof Hrun as Hrun'. apply IH in Hrun as [-> Hfiles].
    split; [done|]. intros [|i] file Hi Hd Hlater.
    + simpl in Hi. simplify_eq.
      apply zip_extract_writes in Hz as [_ Hf]; [|done].
      match type of Hrun' with extract_members _ _ _ _ ?k ?w3 = _ =>
        pose proof (file_stays_extract_members (tool_dir ++ zi_filename file)
                      (zi_data file) tool_dir tool_name total_files rest) as Hk;
        specialize (λ H, Hk H k w3) end.
      rewrite Hrun' in Hk. apply Hk; [|exact Hf].
      apply Forall_lookup. intros j later Hj Hp.
      apply (Hlater (S j) later); [lia|done|]. by apply prefix_app_inv in Hp.
    + apply (Hfiles i file); [done..|].
      intros j later Hij Hj. apply (Hlater (S j) later); [lia|done].
Qed.

(** X6. An extraction that fails always fails as "extraction failed", an
    extract error, and leaves no extraction directory behind: whatever was
    at [tool_dir] before, from this or from an earlier installation, is
    gone. *)
Theorem extract_file_failure_removes_directory zi save_path tool_dir tool_name e w :
  tool_dir ≠ [] →
  (extract_file zi save_path tool_dir tool_name w).1 = Raise e →
  error_kind e = Some ExtractError
  ∧ fs_is_dir tool_dir (fs (extract_file zi save_path tool_dir tool_name w).2) = false.
Proof.
  intros Hp.
  destruct (extract_file zi save_path tool_dir tool_name w) as [r w'] eqn:Hrun.
  cbn [fst snd]. intros ->. revert Hrun. unfold extract_file, try_except.
  match goal with |- context [match ?m w with _ => _ end] =>
    destruct (m w) as [[r0|e0] w0]; [done|] end.
  rewrite bind_run. unfold gets at 1. cbn beta iota.
  destruct (fs_is_dir tool_dir (fs w0)) eqn:Hd.
  - rewrite bind_run, rmtree_ok by done. unfold raise.
    intros [= <- <-]. split; [done|]. cbn [fs set_fs]. unfold fs_is_dir.
    by rewrite fs_lookup_remove_self.
  - rewrite bind_run. unfold ret at 1. unfold raise.
    intros [= <- <-]. done.
Qed.

Lemma extract_file_failure_removes_directory_witness :
  error_kind (ExtractFailed OSError) = Some ExtractError
  ∧ fs_is_dir ["t"]
      (fs (extract_file toy_zip_infolist ["t.zip"] ["t"] "T"
             (init_app (Dir {[ "t" := Dir {[ "old.exe" := File "MZ" ]} ]}) "")).2) = false.
Proof.
  apply (extract_file_failure_removes_directory toy_zip_infolist ["t.zip"] ["t"] "T"
           (ExtractFailed OSError)
           (init_app (Dir {[ "t" := Dir {[ "old.exe" := File "MZ" ]} ]}) "")).
  - done.
  - vm_compute. reflexivity.
Defined.

(** X7. An extraction that runs through returns [tool_dir] itself, which is
    a directory then, and every file member of the archive that no later
    member overwrites is on disk below it, under its member name and with its
    data.  The members are those the zip reader gave for the bytes of the
    archive, which were at [save_path] when [extract_file] was called
    unless [save_path] lies below [tool_dir]. *)
Theorem extract_file_members_on_disk zi save_path tool_dir tool_name w d w' :
  extract_file zi save_path tool_dir tool_name w = (Ok (Some d), w') →
  d = tool_dir
  ∧ fs_is_dir tool_dir (fs w') = true
  ∧ ∃ data infos,
      zi data = Some infos
      ∧ (¬ tool_dir `prefix_of` save_path → fs_lookup save_path (fs w) = Some (File data))
      ∧ ∀ (i : nat) file,
          infos !! i = Some file → zi_is_dir file = false →
          (∀ (j : nat) later, (i < j)%nat → infos !! j = Some later →
             ¬ zi_filename later `prefix_of` zi_filename file) →
          fs_lookup (tool_dir ++ zi_filename file) (fs w') = Some (File (zi_data file)).
Proof.
  unfold extract_file, try_except.
  match goal with |- context [match ?m w with _ => _ end] => set (body := m) end.
  destruct (body w) as [[r0|e] w0] eqn:Hbody.
  2:{ unfold mbind, M_bind, bind, gets. cbn beta iota.
      destruct (fs_is_dir tool_dir (fs w0)).
      - destruct (rmtree tool_dir w0) as [[[]|?] ?]; done.
      - done. }
  intros [= -> ->]. subst body. revert Hbody.
  rewrite bind_run. unfold gets at 1. cbn beta iota. rewrite bind_run.
  destruct ((if fs_is_dir tool_dir (fs w) then rmtree tool_dir else ret ()) w)
    as [[[]|e1] w1] eqn:Hrm; [|done].
  rewrite bind_run. unfold mkdir_parents at 1. rewrite bind_run. unfold gets at 1.
  cbn beta iota.
  destruct (fs_makedirs tool_dir (fs w1)) as [f2|] eqn:Hmk; [|done].
  unfold modify at 1. cbn beta iota.
  rewrite bind_run.
  set (w2 := set_fs (λ _, f2) w1).
  pose proof (dir_stays_zip_open tool_dir zi save_path w2 (fs_makedirs_is_dir _ _ _ Hmk)) as Hz.
  unfold zip_open at 1. rewrite bind_run. unfold gets at 1. cbn beta iota.
  destruct (fs_lookup save_path (fs w2)) as [[data|m]|] eqn:Harch; [|done..].
  destruct (zi data) as [infos|] eqn:Hzi; [|done].
  unfold zip_open in Hz. rewrite bind_run in Hz. unfold gets in Hz. cbn beta iota in Hz.
  rewrite Harch, Hzi in Hz. unfold ret at 1. cbn beta iota zeta. unfold ret in Hz.
  cbn [snd] in Hz.
  intros Hrun.
  pose proof (dir_stays_extract_members tool_dir tool_name (length infos) infos 0 w2 Hz) as Hx.
  rewrite Hrun in Hx.
  apply extract_members_result in Hrun as [-> Hfiles].
  split_and!; [done..|]. exists data, infos. split_and!; [done| |done].
  intros Hnp.
  (* the archive as it was before the directory was renewed *)
  apply (fs_makedirs_keeps_files_inv tool_dir (fs w1)) in Harch; [|done].
  destruct (fs_is_dir tool_dir (fs w)) eqn:Hd.
  - rewrite rmtree_ok in Hrm by done. injection Hrm as <-.
    by apply fs_lookup_alter_file_inv in Harch.
  - by injection Hrm as <-.
Qed.

Lemma extract_file_members_on_disk_witness :
  ∃ w', extract_file toy_zip_infolist ["cmake-4.0.1-windows-x86_64.zip"] ["t"] "T"
          (init_app cmake_archive_only "") = (Ok (Some ["t"]), w')
  ∧ fs_lookup ["t"; "pkg"; "bin"; "tool.exe"] (fs w') = Some (File "MZ").
Proof.
  eexists. split; [vm_compute; reflexivity|].
  match goal with |- fs_lookup _ (fs ?w') = _ =>
    assert (extract_file toy_zip_infolist ["cmake-4.0.1-windows-x86_64.zip"] ["t"] "T"
              (init_app cmake_archive_only "") = (Ok (Some ["t"]), w')) as Hrun
      by (vm_compute; reflexivity)
  end.
  apply extract_file_members_on_disk in Hrun
    as (_ & _ & data & infos & Hzi & Harch & Hfiles).
  assert (data = "PK-wrapped") as ->.
  { specialize (Harch ltac:(by intros [k [=]])). vm_compute in Harch. by simplify_eq. }
  vm_compute in Hzi. simplify_eq.
  apply (Hfiles 1%nat {| zi_filename := ["pkg"; "bin"; "tool.exe"]; zi_is_dir := false;
                         zi_data := "MZ"; zi_corrupt := false |}); [done..|].
  intros [|[|[|j]]] later Hj; try lia; done.
Defined.

(** ** Cancelling *)

Lemma cancel_loop_run tools : ∀ w,
  for_each tools (λ '(tool_name, _),
    alive ← gets (λ w, threads w !! tool_name);
    if alive is Some true then update_status tool_name StCancelled else ret tt) w
  = (Ok tt, set_queue (ui_update_queue w ++ cancelled_updates w tools) w).
Proof.
  induction tools as [|[t c] tools IH]; intros w.
  - unfold cancelled_updates. simpl. rewrite app_nil_r. by destruct w.
  - cbn [for_each]. rewrite bind_run, bind_run. unfold gets at 1. cbn beta iota.
    unfold cancelled_updates. cbn [fmap list_fmap List.filter fst].
    destruct (threads w !! t) as [[|]|] eqn:Ht.
    + rewrite update_status_run, IH. rewrite bool_decide_true by done.
      unfold cancelled_updates. cbn [threads set_queue ui_update_queue fmap list_fmap].
      by rewrite <- app_assoc.
    + unfold ret at 1. cbn beta iota. rewrite IH. by rewrite bool_decide_false.
    + unfold ret at 1. cbn beta iota. rewrite IH. by rewrite bool_decide_false.
Qed.

(** X8. A confirmed cancel sets [installation_completed], writes
    "installation cancelled" to the status bar, enables the directory and
    the install button and disables the cancel button, whatever the
    controls showed, and queues the status "cancelled" for exactly the
    tools of the catalogue whose thread is registered and alive, in the
    order of the catalogue.  The file system, the threads, PATH, the trace,
    the bars and the status labels stay as they are, and it does not wait
    for the threads.  A declined cancel changes nothing. *)
Theorem cancel_installation_confirmed c w :
  cancel_installation true c w =
    (Ok {| status_bar := "installation cancelled"; dir_button := NORMAL;
           install_button := NORMAL; cancel_button := DISABLED |},
     set_queue (ui_update_queue w ++ cancelled_updates w TOOLS)
       (set_flag true (cancel_in w) w))
  ∧ cancel_installation false c w = (Ok c, w).
Proof.
  split; [|reflexivity].
  unfold cancel_installation. rewrite bind_run. unfold modify at 1. cbn beta iota.
  cbn zeta. rewrite bind_run. by rewrite cancel_loop_run.
Qed.

(** X9. A job that finds [installation_completed] set when it starts, as
    it is after a cancel, ends as cancelled at its first look at the flag:
    it requests nothing, writes nothing, queues nothing and leaves PATH
    alone. *)
Theorem install_tool_flag_set env tool_name tool_config w :
  installation_completed w = true →
  ∃ w', install_tool env tool_name tool_config w = (Ok Cancelled, w')
        ∧ fs w' = fs w ∧ trace w' = trace w
        ∧ ui_update_queue w' = ui_update_queue w ∧ user_path w' = user_path w
        ∧ installation_completed w' = true.
Proof.
  intros H. exists (read_flag w).2.
  pose proof (read_flag_set w H) as Hr.
  unfold install_tool, try_except. rewrite bind_run.
  destruct (read_flag w) as [r w1] eqn:E. simpl in Hr. subst r. cbn [snd].
  split; [done|]. unfold read_flag in E.
  destruct (cancel_in w) as [[|k]|]; simplify_eq/=; by rewrite ?H.
Qed.

Lemma install_tool_flag_set_witness :
  let w := (cancel_installation true installing_controls
              (init_app cmake_archive_only "C:\Windows")).2 in
  ∃ w', install_tool toy_env "CMake" cmake_config w = (Ok Cancelled, w')
        ∧ fs w' = fs w ∧ trace w' = trace w
        ∧ ui_update_queue w' = ui_update_queue w ∧ user_path w' = user_path w
        ∧ installation_completed w' = true.
Proof.
  apply (install_tool_flag_set toy_env "CMake" cmake_config
           (cancel_installation true installing_controls
              (init_app cmake_archive_only "C:\Windows")).2).
  reflexivity.
Defined.

(** ** The completion test *)

Lemma all_dead_forallb w :
  (∀ t b, threads w !! t = Some b → b = false) →
  forallb negb (map_to_list (threads w)).*2 = true.
Proof.
  intros H. apply forallb_forall. intros b Hb.
  apply list_elem_of_In, list_elem_of_fmap in Hb as ([t b'] & -> & Hin).
  apply elem_of_map_to_list in Hin. by rewrite (H _ _ Hin).
Qed.

(** X10. When no registered thread is alive and the flag is unset,
    [check_all_completed] sets the flag and shows the completion notice;
    called again in the world it leaves, it does nothing.  The notice is
    shown once. *)
Theorem check_all_completed_fires_once w :
  (∀ t b, threads w !! t = Some b → b = false) →
  installation_completed w = false → cancel_in w = None →
  let w1 := set_trace (trace w ++ [EvShowInfo "installation complete"])
              (set_flag true None w) in
  check_all_completed w = (Ok tt, w1) ∧ check_all_completed w1 = (Ok tt, w1).
Proof.
  intros Hdead Hflag Hc w1. split.
  - unfold check_all_completed. rewrite bind_run. unfold gets at 1. cbn beta iota.
    rewrite (all_dead_forallb w Hdead). rewrite bind_run.
    unfold read_flag. rewrite Hc, Hflag. cbn [negb].
    rewrite bind_run. unfold modify at 1. cbn beta iota. unfold emit, modify.
    cbn [cancel_in]. by rewrite Hc.
  - unfold check_all_completed. rewrite bind_run. unfold gets at 1. cbn beta iota.
    rewrite (all_dead_forallb w1 Hdead). rewrite bind_run.
    unfold read_flag. by cbn [cancel_in w1 set_trace set_flag installation_completed negb].
Qed.

Lemma check_all_completed_fires_once_witness :
  let w := (run_installation toy_env (init_app all_archives "")).2 in
  let w1 := set_trace (trace w ++ [EvShowInfo "installation complete"])
              (set_flag true None w) in
  (threads w !! "CMake" = Some false ∧ size (threads w) = 5%nat)
  ∧ check_all_completed w = (Ok tt, w1) ∧ check_all_completed w1 = (Ok tt, w1).
Proof.
  split; [vm_compute; split; reflexivity|].
  apply (check_all_completed_fires_once
           (run_installation toy_env (init_app all_archives "")).2); [|reflexivity..].
  apply (bool_decide_unpack
           (map_Forall (λ (_ : string) (b : bool), b = false)
              (threads (run_installation toy_env (init_app all_archives "")).2))).
  vm_compute. exact I.
Defined.

(** X11. With [installation_completed] set, as after a cancel or after the
    notice, [check_all_completed] never shows the completion notice, and
    leaves the file system, the queue and the trace alone, whatever the
    threads are. *)
Theorem check_all_completed_flag_set w :
  installation_completed w = true →
  let w' := (check_all_completed w).2 in
  (check_all_completed w).1 = Ok tt
  ∧ trace w' = trace w ∧ fs w' = fs w ∧ ui_update_queue w' = ui_update_queue w
  ∧ installation_completed w' = true.
Proof.
  intros H.
  assert (check_all_completed w = (Ok tt, w) ∨ check_all_completed w = (Ok tt, (read_flag w).2))
    as Hrun.
  { unfold check_all_completed. rewrite bind_run. unfold gets. cbn beta iota.
    destruct (forallb negb (map_to_list (threads w)).*2); [|by left].
    right. rewrite bind_run. pose proof (read_flag_set w H) as Hr.
    destruct (read_flag w) as [r w1]. simpl in Hr. by subst r. }
  cbn zeta. destruct Hrun as [->| ->]; cbn [fst snd]; [done|].
  rewrite read_flag_trace, read_flag_fs, read_flag_queue. split_and!; try done.
  unfold read_flag. destruct (cancel_in w) as [[|k]|]; simpl; by rewrite ?H.
Qed.

Lemma check_all_completed_flag_set_witness :
  let w := (cancel_installation true installing_controls (init_app (Dir ∅) "")).2 in
  let w' := (check_all_completed w).2 in
  (check_all_completed w).1 = Ok tt
  ∧ trace w' = trace w ∧ fs w' = fs w ∧ ui_update_queue w' = ui_update_queue w
  ∧ installation_completed w' = true.
Proof.
  apply (check_all_completed_flag_set
           (cancel_installation true installing_controls (init_app (Dir ∅) "")).2).
  reflexivity.
Defined.

(** ** Scanning the chosen directory *)

Lemma find_tool_None (tools : list (string * ToolConfig)) t :
  t ∉ tools.*1 → List.find (λ tc : string * ToolConfig, String.eqb tc.1 t) tools = None.
Proof.
  induction tools as [|[t0 c0] tools IH]; [done|]. cbn [fmap list_fmap fst].
  intros H. apply not_elem_of_cons in H as [Hne Hin]. cbn [List.find fst].
  destruct (String.eqb_spec t0 t) as [->|_]; [done|]. by apply IH.
Qed.

Lemma TOOLS_names_NoDup : NoDup TOOLS.*1.
Proof. apply (bool_decide_unpack (NoDup TOOLS.*1)). vm_compute. exact I. Qed.

Lemma scan_loop_run tools : NoDup tools.*1 → ∀ w,
  ∃ w', for_each tools (λ '(tool_name, tool_config),
    let filename := archive_name (url tool_config) in
    let file_path := [filename] in
    present ← gets (λ w, fs_is_file file_path (fs w));
    if present : bool then
      modify (λ w, set_existing_files (<[tool_name := file_path]> (existing_files w)) w) ;;
      update_status tool_name StExisting ;;
      queue_put (SetStepBar tool_name "download" 100) ;;
      emit EvLogInfo
    else ret tt) w = (Ok tt, w')
  ∧ fs w' = fs w
  ∧ ∀ t, existing_files w' !! t =
         match List.find (λ tc : string * ToolConfig, String.eqb tc.1 t) tools with
         | Some tc =>
             if fs_is_file [archive_name (url tc.2)] (fs w)
             then Some [archive_name (url tc.2)] else existing_files w !! t
         | None => existing_files w !! t
         end.
Proof.
  induction tools as [|[t0 c0] tools IH]; intros Hnd w.
  { exists w. split_and!; done. }
  cbn [fmap list_fmap fst] in Hnd. apply NoDup_cons in Hnd as [Hfresh Hnd].
  cbn [for_each]. cbn zeta. rewrite bind_run, bind_run. unfold gets at 1. cbn beta iota.
  destruct (fs_is_file [archive_name (url c0)] (fs w)) eqn:Hf.
  - unfold update_status, queue_put, emit, modify. rewrite !bind_run. cbn beta iota.
    match goal with |- context [for_each tools ?b ?w1] =>
      destruct (IH Hnd w1) as (w' & Hr & Hfs & Hex) end.
    exists w'. split_and!; [done..|].
    intros t. rewrite Hex. cbn [List.find fst snd fs existing_files set_trace set_queue
                                 set_existing_files].
    destruct (String.eqb_spec t0 t) as [->|Hne].
    + rewrite (find_tool_None tools t Hfresh). cbn [snd]. rewrite Hf.
      by rewrite lookup_insert_eq.
    + rewrite lookup_insert_ne by done. reflexivity.
  - unfold ret at 1. cbn beta iota.
    destruct (IH Hnd w) as (w' & Hr & Hfs & Hex).
    exists w'. split_and!; [done..|].
    intros t. rewrite Hex. cbn [List.find fst snd].
    destruct (String.eqb_spec t0 t) as [->|Hne].
    + rewrite (find_tool_None tools t Hfresh). cbn [snd]. by rewrite Hf.
    + reflexivity.
Qed.

(** X12. After [scan_existing_files], the record of archives on disk holds
    exactly the tools of the catalogue whose archive (the last component
    of the URL) is a file directly in the chosen directory, each with the
    path of that file; entries of an earlier scan are gone, and the file
    system is as it was. *)
Theorem scan_existing_files_records w :
  ∃ w', scan_existing_files w = (Ok tt, w') ∧ fs w' = fs w
  ∧ ∀ t, existing_files w' !! t =
      (cfg ← tool_config_of t;
       if fs_is_file [archive_name (url cfg)] (fs w)
       then Some [archive_name (url cfg)] else None).
Proof.
  unfold scan_existing_files. rewrite bind_run. unfold modify at 1. cbn beta iota.
  match goal with |- context [for_each TOOLS ?b ?w1] =>
    destruct (scan_loop_run TOOLS TOOLS_names_NoDup w1) as (w' & Hr & Hfs & Hex) end.
  exists w'. split_and!; [done..|]. intros t. rewrite Hex. unfold tool_config_of.
  cbn [fs existing_files set_existing_files].
  destruct (List.find _ TOOLS) as [[t1 c1]|]; cbn [fmap option_fmap option_map mbind
                                                    option_bind snd].
  - destruct (fs_is_file _ _); [done|]. apply lookup_empty.
  - apply lookup_empty.
Qed.

(** ** Draining the queue *)

Lemma shown_cons {A} (a : A) l before : shown (a :: l) before = shown l (Some a).
Proof. unfold shown. rewrite last_cons. by destruct (last l). Qed.

Lemma apply_updates_widgets tool step q : ∀ w,
  let w' := foldl (λ w u, apply_update u w) w q in
  fs w' = fs w ∧ trace w' = trace w ∧ user_path w' = user_path w
  ∧ threads w' = threads w ∧ installation_completed w' = installation_completed w
  ∧ progress_bars w' !! tool = shown (overall_reports tool q) (progress_bars w !! tool)
  ∧ step_progress_bars w' !! (tool, step)
    = shown (step_reports tool step q) (step_progress_bars w !! (tool, step))
  ∧ status_labels w' !! tool = shown (status_reports tool q) (status_labels w !! tool).
Proof.
  induction q as [|u q IH]; intros w; [done|].
  cbn [foldl]. cbn zeta.
  destruct (IH (apply_update u w)) as (Hfs & Htr & Hup & Hth & Hfl & Hb & Hs & Hl).
  cbn zeta in *. rewrite Hfs, Htr, Hup, Hth, Hfl, Hb, Hs, Hl.
  unfold overall_reports, step_reports, status_reports. cbn [omap list_omap].
  destruct u as [t s p|t p|t s]; cbn [apply_update set_widgets fs trace user_path threads
    installation_completed progress_bars step_progress_bars status_labels];
    split_and!; try done.
  - destruct (String.eqb_spec t tool) as [->|Hne]; cbn [andb].
    + destruct (String.eqb_spec s step) as [->|Hne].
      * by rewrite lookup_insert_eq, shown_cons.
      * rewrite lookup_insert_ne by congruence. done.
    + rewrite lookup_insert_ne by congruence. done.
  - destruct (String.eqb_spec t tool) as [->|Hne].
    + by rewrite lookup_insert_eq, shown_cons.
    + by rewrite lookup_insert_ne.
  - destruct (String.eqb_spec t tool) as [->|Hne].
    + by rewrite lookup_insert_eq, shown_cons.
    + by rewrite lookup_insert_ne.
Qed.

(** X13. [process_ui_updates] empties the queue, and afterwards every
    overall bar, step bar and status label shows the last value that was
    queued for it, or what it showed before when nothing was queued for it;
    the file system, the trace, PATH, the threads and the flag are as they
    were. *)
Theorem process_ui_updates_shows_last w tool step :
  let q := ui_update_queue w in
  let w' := (process_ui_updates w).2 in
  (process_ui_updates w).1 = Ok tt
  ∧ ui_update_queue w' = []
  ∧ fs w' = fs w ∧ trace w' = trace w ∧ user_path w' = user_path w
  ∧ threads w' = threads w ∧ installation_completed w' = installation_completed w
  ∧ progress_bars w' !! tool = shown (overall_reports tool q) (progress_bars w !! tool)
  ∧ step_progress_bars w' !! (tool, step)
    = shown (step_reports tool step q) (step_progress_bars w !! (tool, step))
  ∧ status_labels w' !! tool = shown (status_reports tool q) (status_labels w !! tool).
Proof.
  unfold process_ui_updates, modify. cbn [fst snd]. cbn zeta.
  split; [done|]. split; [done|].
  exact (apply_updates_widgets tool step (ui_update_queue w) w).
Qed.

(** ** Starting the installation *)

Lemma reset_bars_frame (tools : list (string * ToolConfig)) : ∀ w,
  let w' := foldl (λ w (t : string * ToolConfig),
              set_widgets (<[t.1 := 0%Q]> (progress_bars w))
                (foldl (λ sb step, <[(t.1, step) := 0%Q]> sb) (step_progress_bars w)
                   INSTALL_STEPS)
                (status_labels w) w) w tools in
  fs w' = fs w ∧ trace w' = trace w ∧ user_path w' = user_path w
  ∧ existing_files w' = existing_files w ∧ ui_update_queue w' = ui_update_queue w
  ∧ installation_completed w' = installation_completed w ∧ cancel_in w' = cancel_in w.
Proof.
  induction tools as [|t tools IH]; intros w; [done|].
  cbn [foldl]. cbn zeta.
  match goal with |- context [foldl _ ?w1 tools] =>
    destruct (IH w1) as (H1 & H2 & H3 & H4 & H5 & H6 & H7) end.
  cbn zeta in *. by rewrite H1, H2, H3, H4, H5, H6, H7.
Qed.

Lemma start_threads_run tools : ∀ w,
  ∃ w', for_each tools (λ '(tool_name, _),
          known ← gets (λ w, existing_files w !! tool_name);
          (if known is Some _ then ret tt else update_status tool_name StPreparing) ;;
          modify (λ w, set_threads (<[tool_name := true]> (threads w)) w)) w = (Ok tt, w')
  ∧ fs w' = fs w ∧ trace w' = trace w ∧ user_path w' = user_path w
  ∧ existing_files w' = existing_files w
  ∧ installation_completed w' = installation_completed w
  ∧ ui_update_queue w' = ui_update_queue w ++ preparing_updates w tools
  ∧ ∀ t, threads w' !! t = if bool_decide (t ∈ tools.*1) then Some true else threads w !! t.
Proof.
  induction tools as [|[t0 c0] tools IH]; intros w.
  { exists w. unfold preparing_updates. cbn. rewrite app_nil_r. split_and!; done. }
  cbn [for_each]. rewrite bind_run, bind_run. unfold gets at 1. cbn beta iota.
  rewrite bind_run. unfold preparing_updates. cbn [fmap list_fmap List.filter fst].
  destruct (existing_files w !! t0) as [p|] eqn:Hk.
  - unfold ret at 1, modify at 1. cbn beta iota.
    match goal with |- context [for_each tools ?b ?w1] =>
      destruct (IH w1) as (w' & Hr & H1 & H2 & H3 & H4 & H5 & H6 & H7) end.
    exists w'. rewrite Hr, H1, H2, H3, H4, H5, H6. split_and!; try done.
    intros t. rewrite H7. cbn [threads set_threads].
    { destruct (decide (t = t0)) as [->|Hne].
      * rewrite (bool_decide_true (t0 ∈ t0 :: _)) by left.
        rewrite lookup_insert_eq. by destruct (bool_decide _).
      * rewrite lookup_insert_ne by done.
        rewrite (bool_decide_ext (t ∈ t0 :: tools.*1) (t ∈ tools.*1)); [done|].
        rewrite elem_of_cons. split; [by intros [?|?]|by right]. }
  - rewrite update_status_run. unfold modify at 1. cbn beta iota.
    match goal with |- context [for_each tools ?b ?w1] =>
      destruct (IH w1) as (w' & Hr & H1 & H2 & H3 & H4 & H5 & H6 & H7) end.
    exists w'. rewrite Hr, H1, H2, H3, H4, H5, H6. split_and!; try done.
    + rewrite bool_decide_true by done. unfold preparing_updates.
      cbn [existing_files set_threads set_queue ui_update_queue fmap list_fmap].
      by rewrite <- app_assoc.
    + intros t. rewrite H7. cbn [threads set_threads set_queue].
      destruct (decide (t = t0)) as [->|Hne].
      * rewrite (bool_decide_true (t0 ∈ t0 :: _)) by left.
        rewrite lookup_insert_eq. by destruct (bool_decide _).
      * rewrite lookup_insert_ne by done.
        rewrite (bool_decide_ext (t ∈ t0 :: tools.*1) (t ∈ tools.*1)); [done|].
        rewrite elem_of_cons. split; [by intros [?|?]|by right].
Qed.

(** X14. [start_installation] unsets [installation_completed], forgets the
    threads of an earlier run and registers a live thread for every tool of
    the catalogue, and for no other name; it queues the status "preparing"
    for exactly the tools without an archive on record, in the order of
    the catalogue, and leaves the file system, the trace and PATH alone. *)
Theorem start_installation_threads w :
  ∃ w', start_installation w = (Ok tt, w')
  ∧ installation_completed w' = false
  ∧ fs w' = fs w ∧ trace w' = trace w ∧ user_path w' = user_path w
  ∧ ui_update_queue w' = ui_update_queue w ++ preparing_updates w TOOLS
  ∧ ∀ t, threads w' !! t = if bool_decide (t ∈ TOOLS.*1) then Some true else None.
Proof.
  unfold start_installation.
  rewrite bind_run. unfold modify at 1. cbn beta iota.
  rewrite bind_run.
  match goal with |- context [for_each TOOLS ?body ?w0] =>
    replace (for_each TOOLS body w0)
      with (for_each TOOLS (λ t : string * ToolConfig, modify (λ w,
              set_widgets (<[t.1 := 0%Q]> (progress_bars w))
                (foldl (λ sb step, <[(t.1, step) := 0%Q]> sb) (step_progress_bars w)
                   INSTALL_STEPS)
                (status_labels w) w)) w0);
      [|unfold TOOLS; reflexivity]
  end.
  rewrite for_each_modify.
  match goal with |- context [foldl ?f ?w0 TOOLS] =>
    pose proof (reset_bars_frame TOOLS w0) as (F1 & F2 & F3 & F4 & F5 & F6 & F7);
    cbn zeta in F1, F2, F3, F4, F5, F6, F7;
    set (w1 := foldl f w0 TOOLS) in *
  end.
  rewrite bind_run. unfold modify at 1. cbn beta iota.
  destruct (start_threads_run TOOLS (set_threads ∅ w1))
    as (w' & Hr & H1 & H2 & H3 & H4 & H5 & H6 & H7).
  exists w'. rewrite Hr, H1, H2, H3, H5, H6.
  cbn [fs trace user_path installation_completed ui_update_queue set_threads] in *.
  rewrite F1, F2, F3, F5, F6. split_and!; try done.
  all: first [ intros t; rewrite H7; cbn [threads set_threads]; by rewrite lookup_empty
             | f_equal; unfold preparing_updates; cbn [existing_files set_threads];
               by rewrite F4 ].
Qed.

(** ** Frames of the stages, for any relation the primitives respect *)

Section stage_frames.
Context (R : relation World) `{!Reflexive R, !Transitive R}.
Context (R_set_fs : ∀ f, respects R (modify (set_fs f))).
Context (R_queue_put : ∀ u, respects R (queue_put u)).
Context (R_read_flag : respects R read_flag).
Context (R_log_warning : respects R (emit EvLogWarning)).

#[local] Hint Resolve R_set_fs R_queue_put R_read_flag R_log_warning : frames.

Lemma frame_rmtree p : respects R (rmtree p).
Proof. unfold rmtree. respects_tac. Qed.
Lemma frame_unlink p : respects R (unlink p).
Proof. unfold unlink. respects_tac. Qed.
Lemma frame_mkdir_parents p : respects R (mkdir_parents p).
Proof. unfold mkdir_parents. respects_tac. Qed.
Lemma frame_open_wb p : respects R (open_wb p).
Proof. unfold open_wb. respects_tac. Qed.
Lemma frame_mkdir p : respects R (mkdir p).
Proof. unfold mkdir. respects_tac. Qed.
Lemma frame_file_write p c : respects R (file_write p c).
Proof. unfold file_write. respects_tac. Qed.
Lemma frame_shutil_move src dst : respects R (shutil_move src dst).
Proof. unfold shutil_move. cbn zeta. respects_tac. Qed.

#[local] Hint Resolve frame_rmtree frame_unlink frame_mkdir_parents frame_open_wb
  frame_mkdir frame_file_write frame_shutil_move : frames.

Lemma frame_move_contents src dst : respects R (move_contents src dst).
Proof. unfold move_contents, iterdir, move_item. cbn zeta. respects_tac. Qed.

Lemma frame_fix_directory_structure env base_dir bin_subdir is_single_exe :
  respects R (fix_directory_structure env base_dir bin_subdir is_single_exe).
Proof.
  pose proof frame_move_contents.
  unfold fix_directory_structure, iterdir. cbn zeta. respects_tac.
Qed.

Lemma frame_zip_extract tool_dir file : respects R (zip_extract tool_dir file).
Proof. unfold zip_extract. cbn zeta. respects_tac. Qed.

Lemma frame_zip_open zi save_path : respects R (zip_open zi save_path).
Proof. unfold zip_open. respects_tac. Qed.

Lemma frame_extract_members tool_dir tool_name total_files infos : ∀ extracted,
  respects R (extract_members tool_dir tool_name total_files infos extracted).
Proof.
  pose proof frame_zip_extract.
  induction infos as [|file rest IH]; intros extracted; cbn [extract_members]; respects_tac.
Qed.

Lemma frame_extract_file zi save_path tool_dir tool_name :
  respects R (extract_file zi save_path tool_dir tool_name).
Proof.
  pose proof frame_zip_open. pose proof frame_extract_members.
  unfold extract_file. cbn zeta. respects_tac.
Qed.

Lemma frame_download_chunks save_path tool_name total_size ending chunks : ∀ downloaded,
  respects R (download_chunks save_path tool_name total_size chunks ending downloaded).
Proof.
  induction chunks as [|chunk rest IH]; intros downloaded; cbn [download_chunks];
    cbn zeta; respects_tac.
Qed.

Context (R_request : ∀ u, respects R (emit (EvRequest u))).
Context (R_sleep : ∀ n, respects R (emit (EvSleep n))).

Lemma frame_download_file http url save_path tool_name max_retries :
  respects R (download_file http url save_path tool_name max_retries).
Proof.
  pose proof frame_download_chunks.
  assert (∀ k, respects R (download_attempt http url save_path tool_name k)) as Ha.
  { intros k. unfold download_attempt. cbn zeta. respects_tac. }
  unfold download_file. generalize max_retries at 2. intros remaining.
  induction remaining as [|remaining IH]; cbn [download_loop]; cbn zeta; respects_tac.
Qed.
End stage_frames.

Section job_frames.
Context (R : relation World) `{!Reflexive R, !Transitive R}.
Context (R_set_fs : ∀ f, respects R (modify (set_fs f))).
Context (R_queue_put : ∀ u, respects R (queue_put u)).
Context (R_read_flag : respects R read_flag).
Context (R_log_warning : respects R (emit EvLogWarning)).
Context (R_log_info : respects R (emit EvLogInfo)).
Context (R_log_error : respects R (emit EvLogError)).
Context (R_show_info : ∀ t, respects R (emit (EvShowInfo t))).
Context (R_show_error : ∀ t, respects R (emit (EvShowError t))).
Context (R_set_flag : respects R (modify (λ w, set_flag true (cancel_in w) w))).

#[local] Hint Resolve R_set_fs R_queue_put R_read_flag R_log_warning R_log_info R_log_error
  R_show_info R_show_error R_set_flag : frames.

Lemma frame_update_status tool_name s : respects R (update_status tool_name s).
Proof. unfold update_status. respects_tac. Qed.

Lemma frame_check_all_completed : respects R check_all_completed.
Proof. unfold check_all_completed. respects_tac. Qed.

(** Everything a job does once it has its archive, and what it does when a
    stage fails. *)
Lemma frame_install_tool_existing env tool_name tool_config existing_file w :
  (∀ s, respects R (modify (set_user_path s))) →
  existing_files w !! tool_name = Some existing_file →
  R w (install_tool env tool_name tool_config w).2.
Proof.
  intros R_user_path Hex.
  pose proof frame_update_status as F1. pose proof frame_check_all_completed as F2.
  pose proof (frame_extract_file R R_set_fs R_queue_put R_read_flag) as F3.
  pose proof (frame_fix_directory_structure R R_set_fs R_log_warning) as F4.
  assert (∀ d b s t, respects R (add_to_system_path env d b s t)) as Hreg.
  { intros d b s t. unfold add_to_system_path. cbn zeta. respects_tac. }
  assert (∀ e, respects R (update_status tool_name StFailed ;; emit EvLogError ;;
                           emit (EvShowError "error") ;; ret (Failed e))) as Hh
    by (intros e; respects_tac).
  unfold install_tool, try_except. rewrite bind_run.
  pose proof (R_read_flag w) as Hw1.
  assert (existing_files (read_flag w).2 = existing_files w) as He0
    by (unfold read_flag; by destruct (cancel_in w) as [[|k]|]).
  destruct (read_flag_ok w) as [c0 Hc0].
  destruct (read_flag w) as [r0 w1]; cbn [fst snd] in Hw1, He0, Hc0. subst r0.
  destruct c0; [exact Hw1|].
  cbn zeta. rewrite bind_run. unfold gets at 1. cbn beta iota.
  rewrite He0, Hex.
  match goal with |- context [match ?m w1 with _ => _ end] => set (body := m) end.
  assert (Hb : respects R body) by (subst body; cbn zeta; respects_tac).
  specialize (Hb w1). destruct (body w1) as [[o|e] w2]; cbn [snd] in Hb |- *.
  - by etrans.
  - etrans; [exact Hw1|]. etrans; [exact Hb|]. apply Hh.
Qed.
End job_frames.

Lemma frame_install_tool (R : relation World) `{!Reflexive R, !Transitive R}
    env tool_name tool_config :
  (∀ f, respects R (modify (set_fs f))) →
  (∀ u, respects R (queue_put u)) →
  respects R read_flag →
  (∀ e, respects R (emit e)) →
  (∀ s, respects R (modify (set_user_path s))) →
  respects R (modify (λ w, set_flag true (cancel_in w) w)) →
  respects R (install_tool env tool_name tool_config).
Proof.
  intros R_set_fs R_queue_put R_read_flag R_emit R_user_path R_set_flag.
  assert (∀ t s, respects R (update_status t s)) as F1
    by (intros; apply frame_update_status; auto).
  assert (respects R check_all_completed) as F2
    by (apply frame_check_all_completed; auto).
  assert (∀ zi p d t, respects R (extract_file zi p d t)) as F3
    by (intros; apply frame_extract_file; auto).
  assert (∀ e d b s, respects R (fix_directory_structure e d b s)) as F4
    by (intros; apply frame_fix_directory_structure; auto).
  assert (∀ h u p t n, respects R (download_file h u p t n)) as F5
    by (intros; apply frame_download_file; auto).
  assert (∀ d b s t, respects R (add_to_system_path env d b s t)) as Hreg.
  { intros d b s t. unfold add_to_system_path. cbn zeta. respects_tac. }
  unfold install_tool. cbn zeta. respects_tac.
Qed.

(** ** What a job leaves alone *)

#[local] Instance same_main_thread_state_refl : Reflexive same_main_thread_state.
Proof. by intros w. Qed.
#[local] Instance same_main_thread_state_trans : Transitive same_main_thread_state.
Proof. intros w1 w2 w3 H1 H2. unfold same_main_thread_state in *. congruence. Qed.
#[local] Instance same_path_refl : Reflexive same_path.
Proof. by intros w. Qed.
#[local] Instance same_path_trans : Transitive same_path.
Proof. intros w1 w2 w3 H1 H2. unfold same_path in *. congruence. Qed.
#[local] Instance same_requests_refl : Reflexive same_requests.
Proof. by intros w. Qed.
#[local] Instance same_requests_trans : Transitive same_requests.
Proof. intros w1 w2 w3 H1 H2. unfold same_requests in *. congruence. Qed.

(** X15. A job changes neither the bars nor the status labels, nor the
    record of archives on disk, nor the registry of threads: what it has to
    say to the widgets goes through the queue. *)
Theorem install_tool_main_thread_state env tool_name tool_config w :
  let w' := (install_tool env tool_name tool_config w).2 in
  progress_bars w' = progress_bars w
  ∧ step_progress_bars w' = step_progress_bars w
  ∧ status_labels w' = status_labels w
  ∧ existing_files w' = existing_files w
  ∧ threads w' = threads w.
Proof.
  assert (respects same_main_thread_state (install_tool env tool_name tool_config)) as H.
  { apply frame_install_tool; try apply _; try (by intros w0); try (by intros ? w0).
    intros w0. unfold read_flag. by destruct (cancel_in w0) as [[|k]|]. }
  specialize (H w). unfold same_main_thread_state, main_thread_state in H.
  cbn zeta. by simplify_eq.
Qed.

Lemma requests_snoc tr e :
  (∀ u, e ≠ EvRequest u) → requests (tr ++ [e]) = requests tr.
Proof.
  intros He. unfold requests. rewrite List.filter_app, length_app.
  destruct e; simpl; try lia. by destruct (He url0).
Qed.

(** X16. A job whose archive is on record makes no request at all. *)
Theorem install_tool_existing_no_request env tool_name tool_config existing_file w :
  existing_files w !! tool_name = Some existing_file →
  requests (trace (install_tool env tool_name tool_config w).2) = requests (trace w).
Proof.
  intros Hex.
  apply (frame_install_tool_existing same_requests) with (existing_file := existing_file);
    try done; try apply _;
    try (by intros w0); try (by intros ? w0);
    try (intros w0; unfold same_requests; simpl; by apply requests_snoc);
    try (intros ? w0; unfold same_requests; simpl; by apply requests_snoc).
  intros w0. unfold same_requests. by rewrite read_flag_trace.
Qed.

Lemma install_tool_existing_no_request_witness :
  let w := (scan_existing_files (init_app cmake_archive_only "")).2 in
  requests (trace (install_tool offline_env "CMake" cmake_config w).2) = requests (trace w).
Proof.
  apply (install_tool_existing_no_request offline_env "CMake" cmake_config
           ["cmake-4.0.1-windows-x86_64.zip"]
           (scan_existing_files (init_app cmake_archive_only "")).2).
  vm_compute. reflexivity.
Defined.

(** ** How a job ends *)

Lemma check_all_completed_ok w : (check_all_completed w).1 = Ok tt.
Proof.
  unfold check_all_completed. rewrite bind_run. unfold gets. cbn beta iota.
  destruct (forallb negb (map_to_list (threads w)).*2); [|done].
  rewrite bind_run. destruct (read_flag_ok w) as [c Hc].
  destruct (read_flag w) as [r w1]. simpl in Hc. subst r. by destruct c.
Qed.

Lemma add_to_system_path_raises env tool_dir bin_subdir is_single_exe tool_name w e w' :
  add_to_system_path env tool_dir bin_subdir is_single_exe tool_name w = (Raise e, w') →
  ∃ e0, e = EnvVarFailed e0.
Proof.
  unfold add_to_system_path, try_except. rewrite bind_run. unfold gets at 1.
  cbn beta iota zeta.
  match goal with |- context [match ?m w with _ => _ end] =>
    destruct (m w) as [[[]|e1] w1]; [done|] end.
  unfold raise. intros [= <- <-]. by eexists.
Qed.

Lemma same_path_read_flag : respects same_path read_flag.
Proof. intros w. unfold same_path, read_flag. by destruct (cancel_in w) as [[|k]|]. Qed.

(** The ways a job ends, with what each of them leaves behind. *)
Lemma install_tool_cases env tool_name tool_config w :
  ∃ o w', install_tool env tool_name tool_config w = (Ok o, w')
  ∧ match o with
    | Cancelled => user_path w' = user_path w
    | Completed =>
        ∃ q, ui_update_queue w' =
               q ++ [SetStepBar tool_name "config" 100; SetProgressBar tool_name 100;
                     SetStatus tool_name StDone]
    | Failed e =>
        (user_path w' = user_path w ∨ ∃ e0, e = EnvVarFailed e0)
        ∧ ∃ q tr, ui_update_queue w' = q ++ [SetStatus tool_name StFailed]
                  ∧ trace w' = tr ++ [EvLogError; EvShowError "error"]
    end.
Proof.
  assert (∀ f, respects same_path (modify (set_fs f))) as P1 by (by intros ? w0).
  assert (∀ u, respects same_path (queue_put u)) as P2 by (by intros ? w0).
  assert (∀ e, respects same_path (emit e)) as P3 by (by intros ? w0).
  pose proof same_path_read_flag as P4.
  assert (∀ zi p d t, respects same_path (extract_file zi p d t)) as Pex
    by (intros; apply frame_extract_file; auto; apply _).
  assert (∀ e d b s, respects same_path (fix_directory_structure e d b s)) as Pfix
    by (intros; apply frame_fix_directory_structure; auto; apply _).
  assert (∀ h u p t n, respects same_path (download_file h u p t n)) as Pdl
    by (intros; apply frame_download_file; auto; apply _).
  assert (∀ t s, respects same_path (update_status t s)) as Pst by (by intros ? ? w0).
  unfold install_tool, try_except.
  match goal with |- context [match ?m w with _ => _ end] => set (body := m) end.
  assert (Hcases : ∀ r w0, body w = (r, w0) →
            match r with
            | Ok Cancelled => user_path w0 = user_path w
            | Ok Completed =>
                ∃ q, ui_update_queue w0 =
                       q ++ [SetStepBar tool_name "config" 100; SetProgressBar tool_name 100;
                             SetStatus tool_name StDone]
            | Ok (Failed _) => False
            | Raise e => user_path w0 = user_path w ∨ ∃ e0, e = EnvVarFailed e0
            end).
  { intros r w0. subst body. unfold same_path in *.
    (* the first look at the flag *)
    rewrite bind_run. pose proof (P4 w) as E0.
    destruct (read_flag_ok w) as [c0 Hc0].
    destruct (read_flag w) as [r0 w1]; cbn [fst snd] in E0, Hc0. subst r0.
    destruct c0; [by intros [= <- <-]|]. cbn zeta.
    (* verifying or downloading *)
    rewrite bind_run. unfold gets at 1. cbn beta iota. rewrite bind_run.
    match goal with |- context [match ?m w1 with _ => _ end] => set (stage_a := m) end.
    assert (Ha : respects same_path stage_a).
    { subst stage_a. destruct (existing_files w1 !! tool_name); respects_tac. }
    specialize (Ha w1). unfold same_path in Ha.
    destruct (stage_a w1) as [[sp|e] w2]; cbn [snd] in Ha.
    2:{ intros [= <- <-]. left. congruence. }
    (* the second look at the flag *)
    rewrite bind_run. pose proof (P4 w2) as E1.
    destruct (read_flag_ok w2) as [c1 Hc1].
    destruct (read_flag w2) as [r1 w3]; cbn [fst snd] in E1, Hc1. subst r1.
    destruct c1; [intros [= <- <-]; congruence|].
    (* extracting *)
    rewrite bind_run, update_status_run, bind_run.
    match goal with |- context [extract_file _ _ _ _ ?w0] => set (w4 := w0) end.
    pose proof (Pex (zip_infolist env) sp [archive_stem (url tool_config)] tool_name w4) as E2.
    assert (user_path w4 = user_path w3) as E2' by done.
    destruct (extract_file (zip_infolist env) sp [archive_stem (url tool_config)] tool_name w4)
      as [[d|e] w5]; cbn [snd] in E2.
    2:{ intros [= <- <-]. left. congruence. }
    rewrite bind_run. pose proof (P4 w5) as E3.
    destruct (read_flag_ok w5) as [c2 Hc2].
    destruct (read_flag w5) as [r2 w6]; cbn [fst snd] in E3, Hc2. subst r2.
    destruct c2; [intros [= <- <-]; congruence|].
    (* arranging the directory *)
    rewrite bind_run, update_status_run, bind_run.
    match goal with |- context [match ?m ?w0 with _ => _ end] =>
      set (stage_f := m); set (w7 := w0) end.
    assert (Hf : respects same_path stage_f) by (subst stage_f; destruct d; respects_tac).
    specialize (Hf w7). unfold same_path in Hf.
    assert (user_path w7 = user_path w6) as E4 by done.
    destruct (stage_f w7) as [[actual|e] w8]; cbn [snd] in Hf.
    2:{ intros [= <- <-]. left. congruence. }
    rewrite bind_run. pose proof (P4 w8) as E5.
    destruct (read_flag_ok w8) as [c3 Hc3].
    destruct (read_flag w8) as [r3 w9]; cbn [fst snd] in E5, Hc3. subst r3.
    destruct c3; [intros [= <- <-]; congruence|].
    (* registering *)
    rewrite bind_run, update_status_run, bind_run.
    match goal with |- context [add_to_system_path _ _ _ _ _ ?w0] => set (w10 := w0) end.
    destruct (add_to_system_path env actual (bin_subdir tool_config) (is_single_exe tool_config)
                tool_name w10) as [[[]|e] w11] eqn:Hreg.
    2:{ intros [= <- <-]. right. by apply add_to_system_path_raises in Hreg. }
    apply add_to_system_path_queue in Hreg.
    rewrite bind_run, update_status_run, bind_run.
    match goal with |- context [check_all_completed ?w0] => set (w12 := w0) end.
    pose proof (same_queue_check_all_completed w12) as Hq12.
    pose proof (check_all_completed_ok w12) as Hok.
    destruct (check_all_completed w12) as [r12 w13]; cbn [fst snd] in Hq12, Hok. subst r12.
    intros [= <- <-]. unfold same_queue in Hq12. rewrite Hq12. subst w12.
    cbn [ui_update_queue set_queue]. rewrite Hreg.
    eexists. rewrite <- app_assoc. reflexivity. }
  destruct (body w) as [[o|e] w0].
  - exists o, w0. split; [done|]. specialize (Hcases _ _ eq_refl). by destruct o.
  - specialize (Hcases _ _ eq_refl).
    unfold update_status, queue_put, emit, modify. rewrite !bind_run. cbn beta iota.
    eexists _, _. split; [reflexivity|]. cbn [user_path set_trace set_queue].
    split; [exact Hcases|].
    eexists _, _. cbn [ui_update_queue trace set_trace set_queue]. split; [reflexivity|].
    rewrite <- app_assoc. reflexivity.
Qed.

(** X17. The persistent PATH changes only in a job that reaches the
    registration: when a job ends as cancelled, or fails with anything but
    the registration error, PATH is what it was. *)
Theorem install_tool_path_changes_only_at_registration env tool_name tool_config w o w' :
  install_tool env tool_name tool_config w = (Ok o, w') →
  user_path w' = user_path w ∨ o = Completed ∨ ∃ e, o = Failed (EnvVarFailed e).
Proof.
  intros Hrun.
  destruct (install_tool_cases env tool_name tool_config w) as (o1 & w1 & Hrun1 & H).
  rewrite Hrun in Hrun1. simplify_eq.
  destruct o1 as [| |e]; [by right; left|by left|].
  destruct H as [[Hp|[e0 ->]] _]; [by left|right; right; by eexists].
Qed.

Lemma install_tool_path_changes_only_at_registration_witness :
  ∃ w', install_tool offline_env "CMake" cmake_config (init_app (Dir ∅) "C:\Windows")
        = (Ok (Failed (DownloadRetriesExhausted ConnectionError)), w')
  ∧ (user_path w' = "C:\Windows"
     ∨ Failed (DownloadRetriesExhausted ConnectionError) = Completed
     ∨ ∃ e, Failed (DownloadRetriesExhausted ConnectionError) = Failed (EnvVarFailed e)).
Proof.
  eexists. split; [vm_compute; reflexivity|].
  apply (install_tool_path_changes_only_at_registration offline_env "CMake" cmake_config
           (init_app (Dir ∅) "C:\Windows")).
  vm_compute. reflexivity.
Defined.

Lemma shown_snoc {A} (l : list A) a before : shown (l ++ [a]) before = Some a.
Proof. unfold shown. by rewrite last_snoc. Qed.


(** X19. When a job has completed and the queue is drained, the overall
    bar of the tool and its "config" step bar show 100 and its label shows
    "done". *)
Theorem install_tool_completed_display env tool_name tool_config w w' :
  install_tool env tool_name tool_config w = (Ok Completed, w') →
  let w'' := (process_ui_updates w').2 in
  progress_bars w'' !! tool_name = Some 100%Q
  ∧ step_progress_bars w'' !! (tool_name, "config") = Some 100%Q
  ∧ status_labels w'' !! tool_name = Some StDone.
Proof.
  intros Hrun.
  destruct (install_tool_cases env tool_name tool_config w) as (o1 & w1 & Hrun1 & H).
  rewrite Hrun in Hrun1. simplify_eq. destruct H as [q Hq].
  destruct (apply_updates_widgets tool_name "config" (ui_update_queue w1) w1)
    as (_ & _ & _ & _ & _ & Hb & Hs & Hl).
  cbn zeta in *. unfold process_ui_updates, modify.
  cbn [snd progress_bars step_progress_bars status_labels set_queue].
  rewrite Hb, Hs, Hl, Hq.
  unfold overall_reports, step_reports, status_reports. rewrite !omap_app.
  cbn [omap list_omap]. rewrite !String.eqb_refl. cbn [andb].
  change (String.eqb "config" "config") with true. cbn iota.
  split_and!.
  - apply (shown_snoc (omap _ q)).
  - apply (shown_snoc (omap _ q)).
  - apply (shown_snoc (omap _ q)).
Qed.

Lemma install_tool_completed_display_witness :
  ∃ w', install_tool toy_env "CMake" cmake_config
          (scan_existing_files (init_app cmake_archive_only "")).2 = (Ok Completed, w')
  ∧ progress_bars (process_ui_updates w').2 !! "CMake" = Some 100%Q
  ∧ step_progress_bars (process_ui_updates w').2 !! ("CMake", "config") = Some 100%Q
  ∧ status_labels (process_ui_updates w').2 !! "CMake" = Some StDone.
Proof.
  eexists. split; [vm_compute; reflexivity|].
  apply (install_tool_completed_display toy_env "CMake" cmake_config
           (scan_existing_files (init_app cmake_archive_only "")).2).
  vm_compute. reflexivity.
Defined.

(** ** Files a stage has no business with *)

Lemma respects_for_each_Forall (R : relation World) `{!Reflexive R, !Transitive R}
    {A} (l : list A) (body : A → M unit) :
  Forall (λ x, respects R (body x)) l → respects R (for_each l body).
Proof.
  induction 1 as [|x l Hx Hl IH]; simpl.
  - by apply respects_ret.
  - apply respects_bind; [apply _|done|by intros _].
Qed.

Lemma not_prefix_snoc (q p : path) c : ¬ q `prefix_of` p → ¬ (q ++ [c]) `prefix_of` p.
Proof. intros H [k ->]. apply H. exists ([c] ++ k). by rewrite <- app_assoc. Qed.

Lemma not_prefix_app (q r p : path) : ¬ q `prefix_of` p → ¬ (q ++ r) `prefix_of` p.
Proof. intros H [k ->]. apply H. exists (r ++ k). by rewrite <- app_assoc. Qed.

Section outside_facts.
Context (p : path) (d : string).

#[local] Existing Instance file_stays_refl.
#[local] Existing Instance file_stays_trans.

Lemma file_stays_unlink q : ¬ q `prefix_of` p → respects (file_stays p d) (unlink q).
Proof.
  intros Hq w H. unfold unlink. msimpl. destruct (fs_is_file q (fs w)); simpl; [|done].
  by apply fs_lookup_alter_file.
Qed.

Lemma file_stays_emit e : respects (file_stays p d) (emit e).
Proof. intros w H. exact H. Qed.

Lemma file_stays_shutil_move src dst :
  ¬ dst `prefix_of` p → ¬ src `prefix_of` p →
  respects (file_stays p d) (shutil_move src dst).
Proof.
  intros Hdst Hsrc w H. unfold shutil_move. msimpl.
  destruct (fs_is_dir dst (fs w)) eqn:Hd; simpl.
  - destruct (fs_exists (dst ++ [name src]) (fs w)); simpl; [done|].
    destruct (fs_lookup src (fs w)) as [v|]; simpl; [|done].
    destruct (negb _ || _)%bool; simpl; [done|].
    apply fs_lookup_alter_file; [|by apply not_prefix_snoc].
    by apply fs_lookup_alter_file.
  - destruct (fs_lookup src (fs w)) as [v|]; simpl; [|done].
    destruct (negb _ || _)%bool; simpl; [done|].
    apply fs_lookup_alter_file; [|done].
    by apply fs_lookup_alter_file.
Qed.

Lemma file_stays_move_item dst item :
  ¬ dst `prefix_of` p → ¬ item `prefix_of` p →
  respects (file_stays p d) (move_item dst item).
Proof.
  intros Hdst Hitem. unfold move_item. cbn zeta.
  pose proof (file_stays_rmtree p d _ (not_prefix_snoc _ _ (name item) Hdst)).
  pose proof (file_stays_unlink _ (not_prefix_snoc _ _ (name item) Hdst)).
  pose proof (file_stays_shutil_move item dst Hdst Hitem).
  respects_tac.
Qed.

Lemma file_stays_move_contents src dst :
  ¬ dst `prefix_of` p → ¬ src `prefix_of` p →
  respects (file_stays p d) (move_contents src dst).
Proof.
  intros Hdst Hsrc w. unfold move_contents, iterdir.
  rewrite bind_run, bind_run. unfold gets at 1. cbn beta iota.
  unfold fs_iterdir. destruct (fs_lookup src (fs w)) as [[d0|m]|]; try (intros H; exact H).
  unfold ret at 1. cbn beta iota.
  apply respects_for_each_Forall; [apply _..|].
  apply Forall_fmap, Forall_forall. intros kv _. simpl.
  apply file_stays_move_item; [done|by apply not_prefix_snoc].
Qed.

Lemma file_stays_fix_directory_structure env base_dir bin_subdir is_single_exe :
  ¬ base_dir `prefix_of` p →
  respects (file_stays p d) (fix_directory_structure env base_dir bin_subdir is_single_exe).
Proof.
  intros Hbase w. unfold fix_directory_structure.
  destruct is_single_exe; [intros H; exact H|]. cbn zeta.
  rewrite bind_run. unfold gets at 1. cbn beta iota.
  destruct (dir_nonempty _ _); [intros H; exact H|].
  unfold iterdir. rewrite bind_run, bind_run. unfold gets at 1. cbn beta iota.
  unfold fs_iterdir. destruct (fs_lookup base_dir (fs w)) as [[d0|m]|];
    try (intros H; exact H).
  unfold ret at 1. cbn beta iota. rewrite bind_run. unfold gets at 1. cbn beta iota.
  match goal with |- context [match ?l with [] => _ | _ => _ end] =>
    assert (Forall (λ x, ¬ x `prefix_of` p) l) as Hl;
      [|destruct l as [|nested [|? ?]]; try (intros H; exact H)]
  end.
  { apply Forall_forall. intros x Hx.
    apply list_elem_of_In, filter_In in Hx as [Hx _].
    apply list_elem_of_In, list_elem_of_fmap in Hx as (kv & -> & _).
    by apply not_prefix_snoc. }
  apply Forall_cons in Hl as [Hn _].
  pose proof (file_stays_move_contents nested base_dir Hbase Hn).
  pose proof (file_stays_rmtree p d nested Hn).
  pose proof file_stays_emit.
  match goal with |- file_stays p d w (?m w).2 =>
    assert (respects (file_stays p d) m) as Hm by respects_tac; apply Hm
  end.
Qed.

Lemma file_stays_extract_file zi save_path tool_dir tool_name :
  ¬ tool_dir `prefix_of` p →
  respects (file_stays p d) (extract_file zi save_path tool_dir tool_name).
Proof.
  intros Hq.
  pose proof (file_stays_rmtree p d tool_dir Hq).
  pose proof (file_stays_mkdir_parents p d).
  assert (∀ infos total k,
    respects (file_stays p d) (extract_members tool_dir tool_name total infos k)).
  { intros infos total k. apply file_stays_extract_members.
    apply Forall_forall. intros later _. by apply not_prefix_app. }
  unfold extract_file, zip_open. cbn zeta. respects_tac.
Qed.

Lemma file_stays_download_file http url save_path tool_name max_retries :
  ¬ save_path `prefix_of` p →
  respects (file_stays p d) (download_file http url save_path tool_name max_retries).
Proof.
  intros Hq.
  pose proof (file_stays_open_wb p d save_path Hq).
  pose proof (file_stays_unlink save_path Hq).
  pose proof (λ c, file_stays_file_write p d save_path c Hq).
  pose proof (file_stays_mkdir_parents p d).
  pose proof (file_stays_queue_put p d).
  pose proof (file_stays_read_flag p d).
  pose proof file_stays_emit.
  assert (∀ total chunks ending k,
    respects (file_stays p d) (download_chunks save_path tool_name total chunks ending k))
    as Hc.
  { intros total chunks ending. induction chunks as [|chunk rest IH]; intros k;
      cbn [download_chunks]; cbn zeta; respects_tac. }
  assert (∀ k, respects (file_stays p d) (download_attempt http url save_path tool_name k))
    as Ha.
  { intros k. unfold download_attempt. cbn zeta. respects_tac. }
  unfold download_file. generalize max_retries at 2. intros remaining.
  induction remaining as [|remaining IH]; cbn [download_loop]; cbn zeta; respects_tac.
Qed.
End outside_facts.

(** X20. [download_file] changes no file but the one it is asked to
    write: a file anywhere else in the chosen directory is there, with its
    content, when the download returns, however it ends. *)
Theorem download_file_other_files_untouched http url save_path tool_name max_retries p d w :
  ¬ save_path `prefix_of` p →
  fs_lookup p (fs w) = Some (File d) →
  fs_lookup p (fs (download_file http url save_path tool_name max_retries w).2)
    = Some (File d).
Proof. intros Hq. by apply file_stays_download_file. Qed.

Lemma download_file_other_files_untouched_witness :
  fs_lookup ["notes.txt"]
    (fs (download_file http_breaks_midway "u" [cmake_root] "T" 3
           (init_app cmake_tree_with_notes "")).2) = Some (File "keep").
Proof.
  apply (download_file_other_files_untouched http_breaks_midway "u" [cmake_root] "T" 3
           ["notes.txt"] "keep" (init_app cmake_tree_with_notes "")).
  - intros [k [=]].
  - vm_compute. reflexivity.
Defined.

(** X21. [extract_file] changes no file outside [tool_dir]: whatever the
    archive holds and however the extraction ends, a file elsewhere in the
    chosen directory keeps its place and its content. *)
Theorem extract_file_outside_untouched zi save_path tool_dir tool_name p d w :
  ¬ tool_dir `prefix_of` p →
  fs_lookup p (fs w) = Some (File d) →
  fs_lookup p (fs (extract_file zi save_path tool_dir tool_name w).2) = Some (File d).
Proof. intros Hq. by apply file_stays_extract_file. Qed.

Lemma extract_file_outside_untouched_witness :
  fs_lookup ["cmake-4.0.1-windows-x86_64.zip"]
    (fs (extract_file toy_zip_infolist ["cmake-4.0.1-windows-x86_64.zip"] ["t"] "T"
           (init_app cmake_archive_only "")).2) = Some (File "PK-wrapped").
Proof.
  apply (extract_file_outside_untouched toy_zip_infolist ["cmake-4.0.1-windows-x86_64.zip"]
           ["t"] "T" ["cmake-4.0.1-windows-x86_64.zip"] "PK-wrapped"
           (init_app cmake_archive_only "")).
  - intros [k [=]].
  - vm_compute. reflexivity.
Defined.

(** X22. [fix_directory_structure] changes no file outside [base_dir],
    whether it collapses the nested directory, returns at once or fails on
    the way. *)
Theorem fix_directory_structure_outside_untouched env base_dir bin_subdir is_single_exe p d w :
  ¬ base_dir `prefix_of` p →
  fs_lookup p (fs w) = Some (File d) →
  fs_lookup p (fs (fix_directory_structure env base_dir bin_subdir is_single_exe w).2)
    = Some (File d).
Proof. intros Hq. by apply file_stays_fix_directory_structure. Qed.

Lemma fix_directory_structure_outside_untouched_witness :
  fs_lookup ["notes.txt"]
    (fs (fix_directory_structure offline_env [cmake_root] "bin" false
           (init_app cmake_tree_with_notes "")).2) = Some (File "keep").
Proof.
  apply (fix_directory_structure_outside_untouched offline_env [cmake_root] "bin" false
           ["notes.txt"] "keep" (init_app cmake_tree_with_notes "")).
  - intros [k [=]].
  - vm_compute. reflexivity.
Defined.

(** ** A job, stage by stage *)

Lemma extract_file_result_dir zi save_path tool_dir tool_name w d w' :
  extract_file zi save_path tool_dir tool_name w = (Ok (Some d), w') → d = tool_dir.
Proof.
  unfold extract_file, try_except.
  match goal with |- context [match ?m w with _ => _ end] => set (body := m) end.
  destruct (body w) as [[r0|e] w0] eqn:Hbody.
  2:{ unfold mbind, M_bind, bind, gets. cbn beta iota.
      destruct (fs_is_dir tool_dir (fs w0)).
      - destruct (rmtree tool_dir w0) as [[[]|?] ?]; done.
      - done. }
  intros [= -> ->]. subst body. revert Hbody.
  rewrite bind_run. unfold gets at 1. cbn beta iota. rewrite bind_run.
  destruct ((if fs_is_dir tool_dir (fs w) then rmtree tool_dir else ret ()) w)
    as [[[]|e1] w1]; [|done].
  rewrite bind_run.
  destruct (mkdir_parents tool_dir w1) as [[[]|e2] w2]; [|done].
  rewrite bind_run.
  destruct (zip_open zi save_path w2) as [[infos|e3] w3]; [|done].
  cbn zeta. intros Hrun. by apply extract_members_result in Hrun as [-> _].
Qed.

Ltac advance Hacc H :=
  let T := fresh in
  pose proof (transitivity Hacc H) as T; clear Hacc H; rename T into Hacc.

(** A relation that every stage of a job respects, each at the paths the
    job hands to it, is respected by the job. *)
Lemma frame_install_tool_stages (R : relation World) `{!Reflexive R, !Transitive R}
    env tool_name tool_config :
  (∀ u, respects R (queue_put u)) →
  respects R read_flag →
  respects R (emit EvLogError) →
  (∀ s, respects R (emit (EvShowError s))) →
  respects R (download_file (http env) (url tool_config) [archive_name (url tool_config)]
                tool_name 3) →
  (∀ sp, respects R (extract_file (zip_infolist env) sp [archive_stem (url tool_config)]
                       tool_name)) →
  respects R (fix_directory_structure env [archive_stem (url tool_config)]
                (bin_subdir tool_config) (is_single_exe tool_config)) →
  (∀ d, respects R (add_to_system_path env d (bin_subdir tool_config)
                      (is_single_exe tool_config) tool_name)) →
  respects R check_all_completed →
  respects R (install_tool env tool_name tool_config).
Proof.
  intros Hq Hrf Hle Hse Hdl Hex Hfix Hreg Hchk w.
  assert (Hst : ∀ s, respects R (update_status tool_name s)) by (intros s; apply Hq).
  assert (∀ e, respects R (update_status tool_name StFailed ;; emit EvLogError ;;
                           emit (EvShowError "error") ;; ret (Failed e))) as Hh
    by (intros e; respects_tac).
  unfold install_tool, try_except.
  match goal with |- context [match ?m w with _ => _ end] => set (body := m) end.
  assert (Hb : R w (body w).2).
  { subst body.
    rewrite bind_run. pose proof (Hrf w) as Hacc.
    destruct (read_flag_ok w) as [c0 Hc0].
    destruct (read_flag w) as [r0 w1]; cbn [fst snd] in Hacc, Hc0. subst r0.
    destruct c0; [exact Hacc|]. cbn zeta.
    rewrite bind_run. unfold gets at 1. cbn beta iota. rewrite bind_run.
    match goal with |- context [match ?m w1 with _ => _ end] => set (stage_a := m) end.
    assert (Ha : respects R stage_a).
    { subst stage_a. destruct (existing_files w1 !! tool_name); respects_tac. }
    specialize (Ha w1). destruct (stage_a w1) as [[sp|e] w2]; cbn [snd] in Ha;
      advance Hacc Ha; [|exact Hacc].
    rewrite bind_run. pose proof (Hrf w2) as E.
    destruct (read_flag_ok w2) as [c1 Hc1].
    destruct (read_flag w2) as [r1 w3]; cbn [fst snd] in E, Hc1. subst r1.
    advance Hacc E. destruct c1; [exact Hacc|].
    rewrite bind_run. pose proof (Hst StExtracting w3) as E.
    destruct (update_status tool_name StExtracting w3) as [[[]|e] w4] eqn:Hu;
      [|by rewrite update_status_run in Hu].
    cbn [snd] in E. advance Hacc E. rewrite bind_run.
    pose proof (Hex sp w4) as E.
    destruct (extract_file (zip_infolist env) sp [archive_stem (url tool_config)]
                tool_name w4) as [[d|e] w5] eqn:Hrun; cbn [snd] in E;
      advance Hacc E; [|exact Hacc].
    rewrite bind_run. pose proof (Hrf w5) as E.
    destruct (read_flag_ok w5) as [c2 Hc2].
    destruct (read_flag w5) as [r2 w6]; cbn [fst snd] in E, Hc2. subst r2.
    advance Hacc E. destruct c2; [exact Hacc|].
    rewrite bind_run. pose proof (Hst StFixing w6) as E.
    destruct (update_status tool_name StFixing w6) as [[[]|e] w7] eqn:Hu2;
      [|by rewrite update_status_run in Hu2].
    cbn [snd] in E. advance Hacc E. rewrite bind_run.
    destruct d as [d|]; [|exact Hacc].
    apply extract_file_result_dir in Hrun as ->.
    pose proof (Hfix w7) as E.
    destruct (fix_directory_structure env [archive_stem (url tool_config)]
                (bin_subdir tool_config) (is_single_exe tool_config) w7)
      as [[actual|e] w8]; cbn [snd] in E; advance Hacc E; [|exact Hacc].
    rewrite bind_run. pose proof (Hrf w8) as E.
    destruct (read_flag_ok w8) as [c3 Hc3].
    destruct (read_flag w8) as [r3 w9]; cbn [fst snd] in E, Hc3. subst r3.
    advance Hacc E. destruct c3; [exact Hacc|].
    rewrite bind_run. pose proof (Hst StConfiguring w9) as E.
    destruct (update_status tool_name StConfiguring w9) as [[[]|e] w10] eqn:Hu3;
      [|by rewrite update_status_run in Hu3].
    cbn [snd] in E. advance Hacc E. rewrite bind_run.
    pose proof (Hreg actual w10) as E.
    destruct (add_to_system_path env actual (bin_subdir tool_config)
                (is_single_exe tool_config) tool_name w10) as [[[]|e] w11];
      cbn [snd] in E; advance Hacc E; [|exact Hacc].
    rewrite bind_run. pose proof (Hst StDone w11) as E.
    destruct (update_status tool_name StDone w11) as [[[]|e] w12] eqn:Hu4;
      [|by rewrite update_status_run in Hu4].
    cbn [snd] in E. advance Hacc E. rewrite bind_run.
    pose proof (Hchk w12) as E.
    destruct (check_all_completed w12) as [[[]|e] w13]; cbn [snd] in E;
      advance Hacc E; exact Hacc. }
  destruct (body w) as [[o|e] w0]; cbn [snd] in Hb |- *; [exact Hb|].
  etrans; [exact Hb|]. apply Hh.
Qed.

#[local] Instance same_fs_refl : Reflexive same_fs.
Proof. by intros w. Qed.
#[local] Instance same_fs_trans : Transitive same_fs.
Proof. intros w1 w2 w3 H1 H2. unfold same_fs in *. congruence. Qed.

Lemma same_fs_read_flag : respects same_fs read_flag.
Proof. intros w. apply read_flag_fs. Qed.

Lemma same_fs_add_to_system_path env d b s t : respects same_fs (add_to_system_path env d b s t).
Proof.
  assert (∀ u, respects same_fs (queue_put u)) by (by intros ? w0).
  assert (∀ e, respects same_fs (emit e)) by (by intros ? w0).
  assert (∀ x, respects same_fs (modify (set_user_path x))) by (by intros ? w0).
  unfold add_to_system_path. cbn zeta. respects_tac.
Qed.

Lemma same_fs_check_all_completed : respects same_fs check_all_completed.
Proof.
  pose proof same_fs_read_flag.
  assert (∀ e, respects same_fs (emit e)) by (by intros ? w0).
  assert (respects same_fs (modify (λ w, set_flag true (cancel_in w) w))) by (by intros w0).
  unfold check_all_completed. respects_tac.
Qed.

Lemma file_stays_install_tool env tool_name tool_config p d :
  ¬ [archive_name (url tool_config)] `prefix_of` p →
  ¬ [archive_stem (url tool_config)] `prefix_of` p →
  respects (file_stays p d) (install_tool env tool_name tool_config).
Proof.
  intros Harch Hdir.
  apply (@frame_install_tool_stages (file_stays p d) (file_stays_refl p d)
           (file_stays_trans p d)).
  - apply file_stays_queue_put.
  - apply file_stays_read_flag.
  - apply file_stays_emit.
  - intros s. apply file_stays_emit.
  - by apply file_stays_download_file.
  - intros sp. by apply file_stays_extract_file.
  - by apply file_stays_fix_directory_structure.
  - intros d0 w0 H. by rewrite (same_fs_add_to_system_path _ _ _ _ _ w0).
  - intros w0 H. by rewrite (same_fs_check_all_completed w0).
Qed.

(** X23. A job changes no file of the chosen directory other than its own
    archive and what lies in its own installation directory: a file at any
    other place keeps its place and its content, however the job ends. *)
Theorem install_tool_other_files_untouched env tool_name tool_config p d w :
  ¬ [archive_name (url tool_config)] `prefix_of` p →
  ¬ [archive_stem (url tool_config)] `prefix_of` p →
  fs_lookup p (fs w) = Some (File d) →
  fs_lookup p (fs (install_tool env tool_name tool_config w).2) = Some (File d).
Proof. intros Harch Hdir. by apply file_stays_install_tool. Qed.

Lemma install_tool_other_files_untouched_witness :
  fs_lookup ["notes.txt"]
    (fs (install_tool toy_env "CMake" cmake_config
           (scan_existing_files (init_app cmake_archive_with_notes "")).2).2)
    = Some (File "keep").
Proof.
  apply (install_tool_other_files_untouched toy_env "CMake" cmake_config ["notes.txt"] "keep"
           (scan_existing_files (init_app cmake_archive_with_notes "")).2).
  - intros [k Hk]. vm_compute in Hk. discriminate.
  - intros [k Hk]. vm_compute in Hk. discriminate.
  - vm_compute. reflexivity.
Defined.

(** ** The completion notice and the worker's own thread *)

Lemma completion_notices_snoc tr e :
  e ≠ EvShowInfo "installation complete" →
  completion_notices (tr ++ [e]) = completion_notices tr.
Proof.
  intros He. unfold completion_notices. rewrite List.filter_app, length_app.
  destruct e; simpl; try lia.
  destruct (String.eqb_spec title "installation complete") as [->|_]; [done|simpl; lia].
Qed.

Section no_notice_facts.
Context (tool : string).

#[local] Instance no_notice_refl : Reflexive (no_notice_while_alive tool).
Proof. by intros w H. Qed.
#[local] Instance no_notice_trans : Transitive (no_notice_while_alive tool).
Proof.
  intros w1 w2 w3 H1 H2 H. destruct (H1 H) as [Ht1 Hn1]. destruct (H2 Ht1) as [Ht2 Hn2].
  split; [done|congruence].
Qed.

Lemma no_notice_set_fs f : respects (no_notice_while_alive tool) (modify (set_fs f)).
Proof. by intros w H. Qed.
Lemma no_notice_queue_put u : respects (no_notice_while_alive tool) (queue_put u).
Proof. by intros w H. Qed.
Lemma no_notice_set_user_path s :
  respects (no_notice_while_alive tool) (modify (set_user_path s)).
Proof. by intros w H. Qed.
Lemma no_notice_read_flag : respects (no_notice_while_alive tool) read_flag.
Proof.
  intros w H. rewrite read_flag_trace. split; [|done].
  unfold read_flag. by destruct (cancel_in w) as [[|k]|].
Qed.
Lemma no_notice_emit e :
  e ≠ EvShowInfo "installation complete" →
  respects (no_notice_while_alive tool) (emit e).
Proof. intros He w H. split; [done|]. simpl. by apply completion_notices_snoc. Qed.
Lemma no_notice_check_all_completed :
  respects (no_notice_while_alive tool) check_all_completed.
Proof. intros w H. by rewrite (check_all_completed_own_thread_alive w tool H). Qed.

Lemma no_notice_install_tool env tool_config :
  respects (no_notice_while_alive tool) (install_tool env tool tool_config).
Proof.
  pose proof no_notice_set_fs as B1. pose proof no_notice_queue_put as B2.
  pose proof no_notice_read_flag as B3. pose proof no_notice_set_user_path as B4.
  assert (B5 : respects (no_notice_while_alive tool) (emit EvLogWarning))
    by (by apply no_notice_emit).
  assert (B6 : respects (no_notice_while_alive tool) (emit EvLogInfo))
    by (by apply no_notice_emit).
  assert (B7 : ∀ u, respects (no_notice_while_alive tool) (emit (EvRequest u)))
    by (intros; by apply no_notice_emit).
  assert (B8 : ∀ n, respects (no_notice_while_alive tool) (emit (EvSleep n)))
    by (intros; by apply no_notice_emit).
  assert (B9 : respects (no_notice_while_alive tool) (emit (EvShowInfo "configured")))
    by (by apply no_notice_emit).
  apply frame_install_tool_stages; try apply _; auto.
  - by apply no_notice_emit.
  - intros s. by apply no_notice_emit.
  - apply frame_download_file; auto; apply _.
  - intros sp. apply frame_extract_file; auto; apply _.
  - apply frame_fix_directory_structure; auto; apply _.
  - intros d. unfold add_to_system_path. cbn zeta. respects_tac.
  - apply no_notice_check_all_completed.
Qed.
End no_notice_facts.

(** X24. A job that runs in a thread registered as alive never shows the
    completion notice: when it comes to [check_all_completed], the test
    finds its own thread alive. *)
Theorem install_tool_never_announces env tool_name tool_config w :
  threads w !! tool_name = Some true →
  completion_notices (trace (install_tool env tool_name tool_config w).2)
    = completion_notices (trace w).
Proof. intros H. by apply (no_notice_install_tool tool_name env tool_config w). Qed.

Lemma install_tool_never_announces_witness :
  let w := (start_installation (scan_existing_files (init_app cmake_archive_only "")).2).2 in
  completion_notices (trace (install_tool toy_env "CMake" cmake_config w).2)
    = completion_notices (trace w).
Proof.
  apply (install_tool_never_announces toy_env "CMake" cmake_config
           (start_installation (scan_existing_files (init_app cmake_archive_only "")).2).2).
  vm_compute. reflexivity.
Defined.

(** ** Jobs of different tools *)

Lemma catalogue_names_apart t1 c1 t2 c2 :
  (t1, c1) ∈ TOOLS → (t2, c2) ∈ TOOLS → t1 ≠ t2 →
  archive_name (url c1) ≠ archive_name (url c2)
  ∧ archive_name (url c1) ≠ archive_stem (url c2)
  ∧ archive_stem (url c1) ≠ archive_name (url c2)
  ∧ archive_stem (url c1) ≠ archive_stem (url c2).
Proof.
  unfold TOOLS. intros H1 H2 Hne.
  repeat (apply elem_of_cons in H1 as [H1|H1]; [injection H1 as -> ->|]);
    [..|by apply elem_of_nil in H1];
    (repeat (apply elem_of_cons in H2 as [H2|H2]; [injection H2 as -> ->|]);
     [..|by apply elem_of_nil in H2]);
    try done; vm_compute; split_and!; discriminate.
Qed.

Lemma not_prefix_singleton (x : string) (p : path) y q :
  p = y :: q → x ≠ y → ¬ [x] `prefix_of` p.
Proof. intros -> Hne [k [= ? _]]. done. Qed.

(** X25. The jobs of two different tools of the catalogue keep out of each
    other's way on disk: the job of one changes neither the archive of the
    other nor any file in the installation directory of the other. *)
Theorem install_tool_jobs_apart env t1 c1 t2 c2 p d w :
  (t1, c1) ∈ TOOLS → (t2, c2) ∈ TOOLS → t1 ≠ t2 →
  [archive_name (url c2)] `prefix_of` p ∨ [archive_stem (url c2)] `prefix_of` p →
  fs_lookup p (fs w) = Some (File d) →
  fs_lookup p (fs (install_tool env t1 c1 w).2) = Some (File d).
Proof.
  intros H1 H2 Hne Hp.
  destruct (catalogue_names_apart t1 c1 t2 c2 H1 H2 Hne) as (N1 & N2 & N3 & N4).
  destruct Hp as [[k ->]|[k ->]];
    apply file_stays_install_tool; by eapply not_prefix_singleton.
Qed.

Lemma install_tool_jobs_apart_witness :
  fs_lookup ["cmake-4.0.1-windows-x86_64.zip"]
    (fs (install_tool toy_env "Ninja" ninja_config (init_app cmake_archive_only "")).2)
    = Some (File "PK-wrapped").
Proof.
  apply (install_tool_jobs_apart toy_env "Ninja" ninja_config "CMake" cmake_config
           ["cmake-4.0.1-windows-x86_64.zip"] "PK-wrapped" (init_app cmake_archive_only "")).
  - vm_compute. do 3 right. left.
  - vm_compute. do 2 right. left.
  - discriminate.
  - left. by exists [].
  - vm_compute. reflexivity.
Defined.

(** ** Registering a directory more than once *)

Lemma add_to_system_path_accepted env (tool_dir : path) (bin_subdir : string)
    (is_single_exe : bool) (tool_name : string) w :
  let target := path_text (save_dir w)
                  (if is_single_exe then tool_dir else join tool_dir bin_subdir) in
  quote_free target = true → ps_accepts env = true →
  ∃ w', add_to_system_path env tool_dir bin_subdir is_single_exe tool_name w = (Ok tt, w')
        ∧ user_path w' = user_path w +:+ ";" +:+ target
        ∧ save_dir w' = save_dir w.
Proof.
  intros target Hq Hacc. unfold add_to_system_path, try_except.
  rewrite !bind_run. unfold gets. cbn beta iota zeta. rewrite !bind_run. cbn beta iota zeta.
  fold target.
  rewrite (run_powershell_set_path env target (user_path w) Hq), Hacc.
  msimpl. eexists. split_and!; reflexivity.
Qed.

(** X26. The registrar does not look at what PATH holds: registering the
    same directory a second time, as a second installation into the same
    place does, appends the same entry once more. *)
Theorem add_to_system_path_twice env (tool_dir : path) (bin_subdir : string)
    (is_single_exe : bool) (tool_name : string) w :
  let target := path_text (save_dir w)
                  (if is_single_exe then tool_dir else join tool_dir bin_subdir) in
  quote_free target = true → ps_accepts env = true →
  ∃ w1 w2,
    add_to_system_path env tool_dir bin_subdir is_single_exe tool_name w = (Ok tt, w1)
    ∧ add_to_system_path env tool_dir bin_subdir is_single_exe tool_name w1 = (Ok tt, w2)
    ∧ user_path w2 = (user_path w +:+ ";" +:+ target) +:+ ";" +:+ target.
Proof.
  intros target Hq Hacc.
  destruct (add_to_system_path_accepted env tool_dir bin_subdir is_single_exe tool_name w
              Hq Hacc) as (w1 & Hrun1 & Hp1 & Hs1).
  destruct (add_to_system_path_accepted env tool_dir bin_subdir is_single_exe tool_name w1)
    as (w2 & Hrun2 & Hp2 & _); [by rewrite Hs1|done|].
  exists w1, w2. split_and!; [done..|]. rewrite Hp2, Hp1, Hs1. reflexivity.
Qed.

Lemma add_to_system_path_twice_witness :
  let w := init_app (Dir ∅) "C:\Windows" in
  ∃ w1 w2,
    add_to_system_path toy_env ["ninja-win"] "" true "Ninja" w = (Ok tt, w1)
    ∧ add_to_system_path toy_env ["ninja-win"] "" true "Ninja" w1 = (Ok tt, w2)
    ∧ user_path w2 = ("C:\Windows" +:+ ";" +:+ "C:\tools\ninja-win")
                       +:+ ";" +:+ "C:\tools\ninja-win".
Proof.
  apply (add_to_system_path_twice toy_env ["ninja-win"] "" true "Ninja"
           (init_app (Dir ∅) "C:\Windows")); reflexivity.
Defined.

(** ** Moving the contents of the nested directory up *)

(** X27. [move_contents] from the subdirectory [X] of a directory into
    that directory itself, where [X] holds no entry called [X]: every entry
    of [X] ends up directly in the directory, replacing an entry of the
    same name there; the other entries of the directory stay; and [X] is
    left behind empty. *)
Theorem move_contents_moves_up base X w mb mx :
  fs_lookup base (fs w) = Some (Dir mb) →
  mb !! X = Some (Dir mx) → mx !! X = None →
  ∃ w', move_contents (base ++ [X]) base w = (Ok tt, w')
  ∧ fs_lookup (base ++ [X]) (fs w') = Some (Dir ∅)
  ∧ ∀ n, n ≠ X →
      fs_lookup (base ++ [n]) (fs w') =
        match mx !! n with Some v => Some v | None => mb !! n end.
Proof.
  intros Hb HX Hfresh.
  destruct (move_contents_ok base X w mb mx Hb HX Hfresh) as (f' & Hrun & Hf').
  eexists. split; [exact Hrun|]. cbn [fs set_fs].
  split.
  - by rewrite (fs_lookup_child _ _ _ _ Hf'), lookup_insert_eq.
  - intros n Hn. rewrite (fs_lookup_child _ _ _ _ Hf'), lookup_insert_ne by done.
    rewrite lookup_union. destruct (mx !! n), (mb !! n); done.
Qed.

Lemma move_contents_moves_up_witness :
  ∃ w', move_contents ([cmake_root] ++ [cmake_root]) [cmake_root] (init_app cmake_tree "")
        = (Ok tt, w')
  ∧ fs_lookup ([cmake_root] ++ [cmake_root]) (fs w') = Some (Dir ∅)
  ∧ ∀ n, n ≠ cmake_root →
      fs_lookup ([cmake_root] ++ [n]) (fs w') =
        match cmake_payload !! n with Some v => Some v | None => cmake_wrapped !! n end.
Proof.
  apply (move_contents_moves_up [cmake_root] cmake_root (init_app cmake_tree "")
           cmake_wrapped cmake_payload); reflexivity.
Defined.

(** ** Situations in which the normaliser does nothing *)

Lemma fix_directory_structure_unchanged_witness :
  fix_directory_structure offline_env [] "bin" false (init_app cmake_archive_only "")
    = (Ok [], init_app cmake_archive_only "").
Proof.
  eapply (fix_directory_structure_unchanged offline_env [] "bin" false
            (init_app cmake_archive_only "")); [reflexivity|].
  right; right; left. vm_compute. lia.
Defined.

(** ** A cancel during the extraction *)

Lemma extract_file_cancelled_directory_stays_witness :
  ∃ w', extract_file toy_zip_infolist ["cmake-4.0.1-windows-x86_64.zip"] ["t"] "T"
          (user_cancels_at 1 (init_app cmake_archive_only "")) = (Ok None, w')
  ∧ fs_is_dir ["t"] (fs w') = true.
Proof.
  eexists. split; [vm_compute; reflexivity|].
  apply (extract_file_cancelled_directory_stays toy_zip_infolist
           ["cmake-4.0.1-windows-x86_64.zip"] ["t"] "T"
           (user_cancels_at 1 (init_app cmake_archive_only ""))).
  vm_compute. reflexivity.
Defined.

(** ** The bars at the start of an installation *)

#[local] Instance same_step_bars_refl :
  Reflexive (λ w w', step_progress_bars w' = step_progress_bars w).
Proof. by intros w. Qed.
#[local] Instance same_step_bars_trans :
  Transitive (λ w w', step_progress_bars w' = step_progress_bars w).
Proof. intros w1 w2 w3 H1 H2. congruence. Qed.

Lemma start_installation_resets_steps w tool_name step :
  tool_name ∈ TOOLS.*1 → step ∈ INSTALL_STEPS →
  step_progress_bars (start_installation w).2 !! (tool_name, step) = Some 0%Q.
Proof.
  intros H Hs. unfold start_installation.
  rewrite bind_run. unfold modify at 1. cbn beta iota.
  rewrite bind_run.
  match goal with |- context [for_each TOOLS ?body ?w0] =>
    replace (for_each TOOLS body w0)
      with (for_each TOOLS (λ t : string * ToolConfig, modify (λ w,
              set_widgets (<[t.1 := 0%Q]> (progress_bars w))
                (foldl (λ sb step, <[(t.1, step) := 0%Q]> sb) (step_progress_bars w)
                   INSTALL_STEPS)
                (status_labels w) w)) w0);
      [|unfold TOOLS; reflexivity]
  end.
  rewrite for_each_modify.
  match goal with |- context [(?m ≫= ?k) ?w0] =>
    assert (Hfr : respects (λ w w', step_progress_bars w' = step_progress_bars w) (m ≫= k));
      [|rewrite (Hfr w0)]
  end.
  { respects_tac; by intros ?. }
  cbn in H. unfold TOOLS, INSTALL_STEPS in *.
  cbn [foldl fst step_progress_bars set_widgets].
  repeat (apply elem_of_cons in H as [->|H];
          [repeat (apply elem_of_cons in Hs as [->|Hs];
                   [repeat first [rewrite lookup_insert_eq; reflexivity
                                 | rewrite lookup_insert_ne by done]|]);
           by apply elem_of_nil in Hs|]).
  by apply elem_of_nil in H.
Qed.

(** X30. [start_installation] puts the overall bar and every step bar of
    every tool of the catalogue at 0, whatever they showed, also the
    "download" bar of a tool whose archive is on record. *)
Theorem start_installation_bars_zero w tool_name step :
  tool_name ∈ TOOLS.*1 → step ∈ INSTALL_STEPS →
  progress_bars (start_installation w).2 !! tool_name = Some 0%Q
  ∧ step_progress_bars (start_installation w).2 !! (tool_name, step) = Some 0%Q.
Proof.
  intros H Hs. split; [|by apply start_installation_resets_steps].
  apply list_elem_of_fmap in H as ([t c] & -> & Hin).
  by apply (start_installation_resets w t c).
Qed.

Lemma start_installation_bars_zero_witness :
  let w := (scan_existing_files (init_app cmake_archive_only "")).2 in
  progress_bars (start_installation w).2 !! "CMake" = Some 0%Q
  ∧ step_progress_bars (start_installation w).2 !! ("CMake", "download") = Some 0%Q.
Proof.
  apply (start_installation_bars_zero
           (scan_existing_files (init_app cmake_archive_only "")).2 "CMake" "download").
  - vm_compute. do 2 right. left.
  - left.
Defined.
